(** * okane-skills: the ledger analyzer and editor, embedded and verified

    The two scripts [scripts/okane_analyzer.py] and [scripts/okane_editor.py]
    work on a JSON ledger: an optional opening balance and a list of dated
    income / expense records.  This development embeds the functions that
    compute balances, danger points, forecasts, affordability, compression
    and the add / edit / delete / search operations, and proves the
    properties the specification states about them.  It then covers the
    rest of the computations of the scripts: the dispatch of the two [main]
    functions, the figures of the summary and of the verdict, the text of
    an amount and the data of the interactive chart, with the properties
    the code shows of them and of their composition.

    Conventions of the embedding:
    - Python [int] is [Z]; Python [str] is [string], holding the UTF-8
      text of the [str], compared with [String.leb] (lexicographic, as
      Python compares [str]); a slice [s[:n]] and [len] count characters
      ([Py.slice_to], [Py.len]), not bytes;
    - [strftime] writes the year as the C library does, without leading
      zeros: a month is ['2026-11'] but ['999-12'] in the year 999;
    - an argument that may be [None] is an [option]; Python truthiness of
      such an argument is [Py.truthy];
    - the wall clock ([datetime.now()]), the id generator and [str.lower]
      are inputs of the functions that use them;
    - [datetime] / [relativedelta] arithmetic that raises ([ValueError],
      [OverflowError]) yields [None]. *)

From stdpp Require Import gmap strings list sorting.
From Stdlib Require Import ZArith Ascii DecimalString DecimalN.

Local Open Scope Z_scope.

(** ** Data model *)

(** One record of [data['transactions']]: the keys ['id'], ['date'],
    ['type'], ['amount'] and ['description']. *)
Record transaction := Transaction {
  tx_id : string;
  tx_date : string;
  tx_type : string;
  tx_amount : Z;
  tx_description : string
}.

Global Instance transaction_eq_dec : EqDecision transaction.
Proof. solve_decision. Defined.

(** The JSON document; ['initialBalance'], ['compressed'] and
    ['compressedAt'] may be absent. *)
Record ledger := Ledger {
  initialBalance : option Z;
  transactions : list transaction;
  compressed : option bool;
  compressedAt : option string
}.

Definition set_transactions (data : ledger) (txs : list transaction) : ledger :=
  {| initialBalance := initialBalance data;
     transactions := txs;
     compressed := compressed data;
     compressedAt := compressedAt data |}.

(** The schema of the ['type'] key and of the ['date'] key. *)
Definition well_typed (t : transaction) : Prop :=
  tx_type t = "income" ∨ tx_type t = "expense".

Definition dated (t : transaction) : Prop := tx_date t ≠ "".

(** ** Python built-ins used by the scripts *)

Module Py.

(** [if s:] for an argument [s : Optional[str]]. *)
Definition truthy (s : option string) : bool :=
  match s with
  | Some s => negb (s =? "")%string
  | None => false
  end.

(** [sorted(l, key=...)] is a stable sort.  [le x y] says that [x] may
    stay in front of [y]; an element is inserted in front of the first
    one it may stay in front of, so equal keys keep their order. *)
Section Sorting.
Context {A : Type} (le : A → A → bool).

Fixpoint insert (x : A) (l : list A) : list A :=
  match l with
  | [] => [x]
  | y :: l' => if le x y then x :: l else y :: insert x l'
  end.

Definition sorted (l : list A) : list A := foldr insert [] l.

(** Two elements the sort may not tell apart. *)
Definition same_rank (x y : A) : bool := le x y && le y x.
End Sorting.

(** A [str] is held as its UTF-8 text, whose order byte by byte is the
    order of [str] character by character.  A character is a byte that is
    no continuation byte [10xxxxxx], with the continuation bytes that its
    first bits announce: none after [0xxxxxxx], one after [110xxxxx], two
    after [1110xxxx], three after [11110xxx]. *)
Definition continuation (c : ascii) : bool :=
  match c with Ascii _ _ _ _ _ _ b6 b7 => b7 && negb b6 end.

Definition following_bytes (c : ascii) : nat :=
  match c with
  | Ascii _ _ _ _ _ false true true => 1
  | Ascii _ _ _ _ false true true true => 2
  | Ascii _ _ _ false true true true true => 3
  | _ => 0
  end.

(** The byte [c] goes on with the character under way, which still
    expects [pending] continuation bytes. *)
Definition continues (pending : nat) (c : ascii) : bool :=
  match pending with
  | O => false
  | S _ => continuation c
  end.

(** [s[:n]]: the first [n] characters. *)
Fixpoint slice_from (pending n : nat) (s : string) : string :=
  match s with
  | EmptyString => EmptyString
  | String c s' =>
      if continues pending c
      then String c (slice_from (Nat.pred pending) n s')
      else match n with
           | O => EmptyString
           | S n' => String c (slice_from (following_bytes c) n' s')
           end
  end.

Definition slice_to (n : nat) (s : string) : string := slice_from 0 n s.

(** [len(s)]: the number of characters. *)
Fixpoint len_from (pending : nat) (s : string) : nat :=
  match s with
  | EmptyString => O
  | String c s' =>
      if continues pending c
      then len_from (Nat.pred pending) s'
      else S (len_from (following_bytes c) s')
  end.

Definition len (s : string) : nat := len_from 0 s.

(** A text of ASCII characters only. *)
Fixpoint isascii (s : string) : bool :=
  match s with
  | EmptyString => true
  | String (Ascii _ _ _ _ _ _ _ b7) s' => negb b7 && isascii s'
  end.

(** [s.startswith(p)] *)
Definition startswith (s p : string) : bool := String.prefix p s.

(** [needle in hay] on strings. *)
Fixpoint contains (needle hay : string) : bool :=
  String.prefix needle hay ||
  match hay with
  | EmptyString => false
  | String _ hay' => contains needle hay'
  end.

(** [sum(t['amount'] for t in l)] *)
Definition sum_amounts (l : list transaction) : Z :=
  foldr (λ t acc, tx_amount t + acc) 0 l.

(** [range(n)] *)
Definition range (n : Z) : list Z := Z.of_nat <$> seq 0 (Z.to_nat n).

End Py.

(** [sorted(txs, key=lambda x: x['date'])] and the same with
    [reverse=True] (which keeps the order of equal keys as well). *)
Definition date_le (a b : transaction) : bool := (tx_date a <=? tx_date b)%string.
Definition date_ge (a b : transaction) : bool := (tx_date b <=? tx_date a)%string.

Definition sorted_by_date : list transaction → list transaction := Py.sorted date_le.
Definition sorted_by_date_reverse : list transaction → list transaction := Py.sorted date_ge.

(** ** Analyzer: balance at a date *)

Definition is_income (t : transaction) : bool := (tx_type t =? "income")%string.
Definition is_expense (t : transaction) : bool := (tx_type t =? "expense")%string.

(** The branch [if t['type'] == 'income': balance += ... else: balance -= ...] *)
Definition apply_tx (balance : Z) (t : transaction) : Z :=
  if is_income t then balance + tx_amount t else balance - tx_amount t.

Definition get_balance_at_date (data : ledger) (target_date : string) : Z :=
  fold_left
    (λ balance t,
       if (tx_date t <=? target_date)%string then apply_tx balance t else balance)
    (transactions data)
    (default 0 (initialBalance data)).

(** ** Analyzer: danger points *)

Record danger_point := DangerPoint {
  dp_date : string;
  dp_balance : Z;
  dp_shortfall : Z
}.

(** The local variables of [find_danger_points] that the loop updates. *)
Record danger_state := DangerState {
  st_balance : Z;
  st_danger_points : list danger_point;
  st_balance_history : list (string * Z);
  st_current_date : option string;
  st_daily_balance : Z
}.

(** The block that records the day [current_date]: one history sample, and
    a danger point when the day's balance is at or below the threshold. *)
Definition flush (threshold : Z) (current_date : string) (st : danger_state) : danger_state :=
  {| st_balance := st_balance st;
     st_danger_points :=
       if st_daily_balance st <=? threshold
       then st_danger_points st ++
            [ {| dp_date := current_date;
                 dp_balance := st_daily_balance st;
                 dp_shortfall := threshold - st_daily_balance st |} ]
       else st_danger_points st;
     st_balance_history := st_balance_history st ++ [(current_date, st_daily_balance st)];
     st_current_date := st_current_date st;
     st_daily_balance := st_daily_balance st |}.

(** [if current_date and t['date'] != current_date: ...] *)
Definition flush_on_change (threshold : Z) (t : transaction) (st : danger_state) : danger_state :=
  match st_current_date st with
  | Some d =>
      if Py.truthy (Some d) && negb (tx_date t =? d)%string
      then flush threshold d st else st
  | None => st
  end.

(** One iteration of [for t in transactions]. *)
Definition danger_step (threshold : Z) (st : danger_state) (t : transaction) : danger_state :=
  let st1 := flush_on_change threshold t st in
  let balance := apply_tx (st_balance st1) t in
  {| st_balance := balance;
     st_danger_points := st_danger_points st1;
     st_balance_history := st_balance_history st1;
     st_current_date := Some (tx_date t);
     st_daily_balance := balance |}.

(** [if current_date: ...] after the loop. *)
Definition flush_last (threshold : Z) (st : danger_state) : danger_state :=
  match st_current_date st with
  | Some d => if Py.truthy (Some d) then flush threshold d st else st
  | None => st
  end.

Definition danger_init (data : ledger) : danger_state :=
  let balance := default 0 (initialBalance data) in
  {| st_balance := balance;
     st_danger_points := [];
     st_balance_history := [];
     st_current_date := None;
     st_daily_balance := balance |}.

Definition find_danger_points (data : ledger) (threshold : Z) : list danger_point :=
  let txs := sorted_by_date (transactions data) in
  st_danger_points
    (flush_last threshold (fold_left (danger_step threshold) txs (danger_init data))).

(** ** Analyzer: affordability *)

Record affordability := Affordability {
  af_target_date : string;
  af_expense_amount : Z;
  af_balance_before : Z;
  af_balance_after : Z;
  af_can_afford : bool;
  af_safety_margin : Z;
  af_upcoming_expenses : list transaction;
  af_warning : bool
}.

(** [check_affordability]; the local [total_upcoming], a sum that is
    computed and never used, is left out. *)
Definition check_affordability (data : ledger) (amount : Z) (target_date : string)
  : affordability :=
  let balance_before := get_balance_at_date data target_date in
  let balance_after := balance_before - amount in
  let upcoming_expenses :=
    List.filter (λ t, (target_date <? tx_date t)%string && is_expense t)
                (transactions data) in
  {| af_target_date := target_date;
     af_expense_amount := amount;
     af_balance_before := balance_before;
     af_balance_after := balance_after;
     af_can_afford := 0 <=? balance_after;
     af_safety_margin := balance_after;
     af_upcoming_expenses := take 5 upcoming_expenses;
     af_warning := balance_after <? 100000 |}.

(** ** Calendar: [datetime], [timedelta] and [relativedelta]

    Dates of the proleptic Gregorian calendar between years [MINYEAR] and
    [MAXYEAR]; every operation that would leave this range raises in Python
    and is [None] here.  Only the date part of a [datetime] is used by the
    scripts. *)

Module Calendar.

Record datetime := Datetime { year : Z; month : Z; day : Z }.

Definition MINYEAR : Z := 1.
Definition MAXYEAR : Z := 9999.

Definition is_leap (y : Z) : bool :=
  (y mod 4 =? 0) && (negb (y mod 100 =? 0) || (y mod 400 =? 0)).

Definition days_in_month (y m : Z) : Z :=
  if m =? 2 then (if is_leap y then 29 else 28)
  else if (m =? 4) || (m =? 6) || (m =? 9) || (m =? 11) then 30
  else 31.

Definition valid (dt : datetime) : bool :=
  (MINYEAR <=? year dt) && (year dt <=? MAXYEAR) &&
  (1 <=? month dt) && (month dt <=? 12) &&
  (1 <=? day dt) && (day dt <=? days_in_month (year dt) (month dt)).

(** The constructor [datetime(y, m, d)]: [ValueError] on an invalid date. *)
Definition make (y m d : Z) : option datetime :=
  let dt := Datetime y m d in if valid dt then Some dt else None.

(** [dt.replace(day=d)] *)
Definition replace_day (dt : datetime) (d : Z) : option datetime :=
  make (year dt) (month dt) d.

(** [dt + timedelta(days=1)] and [dt - timedelta(days=1)] *)
Definition tomorrow (dt : datetime) : option datetime :=
  if day dt <? days_in_month (year dt) (month dt)
  then make (year dt) (month dt) (day dt + 1)
  else if month dt <? 12 then make (year dt) (month dt + 1) 1
  else make (year dt + 1) 1 1.

Definition yesterday (dt : datetime) : option datetime :=
  if 1 <? day dt then make (year dt) (month dt) (day dt - 1)
  else if 1 <? month dt
  then make (year dt) (month dt - 1) (days_in_month (year dt) (month dt - 1))
  else make (year dt - 1) 12 31.

(** [dt + timedelta(days=n)], for [n] of either sign. *)
Definition add_days (dt : datetime) (n : Z) : option datetime :=
  if 0 <=? n
  then Nat.iter (Z.to_nat n) (λ o, o ≫= tomorrow) (Some dt)
  else Nat.iter (Z.to_nat (- n)) (λ o, o ≫= yesterday) (Some dt).

(** [dt + relativedelta(months=n)]: the month moves by [n], carrying into
    the year, and the day is clipped to the length of the new month. *)
Definition add_months (dt : datetime) (n : Z) : option datetime :=
  let total := year dt * 12 + (month dt - 1) + n in
  let y := total / 12 in
  let m := total mod 12 + 1 in
  make y m (Z.min (days_in_month y m) (day dt)).

(** Decimal digits. *)
Definition digit (n : Z) : ascii := ascii_of_nat (48 + Z.to_nat (n mod 10)).

(** [%m] and [%d]: two digits, zero padded. *)
Definition fmt2 (n : Z) : string :=
  String (digit (n / 10)) (String (digit n) EmptyString).

(** [%Y] as the C library under the scripts writes it: the year in
    decimal, without leading zeros (["999"] for the year 999). *)
Definition fmt_year (n : Z) : string :=
  if n <? 10 then String (digit n) EmptyString
  else if n <? 100 then fmt2 n
  else if n <? 1000 then String (digit (n / 100)) (fmt2 n)
  else String (digit (n / 1000)) (String (digit (n / 100)) (fmt2 n)).

(** [dt.strftime('%Y-%m')] and [dt.strftime('%Y-%m-%d')] *)
Definition strftime_Ym (dt : datetime) : string :=
  fmt_year (year dt) +:+ "-" +:+ fmt2 (month dt).

Definition strftime_Ymd (dt : datetime) : string :=
  strftime_Ym dt +:+ "-" +:+ fmt2 (day dt).

End Calendar.

(** ** Analyzer: forecast *)

Record forecast_entry := ForecastEntry {
  fc_month : string;
  fc_date : string;
  fc_balance : Z;
  fc_big_items : list transaction
}.

(** The end-of-month rule of the loop body:
    [next_month = target.replace(day=28) + timedelta(days=4)], then
    [next_month - timedelta(days=next_month.day)]. *)
Definition month_end (target : Calendar.datetime) : option Calendar.datetime :=
  d28 ← Calendar.replace_day target 28;
  next_month ← Calendar.add_days d28 4;
  Calendar.add_days next_month (- Calendar.day next_month).

(** The body of [for i in range(months_ahead + 1)]; [today] is the value
    of [datetime.now()]. *)
Definition forecast_entry_at (today : Calendar.datetime) (data : ledger) (i : Z)
  : option forecast_entry :=
  target ← Calendar.add_months today i;
  target_date ←
    (if i =? 0 then Some (Calendar.strftime_Ymd today)
     else Calendar.strftime_Ymd <$> month_end target);
  let balance := get_balance_at_date data target_date in
  let month_str := Calendar.strftime_Ym target in
  let big_items :=
    List.filter (λ t, Py.startswith (tx_date t) month_str && (100000 <=? tx_amount t))
                (transactions data) in
  Some {| fc_month := month_str;
          fc_date := target_date;
          fc_balance := balance;
          fc_big_items := big_items |}.

Definition forecast_balance (today : Calendar.datetime) (data : ledger) (months_ahead : Z)
  : option (list forecast_entry) :=
  mapM (forecast_entry_at today data) (Py.range (months_ahead + 1)).

(** ** Analyzer: compression *)

(** The value [{'income': .., 'expense': ..}] of one month of
    [monthly_summary]. *)
Record month_summary := MonthSummary { ms_income : Z; ms_expense : Z }.

(** [monthly_summary[month]] on the [defaultdict]: a missing month reads as
    two zeros. *)
Definition summary_get (summary : gmap string month_summary) (month : string)
  : month_summary :=
  default (MonthSummary 0 0) (summary !! month).

Definition summary_add (summary : gmap string month_summary) (month : string)
    (t : transaction) : gmap string month_summary :=
  let s := summary_get summary month in
  if is_income t
  then <[month := MonthSummary (ms_income s + tx_amount t) (ms_expense s)]> summary
  else <[month := MonthSummary (ms_income s) (ms_expense s + tx_amount t)]> summary.

Definition month_of (t : transaction) : string := Py.slice_to 7 (tx_date t).

(** One iteration of the first loop, on the pair
    [(monthly_summary, new_transactions)]. *)
Definition compress_step (cutoff : string)
    (st : gmap string month_summary * list transaction) (t : transaction)
  : gmap string month_summary * list transaction :=
  let month := month_of t in
  if (month <? cutoff)%string
  then (summary_add st.1 month t, st.2)
  else (st.1, st.2 ++ [t]).

(** The transactions one month of the summary turns into: [s] is
    [monthly_summary[month]]. *)
Definition synthetic_of (s : month_summary) (month : string) : list transaction :=
  (if 0 <? ms_income s
   then [ {| tx_id := "compressed-" +:+ month +:+ "-income";
             tx_date := month +:+ "-01";
             tx_type := "income";
             tx_amount := ms_income s;
             tx_description := month +:+ "収入合計（圧縮）" |} ]
   else []) ++
  (if 0 <? ms_expense s
   then [ {| tx_id := "compressed-" +:+ month +:+ "-expense";
             tx_date := month +:+ "-01";
             tx_type := "expense";
             tx_amount := ms_expense s;
             tx_description := month +:+ "支出合計（圧縮）" |} ]
   else []).

Definition synthetic (summary : gmap string month_summary) (month : string)
  : list transaction :=
  synthetic_of (summary_get summary month) month.

(** [sorted(monthly_summary.keys())] *)
Definition sorted_keys (summary : gmap string month_summary) : list string :=
  Py.sorted String.leb (map_to_list summary).*1.

(** The body of [compress_logs] below the computation of [cutoff];
    [now_iso] is [datetime.now().isoformat()]. *)
Definition compress_with (cutoff now_iso : string) (data : ledger) : ledger :=
  let '(monthly_summary, new_transactions) :=
    fold_left (compress_step cutoff) (transactions data) (∅, []) in
  let compressed :=
    mjoin (synthetic monthly_summary <$> sorted_keys monthly_summary) in
  {| initialBalance := initialBalance data;
     transactions := compressed ++ new_transactions;
     compressed := Some true;
     compressedAt := Some now_iso |}.

Definition compress_logs (today : Calendar.datetime) (now_iso : string)
    (data : ledger) (keep_months : Z) : option ledger :=
  cutoff ← Calendar.strftime_Ym <$> Calendar.add_months today (- keep_months);
  Some (compress_with cutoff now_iso data).

(** ** Editor *)

(** [add_transaction]; [new_id] is the value of [generate_id()]. *)
Definition add_transaction (new_id : string) (data : ledger)
    (date type_ : string) (amount : Z) (description : string)
  : transaction * ledger :=
  let new_tx := {| tx_id := new_id; tx_date := date; tx_type := type_;
                   tx_amount := amount; tx_description := description |} in
  (new_tx, set_transactions data (sorted_by_date (transactions data ++ [new_tx]))).

(** [if arg: tx[key] = arg] *)
Definition assign_if_truthy (arg : option string) (old : string) : string :=
  match arg with
  | Some s => if Py.truthy arg then s else old
  | None => old
  end.

(** [if amount is not None: tx['amount'] = amount] *)
Definition assign_if_present (arg : option Z) (old : Z) : Z :=
  match arg with
  | Some a => a
  | None => old
  end.

(** The four conditional assignments of [edit_transaction]. *)
Definition apply_edit (date type_ : option string) (amount : option Z)
    (description : option string) (tx : transaction) : transaction :=
  {| tx_id := tx_id tx;
     tx_date := assign_if_truthy date (tx_date tx);
     tx_type := assign_if_truthy type_ (tx_type tx);
     tx_amount := assign_if_present amount (tx_amount tx);
     tx_description := assign_if_truthy description (tx_description tx) |}.

(** The loop [for tx in data['transactions']] of [edit_transaction], up to
    the record it edits: the edited record and the list with that record
    updated in place. *)
Fixpoint edit_loop (id : string) (date type_ : option string) (amount : option Z)
    (description : option string) (txs : list transaction)
  : option (transaction * list transaction) :=
  match txs with
  | [] => None
  | tx :: rest =>
      if (tx_id tx =? id)%string
      then let tx' := apply_edit date type_ amount description tx in
           Some (tx', tx' :: rest)
      else '(edited, rest') ← edit_loop id date type_ amount description rest;
           Some (edited, tx :: rest')
  end.

(** [edit_transaction]: the returned record ([None] when the id is
    unknown) and the ledger afterwards. *)
Definition edit_transaction (data : ledger) (id : string)
    (date type_ : option string) (amount : option Z) (description : option string)
  : option transaction * ledger :=
  match edit_loop id date type_ amount description (transactions data) with
  | Some (edited, txs) => (Some edited, set_transactions data (sorted_by_date txs))
  | None => (None, data)
  end.

(** The loop of [delete_transaction]: [pop] of the first record with the
    id. *)
Fixpoint delete_loop (id : string) (txs : list transaction)
  : option (transaction * list transaction) :=
  match txs with
  | [] => None
  | tx :: rest =>
      if (tx_id tx =? id)%string then Some (tx, rest)
      else '(deleted, rest') ← delete_loop id rest; Some (deleted, tx :: rest')
  end.

Definition delete_transaction (data : ledger) (id : string)
  : option transaction * ledger :=
  match delete_loop id (transactions data) with
  | Some (deleted, txs) => (Some deleted, set_transactions data txs)
  | None => (None, data)
  end.

(** [search_transactions]; [lower] is [str.lower]. *)
Section Search.
Variable lower : string → string.

Definition search_transactions (data : ledger)
    (keyword type_ start_date end_date : option string)
    (min_amount max_amount : option Z) : list transaction :=
  let transactions := transactions data in
  let transactions :=
    match type_ with
    | Some ty => if Py.truthy type_
                 then List.filter (λ t, (tx_type t =? ty)%string) transactions
                 else transactions
    | None => transactions
    end in
  let transactions :=
    match start_date with
    | Some d => if Py.truthy start_date
                then List.filter (λ t, (d <=? tx_date t)%string) transactions
                else transactions
    | None => transactions
    end in
  let transactions :=
    match end_date with
    | Some d => if Py.truthy end_date
                then List.filter (λ t, (tx_date t <=? d)%string) transactions
                else transactions
    | None => transactions
    end in
  let transactions :=
    match min_amount with
    | Some a => List.filter (λ t, a <=? tx_amount t) transactions
    | None => transactions
    end in
  let transactions :=
    match max_amount with
    | Some a => List.filter (λ t, tx_amount t <=? a) transactions
    | None => transactions
    end in
  let transactions :=
    match keyword with
    | Some k => if Py.truthy keyword
                then List.filter
                       (λ t, Py.contains (lower k) (lower (tx_description t)))
                       transactions
                else transactions
    | None => transactions
    end in
  sorted_by_date_reverse transactions.
End Search.

(** ASCII lower-casing, the restriction of [str.lower] to ASCII text. *)
Definition ascii_lower_char (c : ascii) : ascii :=
  let n := nat_of_ascii c in
  if (65 <=? n)%nat && (n <=? 90)%nat then ascii_of_nat (n + 32) else c.

Fixpoint ascii_lower (s : string) : string :=
  match s with
  | EmptyString => EmptyString
  | String c s' => String (ascii_lower_char c) (ascii_lower s')
  end.

(** ** Vocabulary of the specification *)

(** The amount with the sign [get_balance_at_date] gives it: added for an
    income, subtracted otherwise. *)
Definition signed_amount (t : transaction) : Z :=
  if is_income t then tx_amount t else - tx_amount t.

Definition sum_signed (l : list transaction) : Z :=
  foldr (λ t acc, signed_amount t + acc) 0 l.

(** Total of the incomes, and of the expenses, of a list. *)
Definition income_total (l : list transaction) : Z :=
  Py.sum_amounts (List.filter is_income l).

Definition expense_total (l : list transaction) : Z :=
  Py.sum_amounts (List.filter is_expense l).

(** The running balance after the transactions [l], from [balance]. *)
Definition running_balance (balance : Z) (l : list transaction) : Z :=
  fold_left apply_tx l balance.

(** The prefix of [l] that ends with the last transaction dated [d]
    (empty when there is none). *)
Fixpoint through (d : string) (l : list transaction) : list transaction :=
  match l with
  | [] => []
  | t :: l' =>
      if existsb (λ u, (tx_date u =? d)%string) l then t :: through d l' else []
  end.

(** The balance at the end of day [d]: the running balance after the last
    transaction of [d] in the date-sorted list. *)
Definition end_of_day_balance (data : ledger) (d : string) : Z :=
  running_balance (default 0 (initialBalance data))
                  (through d (sorted_by_date (transactions data))).

(** A list without its adjacent repetitions. *)
Fixpoint dedup_adjacent (l : list string) : list string :=
  match l with
  | [] => []
  | a :: l' =>
      match l' with
      | [] => [a]
      | b :: _ => if (a =? b)%string then dedup_adjacent l' else a :: dedup_adjacent l'
      end
  end.

(** The distinct transaction dates of a ledger, ascending. *)
Definition distinct_dates (data : ledger) : list string :=
  dedup_adjacent (tx_date <$> sorted_by_date (transactions data)).

(** The danger point of day [d], when there is one. *)
Definition point_of (data : ledger) (threshold : Z) (d : string) : danger_point :=
  {| dp_date := d;
     dp_balance := end_of_day_balance data d;
     dp_shortfall := threshold - end_of_day_balance data d |}.

(** The points [find_danger_points] still emits when its loop stands before
    the transactions [l] with the given [balance], [current_date] and
    [daily_balance]. *)
Definition emit (threshold : Z) (current_date : string) (daily_balance : Z)
  : list danger_point :=
  if daily_balance <=? threshold
  then [ {| dp_date := current_date; dp_balance := daily_balance;
            dp_shortfall := threshold - daily_balance |} ]
  else [].

Fixpoint walk (threshold : Z) (l : list transaction) (balance : Z)
    (current_date : option string) (daily_balance : Z) : list danger_point :=
  match l with
  | [] =>
      match current_date with
      | Some d => if Py.truthy (Some d) then emit threshold d daily_balance else []
      | None => []
      end
  | t :: l' =>
      match current_date with
      | Some d =>
          if Py.truthy (Some d) && negb (tx_date t =? d)%string
          then emit threshold d daily_balance else []
      | None => []
      end ++
      walk threshold l' (apply_tx balance t) (Some (tx_date t)) (apply_tx balance t)
  end.

(** A string filter of [search_transactions] counts as supplied when it is
    given and not empty (the tests are [if arg:]); an amount bound when it is
    given ([is not None]). *)
Definition supplied (arg : option string) : option string :=
  if Py.truthy arg then arg else None.

Definition passes {A} (arg : option A) (test : A → bool) : bool :=
  match arg with
  | Some a => test a
  | None => true
  end.

(** A transaction that satisfies every supplied filter. *)
Definition matches (lower : string → string)
    (keyword type_ start_date end_date : option string)
    (min_amount max_amount : option Z) (t : transaction) : bool :=
  passes (supplied type_) (λ ty, (tx_type t =? ty)%string)
  && passes (supplied start_date) (λ d, (d <=? tx_date t)%string)
  && passes (supplied end_date) (λ d, (tx_date t <=? d)%string)
  && passes min_amount (λ a, a <=? tx_amount t)
  && passes max_amount (λ a, tx_amount t <=? a)
  && passes (supplied keyword)
            (λ k, Py.contains (lower k) (lower (tx_description t))).

(** The text [u] occurs in the text [s]. *)
Definition substring (u s : string) : Prop := ∃ pre post, s = pre +:+ u +:+ post.

(** A transaction that satisfies every filter of a search, where a type, a
    date or a keyword that is the empty string asks for nothing; the keyword
    is looked for in the description after [lower] on both. *)
Definition satisfies (lower : string → string)
    (keyword type_ start_date end_date : option string)
    (min_amount max_amount : option Z) (t : transaction) : Prop :=
  (∀ ty, type_ = Some ty → ty ≠ "" → tx_type t = ty)
  ∧ (∀ d, start_date = Some d → d ≠ "" → (d <=? tx_date t)%string = true)
  ∧ (∀ d, end_date = Some d → d ≠ "" → (tx_date t <=? d)%string = true)
  ∧ (∀ a, min_amount = Some a → a ≤ tx_amount t)
  ∧ (∀ a, max_amount = Some a → tx_amount t ≤ a)
  ∧ (∀ k, keyword = Some k → k ≠ "" → substring (lower k) (lower (tx_description t))).

(** Months counted from year 0, the month after a given one, and the last
    day of a month. *)
Definition month_index (dt : Calendar.datetime) : Z :=
  Calendar.year dt * 12 + (Calendar.month dt - 1).

Definition following (y m : Z) : Z * Z :=
  if m <? 12 then (y, m + 1) else (y + 1, 1).

Definition last_day_of_month (y m : Z) : Calendar.datetime :=
  Calendar.Datetime y m (Calendar.days_in_month y m).

(** The forecast entry for the month [i] months after [today], as the
    specification describes it: the balance at [today] for [i = 0] and at
    the last day of that month otherwise, with the large transactions of
    that month, those whose date has the month for its first characters
    (from year 1000 on the month has seven characters, and these are the
    month part [date[:7]]). *)
Definition expected_entry (today : Calendar.datetime) (data : ledger) (i : Z)
  : forecast_entry :=
  let y := (month_index today + i) / 12 in
  let m := (month_index today + i) mod 12 + 1 in
  let target_date :=
    if i =? 0 then Calendar.strftime_Ymd today
    else Calendar.strftime_Ymd (last_day_of_month y m) in
  let month_str := Calendar.strftime_Ym (Calendar.Datetime y m 1) in
  {| fc_month := month_str;
     fc_date := target_date;
     fc_balance := get_balance_at_date data target_date;
     fc_big_items :=
       List.filter
         (λ t, (Py.slice_to (Py.len month_str) (tx_date t) =? month_str)%string
               && (100000 <=? tx_amount t))
         (transactions data) |}.

(** The transactions [compress_logs] folds into the summary are those of a
    month before the cutoff; the totals of one month of a list are the sum
    of its incomes and the sum of its other amounts. *)
Definition is_old (cutoff : string) (t : transaction) : bool :=
  (month_of t <? cutoff)%string.

Definition month_summary_of (old : list transaction) (k : string) : month_summary :=
  {| ms_income :=
       Py.sum_amounts
         (List.filter (λ t, (month_of t =? k)%string && is_income t) old);
     ms_expense :=
       Py.sum_amounts
         (List.filter (λ t, (month_of t =? k)%string && negb (is_income t)) old) |}.

(** The cutoff month [keep_months] months before [today]. *)
Definition cutoff_month (today : Calendar.datetime) (keep_months : Z) : string :=
  Calendar.strftime_Ym
    (Calendar.Datetime ((month_index today - keep_months) / 12)
                       ((month_index today - keep_months) mod 12 + 1) 1).

(** What the summary holds once the old transactions [old] are folded in:
    an entry for each month of [old], with the totals of that month. *)
Definition summarises (summary : gmap string month_summary)
    (old : list transaction) : Prop :=
  ∀ k, summary !! k
       = if decide (k ∈ month_of <$> old) then Some (month_summary_of old k) else None.

(** The sum of [f] over a list of months. *)
Definition sum_over (f : string → Z) (ks : list string) : Z :=
  foldr (λ k acc, f k + acc) 0 ks.

(** ** Sample data *)

(** The ledger of the concrete scenarios of the specification. *)
Definition scenario_ledger : ledger :=
  {| initialBalance := Some 1000;
     transactions :=
       [ Transaction "tx-1" "2026-01-01" "income" 5000 "pay";
         Transaction "tx-2" "2026-01-10" "expense" 3000 "rent" ];
     compressed := None;
     compressedAt := None |}.

Definition sample_today : Calendar.datetime := Calendar.Datetime 2026 11 4.

(** ** Editor: the figures of [print_summary] *)

Record summary_figures := SummaryFigures {
  sm_count : nat;
  sm_income_total : Z;
  sm_expense_total : Z;
  sm_balance : Z
}.

(** [print_summary]: the four figures it prints (count, income total,
    expense total and their difference). *)
Definition print_summary (data : ledger) : summary_figures :=
  let transactions := transactions data in
  let income_total := Py.sum_amounts (List.filter is_income transactions) in
  let expense_total := Py.sum_amounts (List.filter is_expense transactions) in
  {| sm_count := length transactions;
     sm_income_total := income_total;
     sm_expense_total := expense_total;
     sm_balance := income_total - expense_total |}.

(** ** Analyzer: the verdict of [print_affordability] *)

(** The [status] that [print_affordability] prints after [判定:]. *)
Definition affordability_status (result : affordability) : string :=
  let status := if af_can_afford result then "✅ 可能" else "❌ 不足" in
  if af_warning result && af_can_afford result then "⚠️ ギリギリ" else status.

(** ** More Python built-ins *)

(** [if n:] for an argument [n : Optional[int]]: [None] and 0 are false. *)
Definition truthy_int (n : option Z) : bool :=
  match n with
  | Some n => negb (n =? 0)
  | None => false
  end.

(** [a or b] for [a : Optional[str]]. *)
Definition or_else (a : option string) (b : string) : string :=
  match a with
  | Some s => if Py.truthy a then s else b
  | None => b
  end.

(** [l[:n]]: the first [n] elements, or all but the last [-n] when [n] is
    negative. *)
Definition slice_list {A} (n : Z) (l : list A) : list A :=
  if 0 <=? n then take (Z.to_nat n) l
  else take (length l - Z.to_nat (- n)) l.

(** [s.replace(old, new)] for a non-empty [old]: the occurrences of [old]
    are replaced from left to right; [skip] counts the characters of an
    occurrence still to pass over. *)
Fixpoint replace_from (old new : string) (skip : nat) (s : string) : string :=
  match s with
  | EmptyString => EmptyString
  | String c s' =>
      match skip with
      | S k => replace_from old new k s'
      | O =>
          if String.prefix old s
          then new +:+ replace_from old new (String.length old - 1) s'
          else String c (replace_from old new 0 s')
      end
  end.

Definition replace (old new s : string) : string := replace_from old new 0 s.

(** ** Editor: [main] *)

(** The arguments [argparse] hands to [main]. *)
Record editor_args := EditorArgs {
  ed_file : string;
  ed_list : bool;
  ed_add : bool;
  ed_edit : option string;
  ed_delete : option string;
  ed_search : option string;
  ed_date : option string;
  ed_type : option string;
  ed_amount : option Z;
  ed_desc : option string;
  ed_start_date : option string;
  ed_end_date : option string;
  ed_min_amount : option Z;
  ed_max_amount : option Z;
  ed_limit : Z;
  ed_output : option string;
  ed_full_id : bool
}.

(** What [main] prints, by the data the text is made of: a table of
    transactions (with the summary below it or not), or one of the
    messages of the add, edit and delete modes. *)
Inductive editor_report :=
  | ShowTransactions (shown : list transaction) (show_full_id : bool)
                     (summary : option summary_figures)
  | AddUsage
  | Added (new_tx : transaction) (output_path : string)
  | EditUsage
  | Edited (edited : transaction) (output_path : string)
  | Deleted (deleted : transaction) (output_path : string)
  | NotFound (id : string).

(** One run of [main]: what it prints and the file it writes, if any
    ([save_json(output_path, data)]). *)
Record editor_run := EditorRun {
  ed_printed : editor_report;
  ed_saved : option (string * ledger)
}.

(** [main] of the editor, after [data = load_json(args.file)]; [lower] is
    [str.lower] and [new_id] the value of [generate_id()]. *)
Definition editor_main (lower : string → string) (new_id : string)
    (args : editor_args) (data : ledger) : editor_run :=
  if ed_list args then
    let transactions :=
      slice_list (ed_limit args)
        (search_transactions lower data None (ed_type args) (ed_start_date args)
           (ed_end_date args) (ed_min_amount args) (ed_max_amount args)) in
    {| ed_printed :=
         ShowTransactions transactions (ed_full_id args) (Some (print_summary data));
       ed_saved := None |}
  else if Py.truthy (ed_search args) then
    let transactions :=
      slice_list (ed_limit args)
        (search_transactions lower data (ed_search args) (ed_type args)
           (ed_start_date args) (ed_end_date args)
           (ed_min_amount args) (ed_max_amount args)) in
    {| ed_printed := ShowTransactions transactions (ed_full_id args) None;
       ed_saved := None |}
  else if ed_add args then
    match ed_date args, ed_type args, ed_amount args, ed_desc args with
    | Some date, Some type_, Some amount, Some desc =>
        if Py.truthy (ed_date args) && Py.truthy (ed_type args)
           && truthy_int (ed_amount args) && Py.truthy (ed_desc args)
        then
          let added := add_transaction new_id data date type_ amount desc in
          let output_path := or_else (ed_output args) (ed_file args) in
          {| ed_printed := Added added.1 output_path;
             ed_saved := Some (output_path, added.2) |}
        else {| ed_printed := AddUsage; ed_saved := None |}
    | _, _, _, _ => {| ed_printed := AddUsage; ed_saved := None |}
    end
  else if Py.truthy (ed_edit args) then
    if negb (Py.truthy (ed_date args) || Py.truthy (ed_type args)
             || truthy_int (ed_amount args) || Py.truthy (ed_desc args))
    then {| ed_printed := EditUsage; ed_saved := None |}
    else
      let id := default "" (ed_edit args) in
      let edited :=
        edit_transaction data id (ed_date args) (ed_type args)
                         (ed_amount args) (ed_desc args) in
      match edited.1 with
      | Some tx =>
          let output_path := or_else (ed_output args) (ed_file args) in
          {| ed_printed := Edited tx output_path;
             ed_saved := Some (output_path, edited.2) |}
      | None => {| ed_printed := NotFound id; ed_saved := None |}
      end
  else if Py.truthy (ed_delete args) then
    let id := default "" (ed_delete args) in
    let deleted := delete_transaction data id in
    match deleted.1 with
    | Some tx =>
        let output_path := or_else (ed_output args) (ed_file args) in
        {| ed_printed := Deleted tx output_path;
           ed_saved := Some (output_path, deleted.2) |}
    | None => {| ed_printed := NotFound id; ed_saved := None |}
    end
  else
    let transactions :=
      slice_list (ed_limit args)
        (search_transactions lower data None None None None None None) in
    {| ed_printed :=
         ShowTransactions transactions (ed_full_id args) (Some (print_summary data));
       ed_saved := None |}.

(** ** Analyzer: [main] *)

Record analyzer_args := AnalyzerArgs {
  an_file : string;
  an_forecast : option Z;
  an_check : option Z;
  an_date : option string;
  an_danger : bool;
  an_threshold : Z;
  an_compress : bool;
  an_keep_months : Z;
  an_output : option string;
  an_chart : bool;
  an_interactive : bool;
  an_chart_months : Z;
  an_open : bool
}.

(** What [main] prints or draws, by the data it is made of; for the two
    charts, the call that is made. *)
Inductive analyzer_report :=
  | CompressedCounts (original_count new_count : nat) (output_path : string)
  | ForecastTable (results : list forecast_entry)
  | AffordabilityTable (result : affordability)
  | DangerTable (points : list danger_point)
  | BalanceChart (months_ahead : Z) (output_path : option string) (open_file : bool)
  | InteractiveChart (months_ahead : Z) (output_path : option string) (open_file : bool)
  | ForecastAndDanger (results : list forecast_entry) (points : list danger_point).

Record analyzer_run := AnalyzerRun {
  an_printed : analyzer_report;
  an_saved : option (string * ledger)
}.

(** [main] of the analyzer, after [data = load_json(args.file)]; [today]
    and [now_iso] are the clock; [None] is an exception of [compress_logs]
    or [forecast_balance]. *)
Definition analyzer_main (today : Calendar.datetime) (now_iso : string)
    (args : analyzer_args) (data : ledger) : option analyzer_run :=
  if an_compress args then
    compressed ← compress_logs today now_iso data (an_keep_months args);
    let output_path :=
      or_else (an_output args) (replace ".json" "-compressed.json" (an_file args)) in
    Some {| an_printed :=
              CompressedCounts (length (transactions data))
                               (length (transactions compressed)) output_path;
            an_saved := Some (output_path, compressed) |}
  else if truthy_int (an_forecast args) then
    results ← forecast_balance today data (default 0 (an_forecast args));
    Some {| an_printed := ForecastTable results; an_saved := None |}
  else if truthy_int (an_check args) then
    let target_date := or_else (an_date args) (Calendar.strftime_Ymd today) in
    Some {| an_printed :=
              AffordabilityTable
                (check_affordability data (default 0 (an_check args)) target_date);
            an_saved := None |}
  else if an_danger args then
    Some {| an_printed := DangerTable (find_danger_points data (an_threshold args));
            an_saved := None |}
  else if an_chart args then
    Some {| an_printed :=
              BalanceChart (an_chart_months args) (supplied (an_output args))
                           (an_open args);
            an_saved := None |}
  else if an_interactive args then
    Some {| an_printed :=
              InteractiveChart (an_chart_months args) (supplied (an_output args))
                               (an_open args);
            an_saved := None |}
  else
    results ← forecast_balance today data 6;
    Some {| an_printed := ForecastAndDanger results (find_danger_points data 0);
            an_saved := None |}.

(** ** Analyzer: the data of the interactive chart *)

(** [a <= b] on two [datetime]s. The chart loop compares a midnight, the
    day reached, with the clock reading moved by whole months, so the time of
    day never decides and the dates alone are compared. *)
Definition datetime_le (a b : Calendar.datetime) : bool :=
  (Calendar.year a <? Calendar.year b)
  || ((Calendar.year a =? Calendar.year b)
      && ((Calendar.month a <? Calendar.month b)
          || ((Calendar.month a =? Calendar.month b)
              && (Calendar.day a <=? Calendar.day b)))).

(** The inner loop
    [while tx_index < len(transactions) and transactions[tx_index]['date'] <= date_str],
    on [remaining = transactions[tx_index:]]: the new balance and what
    remains. *)
Fixpoint post_until (date_str : string) (remaining : list transaction) (balance : Z)
  : Z * list transaction :=
  match remaining with
  | t :: rest =>
      if (tx_date t <=? date_str)%string
      then post_until date_str rest (apply_tx balance t)
      else (balance, remaining)
  | [] => (balance, [])
  end.

(** A bound on the number of rounds of the daily loop: [day_rank] grows by
    at least one from a day to the next. *)
Definition day_rank (dt : Calendar.datetime) : Z :=
  (Calendar.year dt * 12 + Calendar.month dt) * 31 + Calendar.day dt.

Definition days_fuel (start_date end_date : Calendar.datetime) : nat :=
  Z.to_nat (Z.max 0 (day_rank end_date - day_rank start_date) + 2).

(** The outer loop [while current_date <= end_date], one round per day: the
    pairs [(dates[i], balances[i])]. [None] when
    [current_date += timedelta(days=1)] leaves the range of [datetime]. *)
Fixpoint daily_balances (fuel : nat) (current_date end_date : Calendar.datetime)
    (remaining : list transaction) (balance : Z) : option (list (string * Z)) :=
  match fuel with
  | O => None
  | S fuel =>
      if datetime_le current_date end_date then
        let date_str := Calendar.strftime_Ymd current_date in
        let posted := post_until date_str remaining balance in
        next ← Calendar.tomorrow current_date;
        rest ← daily_balances fuel next end_date posted.2 posted.1;
        Some ((date_str, posted.1) :: rest)
      else Some []
  end.

(** The markers of the transactions of 200000 or more. *)
Record big_transaction := BigTransaction {
  big_date : string;
  big_balance : Z;
  big_description : string;
  big_amount : Z;
  big_type : string
}.

Definition big_transactions (data : ledger) (start_str end_str : string)
  : list big_transaction :=
  (λ t, BigTransaction (tx_date t) (get_balance_at_date data (tx_date t))
                       (tx_description t) (tx_amount t) (tx_type t))
  <$> List.filter
        (λ t, (200000 <=? tx_amount t)
              && ((start_str <=? tx_date t)%string && (tx_date t <=? end_str)%string))
        (transactions data).

(** What [generate_interactive_chart] computes before it writes the page:
    the daily curve, the markers and today's date. *)
Record chart_data := ChartData {
  chart_points : list (string * Z);
  chart_big_transactions : list big_transaction;
  chart_today : string
}.

(** [generate_interactive_chart], up to the page: [Some None] is the return
    of [None] for a ledger without transactions, [None] an exception.
    [strptime] is [datetime.strptime(_, '%Y-%m-%d')]. *)
Definition generate_interactive_chart (strptime : string → option Calendar.datetime)
    (today : Calendar.datetime) (data : ledger) (months_ahead : Z)
  : option (option chart_data) :=
  let sorted_transactions := sorted_by_date (transactions data) in
  match sorted_transactions with
  | [] => Some None
  | first :: _ =>
      let balance := default 0 (initialBalance data) in
      start_date ← strptime (tx_date first);
      end_date ← Calendar.add_months today months_ahead;
      points ← daily_balances (days_fuel start_date end_date) start_date end_date
                              sorted_transactions balance;
      Some (Some {| chart_points := points;
                    chart_big_transactions :=
                      big_transactions data (Calendar.strftime_Ymd start_date)
                                            (Calendar.strftime_Ymd end_date);
                    chart_today := Calendar.strftime_Ymd today |})
  end.

(** A reading of zero-padded dates [YYYY-MM-DD] for the examples; [strptime]
    itself also takes months and days of one digit. *)
Definition digit_value (c : ascii) : option Z :=
  let n := Z.of_nat (nat_of_ascii c) in
  if (48 <=? n) && (n <=? 57) then Some (n - 48) else None.

Definition strptime_padded (s : string) : option Calendar.datetime :=
  match s with
  | String y1 (String y2 (String y3 (String y4 (String s1 (String m1 (String m2
      (String s2 (String d1 (String d2 EmptyString))))))))) =>
      if Ascii.eqb s1 "-" && Ascii.eqb s2 "-" then
        y1 ← digit_value y1; y2 ← digit_value y2;
        y3 ← digit_value y3; y4 ← digit_value y4;
        m1 ← digit_value m1; m2 ← digit_value m2;
        d1 ← digit_value d1; d2 ← digit_value d2;
        Calendar.make (1000 * y1 + 100 * y2 + 10 * y3 + y4) (10 * m1 + m2) (10 * d1 + d2)
      else None
  | _ => None
  end.

(** A ledger with a salary, for the markers of the chart. *)
Definition salary_ledger : ledger :=
  {| initialBalance := Some 20000;
     transactions :=
       [ Transaction "s-2" "2026-10-27" "expense" 80000 "rent";
         Transaction "s-1" "2026-10-25" "income" 300000 "salary" ];
     compressed := None;
     compressedAt := None |}.

(** ** [format_currency] *)

(** [str(n)] for an [n] that is not negative. *)
Definition str_nat (n : Z) : string :=
  NilEmpty.string_of_uint (N.to_uint (Z.to_N n)).

(** The grouping of the format [{n:,}], on the digits from the right: a
    comma after every three digits that have a digit after them. *)
Fixpoint group3 (reversed : list ascii) : list ascii :=
  match reversed with
  | a :: b :: c :: ((_ :: _) as rest) => a :: b :: c :: ","%char :: group3 rest
  | _ => reversed
  end.

(** [f"{n:,}"] for an [n] that is not negative. *)
Definition with_commas (n : Z) : string :=
  String.string_of_list_ascii
    (rev (group3 (rev (String.list_ascii_of_string (str_nat n))))).

Definition format_currency (amount : Z) : string :=
  if 0 <=? amount then "¥" +:+ with_commas amount
  else "-¥" +:+ with_commas (Z.abs amount).

Definition is_comma (c : ascii) : bool := Ascii.eqb c ",".

(** A ledger with a record older than the months kept. *)
Definition long_ledger : ledger :=
  set_transactions salary_ledger
    (Transaction "s-0" "2026-03-05" "expense" 30000 "trip" :: transactions salary_ledger).

(** * Properties *)

(** ** The order on strings *)

Lemma leb_le (a b : string) : (a <=? b)%string = true ↔ String.le a b.
Proof. unfold String.le. symmetry. apply Is_true_true. Qed.

Lemma leb_refl (a : string) : (a <=? a)%string = true.
Proof. by apply leb_le. Qed.

Lemma leb_trans (a b c : string) :
  (a <=? b)%string = true → (b <=? c)%string = true → (a <=? c)%string = true.
Proof. rewrite !leb_le. apply transitivity. Qed.

Lemma ltb_not_leb (a b : string) : (a <? b)%string = negb (b <=? a)%string.
Proof.
  unfold String.ltb, String.leb. rewrite (String.compare_antisym a b).
  by destruct (String.compare b a).
Qed.

Lemma leb_false_ltb (a b : string) : (a <=? b)%string = false → (b <? a)%string = true.
Proof. intros H. by rewrite ltb_not_leb, H. Qed.

Lemma ltb_leb (a b : string) : (a <? b)%string = true → (a <=? b)%string = true.
Proof.
  rewrite ltb_not_leb, negb_true_iff. intros H.
  by destruct (String.leb_total a b) as [?|?]; [|congruence].
Qed.

Lemma ltb_irrefl (a : string) : (a <? a)%string = false.
Proof. by rewrite ltb_not_leb, leb_refl. Qed.

Lemma ltb_leb_trans (a b c : string) :
  (a <? b)%string = true → (b <=? c)%string = true → (a <? c)%string = true.
Proof.
  rewrite !ltb_not_leb, !negb_true_iff. intros Hab Hbc.
  destruct (c <=? a)%string eqn:Hca; [|done].
  by rewrite (leb_trans _ _ _ Hbc Hca) in Hab.
Qed.

Lemma ltb_trans (a b c : string) :
  (a <? b)%string = true → (b <? c)%string = true → (a <? c)%string = true.
Proof. intros Hab Hbc. eapply ltb_leb_trans; [done|]. by apply ltb_leb. Qed.

(** ** Characters of a text *)

Lemma slice_from_app pending n s : ∃ r, s = Py.slice_from pending n s +:+ r.
Proof.
  revert pending n. induction s as [|c s IH]; intros pending n; [by exists ""|].
  cbn [Py.slice_from]. destruct (Py.continues pending c).
  - destruct (IH (Nat.pred pending) n) as [r Hr]. exists r.
    change (String c s = String c (Py.slice_from (Nat.pred pending) n s +:+ r)).
    by rewrite <-Hr.
  - destruct n as [|n]; [by exists (String c s)|].
    destruct (IH (Py.following_bytes c) n) as [r Hr]. exists r.
    change (String c s = String c (Py.slice_from (Py.following_bytes c) n s +:+ r)).
    by rewrite <-Hr.
Qed.

Lemma slice_to_app n s : ∃ r, s = Py.slice_to n s +:+ r.
Proof. apply slice_from_app. Qed.

Lemma slice_from_len pending n s :
  (n ≤ Py.len_from pending s)%nat →
  Py.len_from pending (Py.slice_from pending n s) = n.
Proof.
  revert pending n. induction s as [|c s IH]; intros pending n Hn.
  - cbn in *. lia.
  - cbn [Py.slice_from Py.len_from] in *. destruct (Py.continues pending c) eqn:Hc.
    + cbn [Py.len_from]. rewrite Hc. by apply IH.
    + destruct n as [|n]; [done|]. cbn [Py.len_from]. rewrite Hc.
      f_equal. apply IH. lia.
Qed.

Lemma slice_to_len n s : (n ≤ Py.len s)%nat → Py.len (Py.slice_to n s) = n.
Proof. apply slice_from_len. Qed.

(** A text has at least as many bytes as characters. *)
Lemma len_from_length pending s : (Py.len_from pending s ≤ String.length s)%nat.
Proof.
  revert pending. induction s as [|c s IH]; intros pending; [done|].
  cbn [Py.len_from String.length]. destruct (Py.continues pending c).
  - specialize (IH (Nat.pred pending)). lia.
  - specialize (IH (Py.following_bytes c)). lia.
Qed.

Lemma len_length s : (Py.len s ≤ String.length s)%nat.
Proof. apply len_from_length. Qed.

(** Slicing again what was sliced, with a text after it that starts a
    character, gives the slice. *)
Lemma slice_from_again pending n s c x :
  (n ≤ Py.len_from pending s)%nat → Py.continuation c = false →
  Py.slice_from pending n (Py.slice_from pending n s +:+ String c x)
  = Py.slice_from pending n s.
Proof.
  intros Hn Hc. revert pending n Hn. induction s as [|b s IH]; intros pending n Hn.
  - cbn in Hn. assert (n = O) as -> by lia.
    cbn [Py.slice_from]. change ("" +:+ String c x) with (String c x).
    cbn [Py.slice_from]. by destruct pending; cbn [Py.continues]; rewrite ?Hc.
  - cbn [Py.slice_from Py.len_from] in *. destruct (Py.continues pending b) eqn:Hb.
    + change (String b ?u +:+ ?v) with (String b (u +:+ v)).
      cbn [Py.slice_from]. rewrite Hb. f_equal. by apply IH.
    + destruct n as [|n].
      * change ("" +:+ String c x) with (String c x).
        cbn [Py.slice_from]. by destruct pending; cbn [Py.continues]; rewrite ?Hc.
      * change (String b ?u +:+ ?v) with (String b (u +:+ v)).
        cbn [Py.slice_from]. rewrite Hb. f_equal. apply IH. lia.
Qed.

Lemma slice_to_again n s c x :
  (n ≤ Py.len s)%nat → Py.continuation c = false →
  Py.slice_to n (Py.slice_to n s +:+ String c x) = Py.slice_to n s.
Proof. apply slice_from_again. Qed.

(** ASCII text: one byte a character. *)
Lemma isascii_cons c s :
  Py.isascii (String c s) = true →
  Py.continuation c = false ∧ Py.following_bytes c = O ∧ Py.isascii s = true.
Proof.
  destruct c as [b0 b1 b2 b3 b4 b5 b6 b7]. cbn [Py.isascii].
  intros H. apply andb_true_iff in H as [Hb Hs]. apply negb_true_iff in Hb. subst b7.
  split; [done|]. split; [|done]. by destruct b3, b4, b5, b6.
Qed.

Lemma slice_from_0 x : Py.slice_from 0 0 x = "".
Proof. by destruct x. Qed.

Lemma slice_from_ascii pending p x :
  Py.isascii p = true → p ≠ "" →
  Py.slice_from pending (String.length p) (p +:+ x) = p.
Proof.
  revert pending. induction p as [|c p IH]; intros pending Hp Hne; [done|].
  apply isascii_cons in Hp as (Hc & Hf & Hp).
  change (String c p +:+ x) with (String c (p +:+ x)).
  cbn [Py.slice_from String.length].
  assert (Py.continues pending c = false) as -> by (destruct pending; [done|exact Hc]).
  rewrite Hf. f_equal. destruct p as [|d p]; [apply slice_from_0|].
  by apply IH.
Qed.

Lemma slice_to_ascii p x :
  Py.isascii p = true → Py.slice_to (String.length p) (p +:+ x) = p.
Proof.
  intros Hp. destruct p as [|c p]; [apply slice_from_0|].
  by apply slice_from_ascii.
Qed.

Lemma len_from_ascii pending p :
  Py.isascii p = true → p ≠ "" → Py.len_from pending p = String.length p.
Proof.
  revert pending. induction p as [|c p IH]; intros pending Hp Hne; [done|].
  apply isascii_cons in Hp as (Hc & Hf & Hp). cbn [Py.len_from String.length].
  assert (Py.continues pending c = false) as -> by (destruct pending; [done|exact Hc]).
  rewrite Hf. f_equal. destruct p as [|d p]; [done|]. by apply IH.
Qed.

Lemma len_ascii p : Py.isascii p = true → Py.len p = String.length p.
Proof. intros Hp. destruct p as [|c p]; [done|]. by apply len_from_ascii. Qed.

Lemma prefix_app p s : String.prefix p s = true ↔ ∃ r, s = p +:+ r.
Proof.
  revert s. induction p as [|c p IH]; intros s.
  - split; [by exists s|by destruct s].
  - destruct s as [|d s].
    + split; [done|]. by intros [r Hr].
    + cbn [String.prefix]. destruct (Ascii.ascii_dec c d) as [->|Hcd].
      * rewrite IH. split; intros [r Hr]; exists r.
        -- change (String d s = String d (p +:+ r)). by rewrite Hr.
        -- change (String d s = String d (p +:+ r)) in Hr. by injection Hr.
      * split; [done|]. intros [r Hr].
        change (String d s = String c (p +:+ r)) in Hr. by injection Hr as <-.
Qed.

(** A prefix test against an ASCII text is a test of the characters it
    takes. *)
Lemma startswith_slice s p :
  Py.isascii p = true →
  Py.startswith s p = (Py.slice_to (String.length p) s =? p)%string.
Proof.
  intros Hp. unfold Py.startswith. apply eq_true_iff_eq.
  rewrite prefix_app, String.eqb_eq. split.
  - intros [r ->]. by apply slice_to_ascii.
  - intros Hs. destruct (slice_to_app (String.length p) s) as [r Hr].
    exists r. by rewrite Hs in Hr.
Qed.

Example characters_of_a_text :
  Py.len "2025年" = 5%nat ∧ String.length "2025年" = 7%nat
  ∧ Py.slice_to 7 "2025年-01" = "2025年-0" ∧ Py.slice_to 7 "2026-11-20" = "2026-11"
  ∧ Py.slice_to 2 "収入合計" = "収入".
Proof. repeat split; reflexivity. Qed.

(** ** Stable sorting *)

Section SortingFacts.
Context {A : Type} (le : A → A → bool).
Hypothesis le_total : ∀ x y, le x y = true ∨ le y x = true.
Hypothesis le_trans : ∀ x y z, le x y = true → le y z = true → le x z = true.

Lemma le_refl x : le x x = true.
Proof. by destruct (le_total x x). Qed.

Lemma same_rank_refl x : Py.same_rank le x x = true.
Proof. unfold Py.same_rank. by rewrite le_refl. Qed.

Lemma insert_Permutation x l : Py.insert le x l ≡ₚ x :: l.
Proof.
  induction l as [|y l IH]; simpl; [done|].
  destruct (le x y); [done|]. rewrite IH. apply Permutation_swap.
Qed.

Lemma sorted_Permutation l : Py.sorted le l ≡ₚ l.
Proof.
  induction l as [|x l IH]; simpl; [done|].
  by rewrite insert_Permutation, IH.
Qed.

Lemma insert_StronglySorted x l :
  StronglySorted (λ a b, le a b = true) l →
  StronglySorted (λ a b, le a b = true) (Py.insert le x l).
Proof.
  induction 1 as [|y l Hl IH Hy]; simpl.
  - repeat constructor.
  - destruct (le x y) eqn:Hxy.
    + constructor; [by constructor|].
      constructor; [done|]. eapply Forall_impl; [exact Hy|].
      intros z Hz. by eapply le_trans.
    + constructor; [done|].
      rewrite insert_Permutation. constructor; [|done].
      by destruct (le_total x y); [congruence|].
Qed.

Lemma sorted_StronglySorted l :
  StronglySorted (λ a b, le a b = true) (Py.sorted le l).
Proof.
  induction l as [|x l IH]; simpl; [constructor|].
  by apply insert_StronglySorted.
Qed.

(** Stability: the elements of one rank come out in the order they went
    in. *)
Lemma insert_stable z x l :
  List.filter (Py.same_rank le z) (Py.insert le x l) = List.filter (Py.same_rank le z) (x :: l).
Proof.
  induction l as [|y l IH]; [done|].
  cbn [Py.insert]. destruct (le x y) eqn:Hxy; [done|].
  cbn [List.filter] in *. rewrite IH.
  destruct (Py.same_rank le z x) eqn:Hzx, (Py.same_rank le z y) eqn:Hzy; try done.
  unfold Py.same_rank in *.
  apply andb_true_iff in Hzx as [_ Hxz], Hzy as [Hzy _].
  by rewrite (le_trans _ _ _ Hxz Hzy) in Hxy.
Qed.

Lemma sorted_stable z l :
  List.filter (Py.same_rank le z) (Py.sorted le l) = List.filter (Py.same_rank le z) l.
Proof.
  induction l as [|x l IH]; [done|].
  cbn [Py.sorted foldr]. rewrite insert_stable. cbn [List.filter].
  fold (Py.sorted le l). by rewrite IH.
Qed.

(** A sorted list is determined by its ranks: whatever stable sort the
    interpreter runs, its result is [Py.sorted le l]. *)
Lemma stable_sorted_unique l1 l2 :
  StronglySorted (λ a b, le a b = true) l1 →
  StronglySorted (λ a b, le a b = true) l2 →
  (∀ z, List.filter (Py.same_rank le z) l1 = List.filter (Py.same_rank le z) l2) →
  l1 = l2.
Proof.
  intros Hl1. revert l2.
  induction Hl1 as [|x l1 Hl1 IH Hx]; intros l2 Hl2 Hf.
  - destruct l2 as [|y l2]; [done|].
    specialize (Hf y). cbn in Hf. by rewrite same_rank_refl in Hf.
  - destruct Hl2 as [|y l2 Hl2 Hy].
    { specialize (Hf x). cbn in Hf. by rewrite same_rank_refl in Hf. }
    assert (le x y = true) as Hxy.
    { assert (y ∈ x :: l1) as Hin.
      { apply list_elem_of_In. eapply (proj1 (filter_In (Py.same_rank le y) _ _)).
        rewrite (Hf y). cbn. rewrite same_rank_refl. by left. }
      apply elem_of_cons in Hin as [->|Hin]; [apply le_refl|].
      by eapply Forall_forall in Hx. }
    assert (le y x = true) as Hyx.
    { assert (x ∈ y :: l2) as Hin.
      { apply list_elem_of_In. eapply (proj1 (filter_In (Py.same_rank le x) _ _)).
        rewrite <-(Hf x). cbn. rewrite same_rank_refl. by left. }
      apply elem_of_cons in Hin as [->|Hin]; [apply le_refl|].
      by eapply Forall_forall in Hy. }
    assert (x = y) as <-.
    { specialize (Hf x). cbn in Hf. rewrite same_rank_refl in Hf.
      unfold Py.same_rank at 2 in Hf. rewrite Hxy, Hyx in Hf. cbn in Hf.
      congruence. }
    f_equal. apply IH; [done|]. intros z. specialize (Hf z). cbn in Hf.
    destruct (Py.same_rank le z x); congruence.
Qed.

Lemma stable_sort_is_sorted l l' :
  StronglySorted (λ a b, le a b = true) l' →
  (∀ z, List.filter (Py.same_rank le z) l' = List.filter (Py.same_rank le z) l) →
  l' = Py.sorted le l.
Proof.
  intros Hs Hf. apply stable_sorted_unique; [done|apply sorted_StronglySorted|].
  intros z. by rewrite sorted_stable.
Qed.

(** Sorting a sorted list does nothing. *)
Lemma sorted_id l :
  StronglySorted (λ a b, le a b = true) l → Py.sorted le l = l.
Proof. intros Hs. symmetry. by apply stable_sort_is_sorted. Qed.
End SortingFacts.

(** ** Sorting transactions by date *)

Lemma date_le_total x y : date_le x y = true ∨ date_le y x = true.
Proof. apply String.leb_total. Qed.

Lemma date_le_trans x y z :
  date_le x y = true → date_le y z = true → date_le x z = true.
Proof. apply leb_trans. Qed.

Lemma date_ge_total x y : date_ge x y = true ∨ date_ge y x = true.
Proof. apply String.leb_total. Qed.

Lemma date_ge_trans x y z :
  date_ge x y = true → date_ge y z = true → date_ge x z = true.
Proof. unfold date_ge. intros ??. by eapply leb_trans. Qed.

Lemma same_rank_date x y :
  Py.same_rank date_le x y = true ↔ tx_date x = tx_date y.
Proof.
  unfold Py.same_rank, date_le. rewrite andb_true_iff. split.
  - intros [??]. by apply String.leb_antisym.
  - intros ->. by rewrite leb_refl.
Qed.

Lemma same_rank_date_reverse x y :
  Py.same_rank date_ge x y = true ↔ tx_date x = tx_date y.
Proof.
  unfold Py.same_rank, date_ge. rewrite andb_true_iff. split.
  - intros [??]. by apply String.leb_antisym.
  - intros ->. by rewrite leb_refl.
Qed.

Lemma filter_ext_bool {A} (f g : A → bool) l :
  (∀ x, f x = g x) → List.filter f l = List.filter g l.
Proof. intros H. apply List.filter_ext. exact H. Qed.

Lemma same_date_filter x l :
  List.filter (Py.same_rank date_le x) l
  = List.filter (λ t, (tx_date t =? tx_date x)%string) l.
Proof.
  apply filter_ext_bool. intros t. apply eq_true_iff_eq.
  rewrite same_rank_date, String.eqb_eq. naive_solver.
Qed.

Lemma sorted_by_date_Permutation l : sorted_by_date l ≡ₚ l.
Proof. apply sorted_Permutation. Qed.

Lemma sorted_by_date_sorted l :
  StronglySorted (λ a b, date_le a b = true) (sorted_by_date l).
Proof. apply sorted_StronglySorted; [apply date_le_total|apply date_le_trans]. Qed.

(** The transactions of one day keep their relative order. *)
Lemma sorted_by_date_stable d l :
  List.filter (λ t, (tx_date t =? d)%string) (sorted_by_date l)
  = List.filter (λ t, (tx_date t =? d)%string) l.
Proof.
  pose (x := Transaction "" d "" 0 "").
  change d with (tx_date x). rewrite <-!same_date_filter.
  apply sorted_stable. apply date_le_trans.
Qed.

Lemma sorted_by_date_reverse_Permutation l : sorted_by_date_reverse l ≡ₚ l.
Proof. apply sorted_Permutation. Qed.

Lemma sorted_by_date_reverse_sorted l :
  StronglySorted (λ a b, date_ge a b = true) (sorted_by_date_reverse l).
Proof. apply sorted_StronglySorted; [apply date_ge_total|apply date_ge_trans]. Qed.

Lemma sorted_by_date_reverse_stable d l :
  List.filter (λ t, (tx_date t =? d)%string) (sorted_by_date_reverse l)
  = List.filter (λ t, (tx_date t =? d)%string) l.
Proof.
  pose (x := Transaction "" d "" 0 "").
  transitivity (List.filter (Py.same_rank date_ge x) (sorted_by_date_reverse l)).
  { apply filter_ext_bool. intros t. apply eq_true_iff_eq.
    rewrite same_rank_date_reverse, String.eqb_eq. naive_solver. }
  unfold sorted_by_date_reverse. rewrite sorted_stable by apply date_ge_trans.
  apply filter_ext_bool. intros t. apply eq_true_iff_eq.
  rewrite same_rank_date_reverse, String.eqb_eq. naive_solver.
Qed.

(** ** Balance at a date *)

Lemma apply_tx_signed b t : apply_tx b t = b + signed_amount t.
Proof. unfold apply_tx, signed_amount. destruct (is_income t); lia. Qed.

Lemma running_balance_signed b l : running_balance b l = b + sum_signed l.
Proof.
  unfold running_balance. revert b.
  induction l as [|t l IH]; intros b; simpl; [lia|].
  rewrite IH, apply_tx_signed. lia.
Qed.

Lemma balance_fold d l b :
  fold_left
    (λ balance t, if (tx_date t <=? d)%string then apply_tx balance t else balance) l b
  = b + sum_signed (List.filter (λ t, (tx_date t <=? d)%string) l).
Proof.
  revert b. induction l as [|t l IH]; intros b; simpl; [lia|].
  rewrite IH. destruct (tx_date t <=? d)%string; simpl; [|done].
  rewrite apply_tx_signed. lia.
Qed.

Lemma get_balance_at_date_signed data d :
  get_balance_at_date data d
  = default 0 (initialBalance data)
    + sum_signed (List.filter (λ t, (tx_date t <=? d)%string) (transactions data)).
Proof. apply balance_fold. Qed.

Lemma well_typed_expense t : well_typed t → is_expense t = negb (is_income t).
Proof.
  unfold well_typed, is_expense, is_income. by intros [-> | ->].
Qed.

Lemma sum_signed_totals l :
  Forall well_typed l → sum_signed l = income_total l - expense_total l.
Proof.
  unfold income_total, expense_total.
  induction 1 as [|t l Ht _ IH]; simpl; [done|].
  rewrite (well_typed_expense t Ht). unfold signed_amount.
  destruct (is_income t); simpl; lia.
Qed.

Lemma filter_filter_bool {A} (f g : A → bool) l :
  List.filter f (List.filter g l) = List.filter (λ x, g x && f x) l.
Proof.
  induction l as [|x l IH]; simpl; [done|].
  destruct (g x); simpl; [destruct (f x)|]; by rewrite ?IH.
Qed.

Lemma Forall_list_filter {A} (P : A → Prop) (f : A → bool) l :
  Forall P l → Forall P (List.filter f l).
Proof.
  induction 1; simpl; [constructor|]. destruct (f _); [by constructor|done].
Qed.

(** C1. The balance at a date is the opening balance (0 when absent) plus
    the incomes dated at or before it, minus the expenses dated at or
    before it; on the ledger with opening balance 1000, an income of 5000 on
    2026-01-01 and an expense of 3000 on 2026-01-10, it is 6000 at
    2026-01-05 and 3000 at 2026-01-15. *)
Theorem get_balance_at_date_spec (data : ledger) (d : string) :
  Forall well_typed (transactions data) →
  get_balance_at_date data d
  = default 0 (initialBalance data)
    + Py.sum_amounts
        (List.filter (λ t, (tx_date t <=? d)%string && is_income t) (transactions data))
    - Py.sum_amounts
        (List.filter (λ t, (tx_date t <=? d)%string && is_expense t) (transactions data))
  ∧ ∀ id1 id2 desc1 desc2 flag stamp,
      let scenario :=
        {| initialBalance := Some 1000;
           transactions :=
             [ Transaction id1 "2026-01-01" "income" 5000 desc1;
               Transaction id2 "2026-01-10" "expense" 3000 desc2 ];
           compressed := flag; compressedAt := stamp |} in
      get_balance_at_date scenario "2026-01-05" = 6000
      ∧ get_balance_at_date scenario "2026-01-15" = 3000.
Proof.
  intros Hwt. split; [|done].
  rewrite get_balance_at_date_signed, sum_signed_totals
    by by apply Forall_list_filter.
  unfold income_total, expense_total. rewrite !filter_filter_bool. lia.
Qed.

Lemma scenario_well_typed : Forall well_typed (transactions scenario_ledger).
Proof.
  constructor; [by left|]. constructor; [by right|]. constructor.
Qed.

Lemma get_balance_at_date_spec_witness :
  Forall well_typed (transactions scenario_ledger)
  ∧ get_balance_at_date scenario_ledger "2026-01-05" = 1000 + 5000 - 0.
Proof.
  split; [exact scenario_well_typed|].
  exact (proj1 (get_balance_at_date_spec scenario_ledger "2026-01-05"
                  scenario_well_typed)).
Defined.

(** C2. For dates [d1 <= d2], the balance at [d2] minus the balance at [d1]
    is the sum of the signed amounts (added for an income, subtracted for an
    expense) of exactly the transactions dated after [d1] and at or before
    [d2]. *)
Theorem balance_difference (data : ledger) (d1 d2 : string) :
  (d1 <=? d2)%string = true →
  get_balance_at_date data d2 - get_balance_at_date data d1
  = sum_signed
      (List.filter (λ t, (d1 <? tx_date t)%string && (tx_date t <=? d2)%string)
                   (transactions data)).
Proof.
  intros Hd. rewrite !get_balance_at_date_signed.
  induction (transactions data) as [|t l IH]; simpl; [lia|].
  rewrite ltb_not_leb.
  destruct (tx_date t <=? d1)%string eqn:H1; simpl.
  - rewrite (leb_trans _ _ _ H1 Hd). simpl. lia.
  - destruct (tx_date t <=? d2)%string; simpl; lia.
Qed.

Lemma balance_difference_witness :
  ("2026-01-05" <=? "2026-01-15")%string = true
  ∧ get_balance_at_date scenario_ledger "2026-01-15"
    - get_balance_at_date scenario_ledger "2026-01-05"
    = sum_signed [Transaction "tx-2" "2026-01-10" "expense" 3000 "rent"].
Proof.
  split; [reflexivity|].
  exact (balance_difference scenario_ledger "2026-01-05" "2026-01-15" eq_refl).
Defined.

(** ** Affordability *)

(** C4. [check_affordability] reports the balance at the date as the
    balance before, that balance minus the amount as the balance after,
    [can_afford] exactly when the balance after is not negative and
    [warning] exactly when it is below 100000, each decided from the balance
    after alone; on the scenario ledger, 3500 at 2026-01-05 gives 6000
    before, 2500 after, affordable, with a warning.  The function only
    reads the ledger: its result is a report, and the ledger it was given is
    the ledger afterwards. *)
Theorem check_affordability_spec (data : ledger) (amount : Z) (d : string) :
  let r := check_affordability data amount d in
  af_balance_before r = get_balance_at_date data d
  ∧ af_balance_after r = af_balance_before r - amount
  ∧ af_can_afford r = bool_decide (0 ≤ af_balance_after r)
  ∧ af_warning r = bool_decide (af_balance_after r < 100000)
  ∧ ∀ id1 id2 desc1 desc2 flag stamp,
      let scenario :=
        {| initialBalance := Some 1000;
           transactions :=
             [ Transaction id1 "2026-01-01" "income" 5000 desc1;
               Transaction id2 "2026-01-10" "expense" 3000 desc2 ];
           compressed := flag; compressedAt := stamp |} in
      let s := check_affordability scenario 3500 "2026-01-05" in
      af_balance_before s = 6000 ∧ af_balance_after s = 2500
      ∧ af_can_afford s = true ∧ af_warning s = true.
Proof.
  cbn -[get_balance_at_date]. repeat split.
  - apply eq_true_iff_eq. rewrite bool_decide_eq_true. apply Z.leb_le.
  - apply eq_true_iff_eq. rewrite bool_decide_eq_true. apply Z.ltb_lt.
Qed.

(** ** Danger points *)

(** C10. A ledger without transactions has no danger point, whatever the
    threshold and the opening balance: no day is ever recorded. *)
Theorem find_danger_points_no_transactions (data : ledger) (threshold : Z) :
  transactions data = [] → find_danger_points data threshold = [].
Proof. unfold find_danger_points. by intros ->. Qed.

Lemma find_danger_points_no_transactions_witness :
  transactions (Ledger (Some (-500)) [] None None) = []
  ∧ (-500 <=? 0) = true
  ∧ find_danger_points (Ledger (Some (-500)) [] None None) 0 = [].
Proof.
  split; [reflexivity|]. split; [reflexivity|].
  exact (find_danger_points_no_transactions
           (Ledger (Some (-500)) [] None None) 0 eq_refl).
Defined.

(** The loop, from any state, emits what [walk] says. *)
Lemma flush_danger_points th d st :
  st_danger_points (flush th d st)
  = st_danger_points st ++ emit th d (st_daily_balance st).
Proof.
  unfold flush, emit; simpl.
  destruct (st_daily_balance st <=? th); [done|by rewrite app_nil_r].
Qed.

Lemma danger_loop_walk th l st :
  st_danger_points (flush_last th (fold_left (danger_step th) l st))
  = st_danger_points st
    ++ walk th l (st_balance st) (st_current_date st) (st_daily_balance st).
Proof.
  revert st. induction l as [|t l IH]; intros st.
  - cbn [fold_left walk]. unfold flush_last.
    destruct (st_current_date st) as [d|]; [|by rewrite app_nil_r].
    destruct (Py.truthy (Some d)); [|by rewrite app_nil_r].
    apply flush_danger_points.
  - cbn [fold_left walk]. rewrite IH. unfold danger_step at 1 2 3 4.
    cbn [st_danger_points st_balance st_current_date st_daily_balance].
    rewrite app_assoc. f_equal; [|].
    + unfold flush_on_change.
      destruct (st_current_date st) as [d|]; [|by rewrite app_nil_r].
      destruct (Py.truthy (Some d) && negb (tx_date t =? d)%string);
        [|by rewrite app_nil_r].
      apply flush_danger_points.
    + unfold flush_on_change.
      destruct (st_current_date st) as [d|]; [|done].
      by destruct (Py.truthy (Some d) && negb (tx_date t =? d)%string).
Qed.

Lemma find_danger_points_walk data th :
  find_danger_points data th
  = walk th (sorted_by_date (transactions data))
         (default 0 (initialBalance data)) None (default 0 (initialBalance data)).
Proof. unfold find_danger_points. by rewrite danger_loop_walk. Qed.

(** The prefix through the last transaction of a day. *)
Lemma through_absent d l :
  Forall (λ u, tx_date u ≠ d) l → through d l = [].
Proof.
  destruct 1 as [|t l Ht Hl]; [done|].
  cbn [through]. replace (existsb _ (t :: l)) with false; [done|].
  symmetry. apply not_true_iff_false. rewrite existsb_exists.
  intros (u & Hu & Heq). apply String.eqb_eq in Heq.
  apply list_elem_of_In, elem_of_cons in Hu as [->|Hu]; [done|].
  by eapply Forall_forall in Hl.
Qed.

Lemma through_last d p x r :
  tx_date x = d → Forall (λ u, tx_date u ≠ d) r →
  through d (p ++ x :: r) = p ++ [x].
Proof.
  intros Hx Hr. induction p as [|y p IH].
  - cbn [app through existsb]. rewrite (proj2 (String.eqb_eq _ _) Hx).
    cbn. by rewrite through_absent.
  - cbn [app through]. replace (existsb _ (y :: p ++ x :: r)) with true.
    { by rewrite IH. }
    symmetry. apply existsb_exists. exists x. split.
    + apply list_elem_of_In. set_solver.
    + by apply String.eqb_eq.
Qed.

Lemma truthy_Some d : d ≠ "" → Py.truthy (Some d) = true.
Proof.
  intros Hd. unfold Py.truthy. apply negb_true_iff.
  by apply not_true_iff_false; rewrite String.eqb_eq.
Qed.

(** On a date-sorted list the loop emits one point per day at or below the
    threshold, with the balance after the day's last transaction. *)
Lemma walk_sorted th init s : ∀ r p x,
  s = p ++ x :: r →
  StronglySorted (λ a b, date_le a b = true) (x :: r) →
  Forall dated (x :: r) →
  walk th r (running_balance init (p ++ [x])) (Some (tx_date x))
       (running_balance init (p ++ [x]))
  = (λ d, {| dp_date := d;
             dp_balance := running_balance init (through d s);
             dp_shortfall := th - running_balance init (through d s) |})
    <$> List.filter (λ d, running_balance init (through d s) <=? th)
                    (dedup_adjacent (tx_date x :: (tx_date <$> r))).
Proof.
  induction r as [|t r IH]; intros p x Hs Hsort Hdated.
  - cbn [walk fmap list_fmap dedup_adjacent List.filter].
    rewrite truthy_Some by by inversion Hdated.
    assert (through (tx_date x) s = p ++ [x]) as Heod.
    { rewrite Hs. by apply through_last. }
    rewrite Heod. unfold emit.
    destruct (running_balance init (p ++ [x]) <=? th); [|done].
    cbn [fmap list_fmap]. by rewrite Heod.
  - cbn [walk]. rewrite truthy_Some by by inversion Hdated.
    assert (running_balance init ((p ++ [x]) ++ [t])
            = apply_tx (running_balance init (p ++ [x])) t) as Hbal.
    { unfold running_balance. by rewrite (fold_left_app _ (p ++ [x])). }
    rewrite <-Hbal.
    rewrite (IH (p ++ [x]) t); cycle 1.
    { by rewrite <-app_assoc. }
    { by inversion Hsort. }
    { by inversion Hdated. }
    cbn [fmap list_fmap dedup_adjacent].
    destruct (tx_date x =? tx_date t)%string eqn:Hxt.
    + rewrite String.eqb_sym, Hxt. done.
    + rewrite String.eqb_sym, Hxt. cbn [andb negb List.filter].
      assert (through (tx_date x) s = p ++ [x]) as Heod.
      { rewrite Hs. apply through_last; [done|].
        apply StronglySorted_inv in Hsort as [Hsort Hx].
        apply Forall_forall. intros u Hu Heq.
        assert (date_le x u = true) as Hxu by by eapply Forall_forall in Hx.
        apply elem_of_cons in Hu as [->|Hu].
        { by rewrite Heq, String.eqb_refl in Hxt. }
        apply StronglySorted_inv in Hsort as [_ Ht].
        assert (date_le t u = true) as Htu by by eapply Forall_forall in Ht.
        assert (date_le x t = true) as Hxt'.
        { eapply Forall_forall in Hx; [done|]. by left. }
        unfold date_le in *. rewrite Heq in Htu.
        rewrite (String.leb_antisym _ _ Hxt' Htu), String.eqb_refl in Hxt.
        done. }
      rewrite Heod. unfold emit.
      destruct (running_balance init (p ++ [x]) <=? th); [|done].
      cbn [fmap list_fmap app]. by rewrite Heod.
Qed.

(** The exact list of danger points. *)
Lemma find_danger_points_eq data th :
  Forall dated (transactions data) →
  find_danger_points data th
  = point_of data th
    <$> List.filter (λ d, end_of_day_balance data d <=? th) (distinct_dates data).
Proof.
  intros Hdated. rewrite find_danger_points_walk.
  unfold distinct_dates, point_of, end_of_day_balance.
  pose proof (sorted_by_date_sorted (transactions data)) as Hsort.
  assert (Forall dated (sorted_by_date (transactions data))) as Hd.
  { by rewrite sorted_by_date_Permutation. }
  destruct (sorted_by_date (transactions data)) as [|x r] eqn:Hs; [done|].
  cbn [walk app]. cbn [fmap list_fmap].
  by rewrite <-(walk_sorted th _ (x :: r) r [] x).
Qed.

(** The distinct dates: every transaction date, once, ascending. *)
Lemma dedup_adjacent_elem d l : d ∈ dedup_adjacent l ↔ d ∈ l.
Proof.
  induction l as [|a l IH]; [done|].
  cbn [dedup_adjacent]. destruct l as [|b l]; [done|].
  destruct (a =? b)%string eqn:Hab.
  - apply String.eqb_eq in Hab as ->. rewrite IH, !elem_of_cons. tauto.
  - rewrite (elem_of_cons (dedup_adjacent _)), IH, !elem_of_cons. tauto.
Qed.

Lemma dedup_adjacent_sorted l :
  StronglySorted (λ a b, (a <=? b)%string = true) l →
  StronglySorted (λ a b, (a <? b)%string = true) (dedup_adjacent l).
Proof.
  induction 1 as [|a l Hl IH Ha]; [constructor|].
  cbn [dedup_adjacent]. destruct l as [|b l]; [repeat constructor|].
  destruct (a =? b)%string eqn:Hab; [done|].
  constructor; [done|].
  apply Forall_forall. intros c Hc. apply (proj1 (dedup_adjacent_elem _ _)) in Hc.
  assert ((a <? b)%string = true) as Hlt.
  { rewrite ltb_not_leb. apply negb_true_iff, not_true_iff_false. intros Hba.
    apply Forall_cons_1 in Ha as [Hab' _].
    rewrite (String.leb_antisym _ _ Hab' Hba), String.eqb_refl in Hab. done. }
  apply elem_of_cons in Hc as [->|Hc]; [done|].
  eapply ltb_leb_trans; [done|].
  apply StronglySorted_inv in Hl as [_ Hb]. by eapply Forall_forall in Hb.
Qed.

Lemma strictly_ascending_NoDup l :
  StronglySorted (λ a b, (a <? b)%string = true) l → NoDup l.
Proof.
  induction 1 as [|a l _ IH Ha]; constructor; [|done].
  intros Hin. eapply Forall_forall in Ha; [|done]. by rewrite ltb_irrefl in Ha.
Qed.

Lemma distinct_dates_sorted data :
  StronglySorted (λ a b, (a <? b)%string = true) (distinct_dates data).
Proof.
  apply dedup_adjacent_sorted.
  eapply StronglySorted_fmap; [|apply sorted_by_date_sorted].
  by intros x y Hxy.
Qed.

Lemma distinct_dates_elem data d :
  d ∈ distinct_dates data ↔ d ∈ tx_date <$> transactions data.
Proof.
  unfold distinct_dates. rewrite dedup_adjacent_elem.
  by rewrite sorted_by_date_Permutation.
Qed.

Lemma list_filter_StronglySorted {A} (R : relation A) (f : A → bool) l :
  StronglySorted R l → StronglySorted R (List.filter f l).
Proof.
  induction 1 as [|a l _ IH Ha]; simpl; [constructor|].
  destruct (f a); [|done]. constructor; [done|]. by apply Forall_list_filter.
Qed.

Lemma list_filter_elem {A} (f : A → bool) l x :
  x ∈ List.filter f l ↔ x ∈ l ∧ f x = true.
Proof. rewrite !list_elem_of_In. apply filter_In. Qed.

Lemma list_filter_all {A} (f : A → bool) l :
  (∀ x, x ∈ l → f x = true) → List.filter f l = l.
Proof.
  induction l as [|a l IH]; intros H; simpl; [done|].
  rewrite H by by left. f_equal. apply IH. intros x Hx. apply H. by right.
Qed.

Lemma list_filter_none {A} (f : A → bool) l :
  (∀ x, x ∈ l → f x = false) → List.filter f l = [].
Proof.
  induction l as [|a l IH]; intros H; simpl; [done|].
  rewrite H by by left. apply IH. intros x Hx. apply H. by right.
Qed.

(** On a sorted ledger the end-of-day balance of a transaction date is the
    balance [get_balance_at_date] computes for that date. *)
Lemma through_sorted_filter d l :
  StronglySorted (λ a b, date_le a b = true) l →
  d ∈ tx_date <$> l →
  through d l = List.filter (λ t, (tx_date t <=? d)%string) l.
Proof.
  induction 1 as [|t l Hl IH Ht]; intros Hin; [done|].
  cbn [through List.filter].
  replace (existsb _ (t :: l)) with true; cycle 1.
  { symmetry. apply existsb_exists.
    apply list_elem_of_fmap in Hin as (u & -> & Hu).
    exists u. split; [by apply list_elem_of_In|apply String.eqb_refl]. }
  assert ((tx_date t <=? d)%string = true) as ->.
  { apply list_elem_of_fmap in Hin as (u & -> & Hu).
    apply elem_of_cons in Hu as [->|Hu]; [apply leb_refl|].
    by eapply Forall_forall in Ht. }
  f_equal. destruct (decide (d ∈ tx_date <$> l)) as [Hd|Hd]; [by apply IH|].
  rewrite through_absent; cycle 1.
  { apply Forall_forall. intros u Hu Heq. apply Hd.
    apply list_elem_of_fmap. by exists u. }
  symmetry. apply list_filter_none. intros u Hu.
  apply not_true_iff_false. intros Hle.
  assert (tx_date u = d) as Heq; [|apply Hd, list_elem_of_fmap; by exists u].
  apply String.leb_antisym; [done|].
  assert (tx_date t = d) as <-.
  { apply list_elem_of_fmap in Hin as (v & -> & Hv).
    apply elem_of_cons in Hv as [->|Hv]; [done|].
    destruct Hd. apply list_elem_of_fmap. by exists v. }
  by eapply Forall_forall in Ht.
Qed.

Lemma sum_signed_Permutation l1 l2 : l1 ≡ₚ l2 → sum_signed l1 = sum_signed l2.
Proof. induction 1; simpl; lia. Qed.

Lemma list_filter_Permutation {A} (f : A → bool) l1 l2 :
  l1 ≡ₚ l2 → List.filter f l1 ≡ₚ List.filter f l2.
Proof.
  induction 1 as [|x l1 l2 _ IH|x y l|l1 l2 l3 _ IH1 _ IH2]; simpl.
  - done.
  - destruct (f x); by rewrite IH.
  - destruct (f x), (f y); try done. apply Permutation_swap.
  - by etrans.
Qed.

Lemma end_of_day_balance_at data d :
  d ∈ tx_date <$> transactions data →
  end_of_day_balance data d = get_balance_at_date data d.
Proof.
  intros Hd. unfold end_of_day_balance.
  rewrite through_sorted_filter; cycle 1.
  { apply sorted_by_date_sorted. }
  { by rewrite sorted_by_date_Permutation. }
  rewrite running_balance_signed, get_balance_at_date_signed. f_equal.
  apply sum_signed_Permutation, list_filter_Permutation, sorted_by_date_Permutation.
Qed.

(** C3. [find_danger_points] emits at most one point per transaction date,
    in ascending date order; the point of a date is there exactly when the
    running balance after the day's last transaction, in the stable
    date-ascending sort, is at or below the threshold, and it carries that
    balance and the shortfall [threshold - balance], which is not negative.
    So a threshold at or above every end-of-day balance gives one point per
    distinct transaction date, and a threshold below all of them gives
    none.  (Dates are calendar dates: none is the empty string.) *)
Theorem find_danger_points_spec (data : ledger) (threshold : Z) :
  Forall dated (transactions data) →
  let points := find_danger_points data threshold in
  let dates := tx_date <$> transactions data in
  StronglySorted (λ a b, (a <? b)%string = true) (dp_date <$> points)
  ∧ (∀ d, d ∈ dp_date <$> points ↔
          d ∈ dates ∧ end_of_day_balance data d ≤ threshold)
  ∧ (∀ p, p ∈ points →
          dp_balance p = end_of_day_balance data (dp_date p)
          ∧ dp_shortfall p = threshold - dp_balance p
          ∧ 0 ≤ dp_shortfall p)
  ∧ (NoDup (distinct_dates data) ∧ ∀ d, d ∈ distinct_dates data ↔ d ∈ dates)
  ∧ ((∀ d, d ∈ dates → end_of_day_balance data d ≤ threshold) →
     dp_date <$> points = distinct_dates data)
  ∧ ((∀ d, d ∈ dates → threshold < end_of_day_balance data d) →
     points = []).
Proof.
  intros Hdated points dates. subst points dates.
  rewrite find_danger_points_eq by done.
  assert (∀ l : list string,
            dp_date <$> (point_of data threshold <$> l) = l) as Hdates.
  { intros l. rewrite <-list_fmap_compose. apply list_fmap_id. }
  rewrite Hdates. repeat split.
  - apply list_filter_StronglySorted, distinct_dates_sorted.
  - by apply list_filter_elem, proj1, distinct_dates_elem in H.
  - apply list_filter_elem, proj2 in H. lia.
  - intros [Hd Hle]. apply list_filter_elem. split; [by apply distinct_dates_elem|lia].
  - by apply list_elem_of_fmap in H as (d & -> & _).
  - by apply list_elem_of_fmap in H as (d & -> & _).
  - apply list_elem_of_fmap in H as (d & -> & Hd).
    apply list_filter_elem, proj2 in Hd. cbn. lia.
  - apply strictly_ascending_NoDup, distinct_dates_sorted.
  - apply distinct_dates_elem.
  - apply distinct_dates_elem.
  - intros Hall. apply list_filter_all. intros d Hd.
    apply Z.leb_le, Hall. by apply distinct_dates_elem.
  - intros Hnone. rewrite list_filter_none; [done|]. intros d Hd.
    apply Z.leb_gt, Hnone. by apply distinct_dates_elem.
Qed.

Lemma find_danger_points_spec_witness :
  Forall dated (transactions scenario_ledger)
  ∧ dp_date <$> find_danger_points scenario_ledger 6000 = ["2026-01-01"; "2026-01-10"]
  ∧ find_danger_points scenario_ledger 2999 = [].
Proof.
  assert (Forall dated (transactions scenario_ledger)) as Hd.
  { by repeat constructor. }
  split; [exact Hd|].
  pose proof (find_danger_points_spec scenario_ledger 6000 Hd) as (_&_&_&_&H1&_).
  pose proof (find_danger_points_spec scenario_ledger 2999 Hd) as (_&_&_&_&_&H2).
  split.
  - rewrite H1; [reflexivity|].
    intros d Hd'. vm_compute in Hd'.
    apply elem_of_cons in Hd' as [->|Hd']; [by vm_compute|].
    apply elem_of_cons in Hd' as [->|Hd']; [by vm_compute|].
    by apply not_elem_of_nil in Hd'.
  - apply H2. intros d Hd'. vm_compute in Hd'.
    apply elem_of_cons in Hd' as [->|Hd']; [by vm_compute|].
    apply elem_of_cons in Hd' as [->|Hd']; [by vm_compute|].
    by apply not_elem_of_nil in Hd'.
Defined.

(** ** Editor: edit and delete *)

Lemma edit_loop_found id date type_ amount description pre tx post :
  Forall (λ u, tx_id u ≠ id) pre → tx_id tx = id →
  edit_loop id date type_ amount description (pre ++ tx :: post)
  = Some (apply_edit date type_ amount description tx,
          pre ++ apply_edit date type_ amount description tx :: post).
Proof.
  intros Hpre Htx. induction Hpre as [|u pre Hu _ IH]; cbn [app edit_loop].
  - by rewrite (proj2 (String.eqb_eq _ _) Htx).
  - rewrite (proj2 (String.eqb_neq _ _) Hu), IH. done.
Qed.

Lemma edit_loop_not_found id date type_ amount description txs :
  Forall (λ u, tx_id u ≠ id) txs →
  edit_loop id date type_ amount description txs = None.
Proof.
  induction 1 as [|u txs Hu _ IH]; cbn [edit_loop]; [done|].
  by rewrite (proj2 (String.eqb_neq _ _) Hu), IH.
Qed.

Lemma delete_loop_found id pre tx post :
  Forall (λ u, tx_id u ≠ id) pre → tx_id tx = id →
  delete_loop id (pre ++ tx :: post) = Some (tx, pre ++ post).
Proof.
  intros Hpre Htx. induction Hpre as [|u pre Hu _ IH]; cbn [app delete_loop].
  - by rewrite (proj2 (String.eqb_eq _ _) Htx).
  - rewrite (proj2 (String.eqb_neq _ _) Hu), IH. done.
Qed.

Lemma delete_loop_not_found id txs :
  Forall (λ u, tx_id u ≠ id) txs → delete_loop id txs = None.
Proof.
  induction 1 as [|u txs Hu _ IH]; cbn [delete_loop]; [done|].
  by rewrite (proj2 (String.eqb_neq _ _) Hu), IH.
Qed.

(** The first record with a given id, when some record has it. *)
Lemma first_with_id id txs :
  Exists (λ u, tx_id u = id) txs →
  ∃ pre tx post, txs = pre ++ tx :: post
                 ∧ Forall (λ u, tx_id u ≠ id) pre ∧ tx_id tx = id.
Proof.
  induction 1 as [u txs Hu|u txs _ IH].
  - by exists [], u, txs.
  - destruct (decide (tx_id u = id)) as [Hu|Hu]; [by exists [], u, txs|].
    destruct IH as (pre & tx & post & -> & Hpre & Htx).
    exists (u :: pre), tx, post. split; [done|]. by split; [constructor|].
Qed.

Lemma assign_if_truthy_given s old :
  s ≠ "" → assign_if_truthy (Some s) old = s.
Proof. intros Hs. unfold assign_if_truthy. by rewrite truthy_Some. Qed.

Lemma assign_if_truthy_not_given arg old :
  arg = None ∨ arg = Some "" → assign_if_truthy arg old = old.
Proof. by intros [-> | ->]. Qed.

(** C6. [edit_transaction] changes the first record with the id, and only
    the fields provided: the amount whenever an amount is given (0
    included), the date, type and description only when given and not empty
    (an empty string leaves the field as it was); the id, the other records
    and the rest of the ledger stay as they were, and the list is then
    sorted by date, stably and ascending.  When no record has the id,
    [edit_transaction] returns nothing and the ledger is unchanged, and
    so does [delete_transaction]. *)
Theorem edit_transaction_spec (data : ledger) (id : string)
    (date type_ : option string) (amount : option Z) (description : option string) :
  (∀ pre tx post,
     transactions data = pre ++ tx :: post →
     Forall (λ u, tx_id u ≠ id) pre → tx_id tx = id →
     ∃ tx' result,
       edit_transaction data id date type_ amount description = (Some tx', result)
       ∧ tx_id tx' = tx_id tx
       ∧ (∀ a, amount = Some a → tx_amount tx' = a)
       ∧ (amount = None → tx_amount tx' = tx_amount tx)
       ∧ (∀ s, date = Some s → s ≠ "" → tx_date tx' = s)
       ∧ (date = None ∨ date = Some "" → tx_date tx' = tx_date tx)
       ∧ (∀ s, type_ = Some s → s ≠ "" → tx_type tx' = s)
       ∧ (type_ = None ∨ type_ = Some "" → tx_type tx' = tx_type tx)
       ∧ (∀ s, description = Some s → s ≠ "" → tx_description tx' = s)
       ∧ (description = None ∨ description = Some "" →
          tx_description tx' = tx_description tx)
       ∧ initialBalance result = initialBalance data
       ∧ compressed result = compressed data
       ∧ compressedAt result = compressedAt data
       ∧ StronglySorted (λ a b, (tx_date a <=? tx_date b)%string = true)
                        (transactions result)
       ∧ transactions result ≡ₚ pre ++ tx' :: post
       ∧ (∀ d, List.filter (λ t, (tx_date t =? d)%string) (transactions result)
               = List.filter (λ t, (tx_date t =? d)%string) (pre ++ tx' :: post)))
  ∧ (Forall (λ u, tx_id u ≠ id) (transactions data) →
     edit_transaction data id date type_ amount description = (None, data)
     ∧ delete_transaction data id = (None, data)).
Proof.
  split.
  - intros pre tx post Htxs Hpre Htx.
    exists (apply_edit date type_ amount description tx),
           (edit_transaction data id date type_ amount description).2.
    assert (edit_transaction data id date type_ amount description
            = (Some (apply_edit date type_ amount description tx),
               set_transactions data
                 (sorted_by_date
                    (pre ++ apply_edit date type_ amount description tx :: post))))
      as Hrun.
    { unfold edit_transaction. by rewrite Htxs, edit_loop_found. }
    rewrite Hrun. cbn [snd set_transactions transactions initialBalance
                       compressed compressedAt].
    split; [done|].
    split; [done|]. split; [by intros a ->|]. split; [by intros ->|].
    split; [intros s -> Hs; by apply assign_if_truthy_given|].
    split; [apply assign_if_truthy_not_given|].
    split; [intros s -> Hs; by apply assign_if_truthy_given|].
    split; [apply assign_if_truthy_not_given|].
    split; [intros s -> Hs; by apply assign_if_truthy_given|].
    split; [apply assign_if_truthy_not_given|].
    split; [done|]. split; [done|]. split; [done|].
    split; [apply sorted_by_date_sorted|].
    split; [apply sorted_by_date_Permutation|].
    intros d. apply sorted_by_date_stable.
  - intros Hnone. unfold edit_transaction, delete_transaction.
    by rewrite edit_loop_not_found, delete_loop_not_found.
Qed.

Lemma edit_transaction_spec_witness :
  transactions scenario_ledger
  = [] ++ Transaction "tx-1" "2026-01-01" "income" 5000 "pay"
       :: [Transaction "tx-2" "2026-01-10" "expense" 3000 "rent"]
  ∧ Forall (λ u, tx_id u ≠ "tx-1") []
  ∧ Forall (λ u, tx_id u ≠ "tx-9") (transactions scenario_ledger)
  ∧ (∃ tx' result,
       edit_transaction scenario_ledger "tx-1"
         (Some "2026-01-20") (Some "") (Some 0) None
       = (Some tx', result)
       ∧ tx_amount tx' = 0 ∧ tx_date tx' = "2026-01-20"
       ∧ tx_type tx' = "income" ∧ tx_description tx' = "pay"
       ∧ initialBalance result = Some 1000
       ∧ transactions result
         ≡ₚ [] ++ tx' :: [Transaction "tx-2" "2026-01-10" "expense" 3000 "rent"])
  ∧ edit_transaction scenario_ledger "tx-9" (Some "2026-01-20") None None None
    = (None, scenario_ledger)
  ∧ delete_transaction scenario_ledger "tx-9" = (None, scenario_ledger).
Proof.
  assert (Forall (λ u, tx_id u ≠ "tx-9") (transactions scenario_ledger)) as Hnone.
  { by repeat constructor. }
  split; [reflexivity|]. split; [constructor|]. split; [exact Hnone|].
  split.
  - destruct (proj1 (edit_transaction_spec scenario_ledger "tx-1"
                       (Some "2026-01-20") (Some "") (Some 0) None)
                [] (Transaction "tx-1" "2026-01-01" "income" 5000 "pay")
                [Transaction "tx-2" "2026-01-10" "expense" 3000 "rent"]
                eq_refl (List.Forall_nil _) eq_refl)
      as (tx' & result & Hedit & _ & Ha & _ & Hd & _ & _ & Hty & _ & Hdesc
          & Hinit & _ & _ & _ & Hperm & _).
    exists tx', result. split; [exact Hedit|].
    split; [by apply Ha|]. split; [by apply Hd|].
    split; [apply Hty; by right|]. split; [apply Hdesc; by left|].
    split; [exact Hinit|exact Hperm].
  - exact (proj2 (edit_transaction_spec scenario_ledger "tx-9"
                    (Some "2026-01-20") None None None) Hnone).
Defined.

(** ** Editor: add, then delete *)

Lemma delete_loop_fresh id x l :
  tx_id x = id → x ∈ l → (∀ u, u ∈ l → tx_id u = id → u = x) →
  ∃ l1 l2, l = l1 ++ x :: l2 ∧ delete_loop id l = Some (x, l1 ++ l2).
Proof.
  intros Hx Hin Huniq.
  destruct (first_with_id id l) as (pre & tx & post & -> & Hpre & Htx).
  { apply Exists_exists. by exists x. }
  assert (tx = x) as ->.
  { apply Huniq; [|done]. apply elem_of_app. right. by left. }
  exists pre, post. split; [done|]. by apply delete_loop_found.
Qed.

Lemma snoc_unique {A} (x : A) (a b c : list A) :
  x ∉ c → a ++ x :: b = c ++ [x] → a = c ∧ b = [].
Proof.
  intros Hx Heq. destruct b as [|y b _] using rev_ind.
  - by apply app_inj_tail in Heq as [-> _].
  - change (a ++ x :: b ++ [y]) with (a ++ (x :: b) ++ [y]) in Heq.
    rewrite app_assoc in Heq.
    apply app_inj_tail in Heq as [<- ->]. destruct Hx.
    apply elem_of_app. right. by left.
Qed.

(** Taking the added record out of the sorted list leaves the sorted list
    of the others. *)
Lemma remove_added_sorted new txs l1 l2 :
  new ∉ txs → sorted_by_date (txs ++ [new]) = l1 ++ new :: l2 →
  l1 ++ l2 = sorted_by_date txs.
Proof.
  intros Hnew Hsplit.
  pose proof (sorted_by_date_sorted (txs ++ [new])) as Hsorted.
  rewrite Hsplit in Hsorted.
  apply (stable_sort_is_sorted date_le date_le_total date_le_trans).
  - apply StronglySorted_app in Hsorted as (Hcross & H1 & H2).
    apply StronglySorted_app. split; [|split; [done|]].
    + intros x1 x2 Hx1 Hx2. apply Hcross; [done|]. by right.
    + by apply StronglySorted_cons in H2 as [_ H2].
  - intros z.
    pose proof (sorted_stable date_le date_le_trans z (txs ++ [new])) as Hst.
    fold (sorted_by_date (txs ++ [new])) in Hst.
    rewrite Hsplit, !List.filter_app in Hst. cbn [List.filter] in Hst.
    rewrite List.filter_app.
    destruct (Py.same_rank date_le z new).
    + apply snoc_unique in Hst as [-> ->]; [by rewrite app_nil_r|].
      intros Hin. apply list_filter_elem in Hin as [Hin _]. by apply Hnew.
    + by rewrite app_nil_r in Hst.
Qed.

(** C9. Adding a transaction under an id no record of the ledger has, then
    deleting by the id [add_transaction] returned, deletes the record just
    added and leaves the records the ledger had: the same list up to order
    (hence the same set), namely the original list sorted by date, the rest
    of the ledger as it was. *)
Theorem add_then_delete (new_id : string) (data : ledger)
    (date type_ : string) (amount : Z) (description : string) :
  Forall (λ u, tx_id u ≠ new_id) (transactions data) →
  let added := add_transaction new_id data date type_ amount description in
  let deleted := delete_transaction added.2 (tx_id added.1) in
  tx_id added.1 = new_id
  ∧ deleted.1 = Some added.1
  ∧ transactions deleted.2 ≡ₚ transactions data
  ∧ (∀ t, t ∈ transactions deleted.2 ↔ t ∈ transactions data)
  ∧ transactions deleted.2 = sorted_by_date (transactions data)
  ∧ initialBalance deleted.2 = initialBalance data
  ∧ compressed deleted.2 = compressed data
  ∧ compressedAt deleted.2 = compressedAt data.
Proof.
  intros Hfresh. cbn zeta.
  set (new_tx := Transaction new_id date type_ amount description).
  unfold add_transaction. fold new_tx. cbn [fst snd tx_id new_tx].
  assert (new_tx ∉ transactions data) as Hnotin.
  { intros Hin. rewrite Forall_forall in Hfresh. by apply (Hfresh new_tx Hin). }
  destruct (delete_loop_fresh new_id new_tx
              (sorted_by_date (transactions data ++ [new_tx])))
    as (l1 & l2 & Hsplit & Hdel).
  - done.
  - rewrite sorted_by_date_Permutation. apply elem_of_app. right. by left.
  - intros u Hu Hid. rewrite sorted_by_date_Permutation in Hu.
    apply elem_of_app in Hu as [Hu|Hu].
    + by eapply Forall_forall in Hfresh.
    + by apply list_elem_of_singleton in Hu.
  - unfold delete_transaction. cbn [transactions set_transactions].
    rewrite Hdel. cbn [fst snd transactions set_transactions initialBalance
                       compressed compressedAt].
    rewrite (remove_added_sorted new_tx (transactions data) l1 l2) by done.
    split; [done|]. split; [done|].
    split; [apply sorted_by_date_Permutation|].
    split; [|done].
    intros t. by rewrite sorted_by_date_Permutation.
Qed.

Lemma add_then_delete_witness :
  Forall (λ u, tx_id u ≠ "tx-3") (transactions scenario_ledger)
  ∧ transactions
      (delete_transaction
         (add_transaction "tx-3" scenario_ledger "2026-01-05" "expense" 700 "book").2
         "tx-3").2
    ≡ₚ transactions scenario_ledger.
Proof.
  assert (Forall (λ u, tx_id u ≠ "tx-3") (transactions scenario_ledger)) as Hf.
  { by repeat constructor. }
  split; [exact Hf|].
  exact (proj1 (proj2 (proj2
    (add_then_delete "tx-3" scenario_ledger "2026-01-05" "expense" 700 "book" Hf)))).
Defined.

(** ** Editor: search *)

Lemma filter_partition_Permutation {A} (f : A → bool) (l : list A) :
  List.filter f l ++ List.filter (λ x, negb (f x)) l ≡ₚ l.
Proof.
  induction l as [|x l IH]; [done|]. cbn [List.filter].
  destruct (f x); cbn [negb app].
  - by constructor.
  - rewrite <-Permutation_middle. by constructor.
Qed.

Lemma list_filter_sublist_of {A} (f : A → bool) (l : list A) :
  List.filter f l `sublist_of` l.
Proof.
  induction l as [|x l IH]; [done|]. cbn [List.filter].
  destruct (f x); by constructor.
Qed.

Section SearchFacts.
Variable lower : string → string.

Lemma passes_supplied_stage (arg : option string) (f : string → transaction → bool) l :
  match arg with
  | Some s => if Py.truthy arg then List.filter (f s) l else l
  | None => l
  end
  = List.filter (λ t, passes (supplied arg) (λ s, f s t)) l.
Proof.
  unfold supplied. destruct arg as [s|]; [destruct (Py.truthy (Some s))|].
  - done.
  - symmetry. by apply list_filter_all.
  - symmetry. by apply list_filter_all.
Qed.

Lemma passes_stage (arg : option Z) (f : Z → transaction → bool) l :
  match arg with
  | Some a => List.filter (f a) l
  | None => l
  end
  = List.filter (λ t, passes arg (λ a, f a t)) l.
Proof.
  destruct arg as [a|]; [done|]. symmetry. by apply list_filter_all.
Qed.

(** The search is the filter by [matches], then the descending sort. *)
Lemma search_transactions_eq data keyword type_ start_date end_date min_amount max_amount :
  search_transactions lower data keyword type_ start_date end_date min_amount max_amount
  = sorted_by_date_reverse
      (List.filter
         (matches lower keyword type_ start_date end_date min_amount max_amount)
         (transactions data)).
Proof.
  unfold search_transactions. f_equal.
  rewrite (passes_supplied_stage type_ (λ ty t, (tx_type t =? ty)%string)).
  rewrite (passes_supplied_stage start_date (λ d t, (d <=? tx_date t)%string)).
  rewrite (passes_supplied_stage end_date (λ d t, (tx_date t <=? d)%string)).
  rewrite (passes_stage min_amount (λ a t, a <=? tx_amount t)).
  rewrite (passes_stage max_amount (λ a t, tx_amount t <=? a)).
  rewrite (passes_supplied_stage keyword
             (λ k t, Py.contains (lower k) (lower (tx_description t)))).
  rewrite !filter_filter_bool. apply filter_ext_bool. intros t.
  unfold matches. by rewrite !andb_assoc.
Qed.

Lemma matches_iff keyword type_ start_date end_date min_amount max_amount t :
  matches lower keyword type_ start_date end_date min_amount max_amount t = true ↔
    (∀ ty, supplied type_ = Some ty → tx_type t = ty)
    ∧ (∀ d, supplied start_date = Some d → (d <=? tx_date t)%string = true)
    ∧ (∀ d, supplied end_date = Some d → (tx_date t <=? d)%string = true)
    ∧ (∀ a, min_amount = Some a → a ≤ tx_amount t)
    ∧ (∀ a, max_amount = Some a → tx_amount t ≤ a)
    ∧ (∀ k, supplied keyword = Some k →
            Py.contains (lower k) (lower (tx_description t)) = true).
Proof.
  unfold matches. rewrite !andb_true_iff.
  assert (∀ {A} (arg : option A) (test : A → bool),
            passes arg test = true ↔ ∀ a, arg = Some a → test a = true) as Hp.
  { intros A [a|] test; simpl; [|done]. split; [by intros ? ? [= <-]|auto]. }
  rewrite !Hp. setoid_rewrite String.eqb_eq. setoid_rewrite Z.leb_le. tauto.
Qed.
(** [needle in hay] is the occurrence of [needle] in [hay]. *)
Lemma contains_substring needle hay :
  Py.contains needle hay = true ↔ substring needle hay.
Proof.
  unfold substring. split.
  - induction hay as [|c hay IH]; cbn [Py.contains].
    + rewrite orb_false_r. intros H. apply prefix_app in H as [r Hr].
      by exists "", r.
    + intros H. apply orb_true_iff in H as [H|H].
      * apply prefix_app in H as [r Hr]. by exists "", r.
      * destruct (IH H) as (pre & post & Hhay). exists (String c pre), post.
        change (String c hay = String c (pre +:+ needle +:+ post)). by rewrite Hhay.
  - intros (pre & post & ->). induction pre as [|c pre IH].
    + change ("" +:+ needle +:+ post) with (needle +:+ post).
      assert (String.prefix needle (needle +:+ post) = true) as Hp.
      { apply prefix_app. by exists post. }
      destruct (needle +:+ post); cbn [Py.contains]; by rewrite Hp.
    + change (String c pre +:+ needle +:+ post)
        with (String c (pre +:+ needle +:+ post)).
      cbn [Py.contains]. rewrite IH. apply orb_true_r.
Qed.

Lemma supplied_Some (arg : option string) s :
  supplied arg = Some s ↔ arg = Some s ∧ s ≠ "".
Proof.
  unfold supplied. destruct arg as [a|]; cbn [Py.truthy].
  - destruct (a =? "")%string eqn:Ha; cbn [negb].
    + apply String.eqb_eq in Ha. subst a. split; [done|]. by intros [[= <-] ?].
    + apply String.eqb_neq in Ha. split; [by intros [= <-]|by intros [? _]].
  - split; [done|]. by intros [? _].
Qed.

Lemma matches_satisfies keyword type_ start_date end_date min_amount max_amount t :
  matches lower keyword type_ start_date end_date min_amount max_amount t = true
  ↔ satisfies lower keyword type_ start_date end_date min_amount max_amount t.
Proof.
  rewrite matches_iff. unfold satisfies.
  setoid_rewrite supplied_Some. setoid_rewrite contains_substring.
  split; intros (H1 & H2 & H3 & H4 & H5 & H6); repeat split; try done.
  - intros ty ? ?. by apply H1.
  - intros d ? ?. by apply H2.
  - intros d ? ?. by apply H3.
  - intros k ? ?. by apply H6.
  - intros ty [? ?]. by apply H1.
  - intros d [? ?]. by apply H2.
  - intros d [? ?]. by apply H3.
  - intros k [? ?]. by apply H6.
Qed.

End SearchFacts.

(** C7, as the code has it.  A type, a date bound or a keyword that is the
    empty string counts as not given.  [search_transactions] returns
    exactly the transactions that satisfy every filter given (type,
    inclusive start and end date, inclusive minimum and maximum amount,
    keyword occurring in the description after lower-casing both, so that
    keywords that differ by case only find the same), each as often as the
    ledger has it, sorted by date descending with the order of the ledger
    kept within a date; without filters these are all the transactions, and
    with the minimum and the maximum both [X] exactly those of amount
    [X]. *)
Theorem search_transactions_spec (lower : string → string) (data : ledger)
    (keyword type_ start_date end_date : option string)
    (min_amount max_amount : option Z) :
  let found :=
    search_transactions lower data keyword type_ start_date end_date
                        min_amount max_amount in
  let ok (t : transaction) :=
    (∀ ty, type_ = Some ty → ty ≠ "" → tx_type t = ty)
    ∧ (∀ d, start_date = Some d → d ≠ "" → (d <=? tx_date t)%string = true)
    ∧ (∀ d, end_date = Some d → d ≠ "" → (tx_date t <=? d)%string = true)
    ∧ (∀ a, min_amount = Some a → a ≤ tx_amount t)
    ∧ (∀ a, max_amount = Some a → tx_amount t ≤ a)
    ∧ (∀ k, keyword = Some k → k ≠ "" →
            ∃ pre post, lower (tx_description t) = pre +:+ lower k +:+ post) in
  (∀ t, t ∈ found ↔ t ∈ transactions data ∧ ok t)
  ∧ (∃ rest, found ++ rest ≡ₚ transactions data ∧ Forall (λ t, ¬ ok t) rest)
  ∧ StronglySorted (λ a b, (tx_date b <=? tx_date a)%string = true) found
  ∧ (∀ d, List.filter (λ t, (tx_date t =? d)%string) found
          `sublist_of` transactions data)
  ∧ (∀ k k', keyword = Some k → k ≠ "" → k' ≠ "" → lower k' = lower k →
             search_transactions lower data (Some k') type_ start_date end_date
                                 min_amount max_amount
             = found)
  ∧ search_transactions lower data None None None None None None
    = sorted_by_date_reverse (transactions data)
  ∧ search_transactions lower data None None None None None None
    ≡ₚ transactions data
  ∧ (∀ X t, t ∈ search_transactions lower data None None None None (Some X) (Some X)
            ↔ t ∈ transactions data ∧ tx_amount t = X).
Proof.
  cbn zeta. rewrite !search_transactions_eq.
  set (m := matches lower keyword type_ start_date end_date min_amount max_amount).
  assert (∀ t, m t = true
               ↔ satisfies lower keyword type_ start_date end_date
                           min_amount max_amount t) as Hm.
  { intros t. apply matches_satisfies. }
  split; [|split; [|split; [|split; [|split; [|split; [|split]]]]]].
  - intros t. rewrite sorted_by_date_reverse_Permutation, list_filter_elem.
    split; intros [Ht Hok]; (split; [done|]); by apply Hm.
  - exists (List.filter (λ t, negb (m t)) (transactions data)). split.
    + rewrite sorted_by_date_reverse_Permutation. apply filter_partition_Permutation.
    + apply Forall_forall. intros t Ht. apply list_filter_elem in Ht as [_ Ht].
      intros Hok. apply Hm in Hok. apply negb_true_iff in Ht. by rewrite Ht in Hok.
  - apply sorted_by_date_reverse_sorted.
  - intros d. rewrite sorted_by_date_reverse_stable, filter_filter_bool.
    apply list_filter_sublist_of.
  - intros k k' -> Hk Hk' Hlower. rewrite search_transactions_eq. do 2 f_equal.
    unfold m, matches, supplied. cbn [Py.truthy].
    rewrite (proj2 (String.eqb_neq k "")), (proj2 (String.eqb_neq k' "")) by done.
    cbn [negb passes]. by rewrite Hlower.
  - f_equal. by apply list_filter_all.
  - etrans; [apply sorted_by_date_reverse_Permutation|].
    by rewrite list_filter_all.
  - intros X t. rewrite search_transactions_eq.
    rewrite sorted_by_date_reverse_Permutation, list_filter_elem, matches_iff.
    split.
    + intros (Ht & _ & _ & _ & Hmin & Hmax & _).
      split; [done|]. specialize (Hmin X eq_refl). specialize (Hmax X eq_refl). lia.
    + intros [Ht <-]. split; [done|].
      repeat split; try done; intros a [= <-]; lia.
Qed.

(** Where C7 fails as stated: a type filter, or an end date, that is the
    empty string is satisfied by no record of the ledger, and the search
    returns every record. *)
Lemma search_transactions_empty_filter :
  (∀ t, t ∈ transactions scenario_ledger → tx_type t ≠ "")
  ∧ search_transactions ascii_lower scenario_ledger None (Some "") None None None None
    = [ Transaction "tx-2" "2026-01-10" "expense" 3000 "rent";
        Transaction "tx-1" "2026-01-01" "income" 5000 "pay" ]
  ∧ (∀ t, t ∈ transactions scenario_ledger → (tx_date t <=? "")%string = false)
  ∧ search_transactions ascii_lower scenario_ledger None None None (Some "") None None
    = [ Transaction "tx-2" "2026-01-10" "expense" 3000 "rent";
        Transaction "tx-1" "2026-01-01" "income" 5000 "pay" ].
Proof.
  split; [|split; [reflexivity|split; [|reflexivity]]].
  - intros t Ht. apply list_elem_of_In in Ht.
    by destruct Ht as [<-|[<-|[]]].
  - intros t Ht. apply list_elem_of_In in Ht.
    by destruct Ht as [<-|[<-|[]]].
Qed.

(** ** Calendar *)

Section CalendarFacts.
Import Calendar.

Lemma make_valid y m d :
  MINYEAR ≤ y ≤ MAXYEAR → 1 ≤ m ≤ 12 → 1 ≤ d ≤ days_in_month y m →
  make y m d = Some (Datetime y m d).
Proof.
  intros Hy Hm Hd. unfold make, valid. cbn [year month day].
  repeat match goal with
  | |- context [?a <=? ?b] => rewrite (proj2 (Z.leb_le a b)) by lia
  end. done.
Qed.

Lemma days_in_month_cases y m :
  1 ≤ m ≤ 12 →
  days_in_month y m = 28 ∨ days_in_month y m = 29 ∨ days_in_month y m = 30 ∨ days_in_month y m = 31.
Proof.
  intros Hm. unfold days_in_month.
  destruct (m =? 2); [destruct (is_leap y); auto|].
  destruct ((m =? 4) || (m =? 6) || (m =? 9) || (m =? 11)); auto.
Qed.

Lemma tomorrow_same_month y m d :
  MINYEAR ≤ y ≤ MAXYEAR → 1 ≤ m ≤ 12 → 1 ≤ d < days_in_month y m →
  tomorrow (Datetime y m d) = Some (Datetime y m (d + 1)).
Proof.
  intros Hy Hm Hd. unfold tomorrow. cbn [year month day].
  rewrite (proj2 (Z.ltb_lt _ _)) by lia. apply make_valid; lia.
Qed.

Lemma following_valid y m :
  MINYEAR ≤ y ≤ MAXYEAR → 1 ≤ m ≤ 12 → y * 12 + (m - 1) < MAXYEAR * 12 + 11 →
  MINYEAR ≤ (following y m).1 ≤ MAXYEAR ∧ 1 ≤ (following y m).2 ≤ 12.
Proof.
  unfold following, MINYEAR, MAXYEAR. intros Hy Hm Hlt.
  destruct (m <? 12) eqn:H12; cbn [fst snd]; [apply Z.ltb_lt in H12|apply Z.ltb_ge in H12]; lia.
Qed.

Lemma tomorrow_last_day y m d :
  MINYEAR ≤ y ≤ MAXYEAR → 1 ≤ m ≤ 12 → y * 12 + (m - 1) < MAXYEAR * 12 + 11 →
  d = days_in_month y m →
  tomorrow (Datetime y m d)
  = Some (Datetime (following y m).1 (following y m).2 1).
Proof.
  intros Hy Hm Hlt ->. pose proof (following_valid y m Hy Hm Hlt) as [Hy' Hm'].
  unfold tomorrow. cbn [year month day]. rewrite Z.ltb_irrefl.
  unfold following in *. destruct (m <? 12); cbn [fst snd] in *.
  - apply make_valid; [done..|].
    destruct (days_in_month_cases y (m + 1)) as [?|[?|[?|?]]]; lia.
  - apply make_valid; [done..|]. done.
Qed.

Lemma yesterday_same_month y m d :
  MINYEAR ≤ y ≤ MAXYEAR → 1 ≤ m ≤ 12 → 1 < d ≤ days_in_month y m →
  yesterday (Datetime y m d) = Some (Datetime y m (d - 1)).
Proof.
  intros Hy Hm Hd. unfold yesterday. cbn [year month day].
  rewrite (proj2 (Z.ltb_lt _ _)) by lia. apply make_valid; lia.
Qed.

Lemma yesterday_first_day y m :
  MINYEAR ≤ y ≤ MAXYEAR → 1 ≤ m ≤ 12 → y * 12 + (m - 1) < MAXYEAR * 12 + 11 →
  yesterday (Datetime (following y m).1 (following y m).2 1)
  = Some (Datetime y m (days_in_month y m)).
Proof.
  intros Hy Hm Hlt. unfold yesterday. cbn [year month day]. rewrite Z.ltb_irrefl.
  unfold following. destruct (m <? 12) eqn:H12; cbn [fst snd].
  - apply Z.ltb_lt in H12. rewrite (proj2 (Z.ltb_lt _ _)) by lia.
    replace (m + 1 - 1) with m by lia. apply make_valid; [lia..|].
    destruct (days_in_month_cases y m) as [?|[?|[?|?]]]; lia.
  - apply Z.ltb_ge in H12. assert (m = 12) as -> by lia.
    cbn. replace (y + 1 - 1) with y by lia. by apply make_valid.
Qed.

(** Evaluation of arithmetic on numerals. *)
Ltac eval_numerals :=
  repeat match goal with
  | |- context [Z.add (Zpos ?a) (Zpos ?b)] =>
      let r := eval vm_compute in (Z.add (Zpos a) (Zpos b)) in
      progress change (Z.add (Zpos a) (Zpos b)) with r
  | |- context [Z.sub (Zpos ?a) (Zpos ?b)] =>
      let r := eval vm_compute in (Z.sub (Zpos a) (Zpos b)) in
      progress change (Z.sub (Zpos a) (Zpos b)) with r
  | |- context [Z.opp (Zpos ?a)] =>
      progress change (Z.opp (Zpos a)) with (Zneg a)
  | |- context [Z.opp (Zneg ?a)] =>
      progress change (Z.opp (Zneg a)) with (Zpos a)
  | |- context [Z.leb Z0 (Zneg ?a)] =>
      progress change (Z.leb Z0 (Zneg a)) with false
  | |- context [Z.leb Z0 (Zpos ?a)] =>
      progress change (Z.leb Z0 (Zpos a)) with true
  | |- context [Z.to_nat (Zpos ?a)] =>
      let r := eval vm_compute in (Z.to_nat (Zpos a)) in
      progress change (Z.to_nat (Zpos a)) with r
  end.

Lemma month_end_last_day y m d :
  valid (Datetime y m d) = true → y * 12 + (m - 1) < MAXYEAR * 12 + 11 →
  month_end (Datetime y m d) = Some (Datetime y m (days_in_month y m)).
Proof.
  intros Hv Hlt. unfold valid in Hv. cbn [year month day] in Hv.
  repeat (apply andb_true_iff in Hv as [Hv ?]).
  repeat match goal with H : (_ <=? _) = true |- _ => apply Z.leb_le in H end.
  assert (MINYEAR ≤ y ≤ MAXYEAR) as Hy by lia.
  assert (1 ≤ m ≤ 12) as Hm by lia.
  pose proof (following_valid y m Hy Hm Hlt) as [Hy' Hm'].
  pose proof (yesterday_first_day y m Hy Hm Hlt) as Hback.
  pose proof (days_in_month_cases (following y m).1 (following y m).2 Hm') as Hdim'.
  unfold month_end, replace_day. cbn [year month day].
  rewrite make_valid by (destruct (days_in_month_cases y m) as [?|[?|[?|?]]]; lia).
  cbn [mbind option_bind]. unfold add_days.
  destruct (days_in_month_cases y m Hm) as [Hdim|[Hdim|[Hdim|Hdim]]].
  all: repeat first
    [ rewrite tomorrow_same_month by lia
    | rewrite tomorrow_last_day by (done || lia)
    | rewrite yesterday_same_month by lia
    | rewrite Hback
    | progress eval_numerals
    | progress cbn [Nat.iter nat_rect mbind option_bind day] ].
  all: by rewrite Hdim.
Qed.

Lemma add_months_valid dt n :
  valid dt = true →
  MINYEAR * 12 ≤ month_index dt + n ≤ MAXYEAR * 12 + 11 →
  add_months dt n
  = Some (Datetime ((month_index dt + n) / 12) ((month_index dt + n) mod 12 + 1)
            (Z.min (days_in_month ((month_index dt + n) / 12)
                                  ((month_index dt + n) mod 12 + 1))
                   (day dt)))
  ∧ valid (Datetime ((month_index dt + n) / 12) ((month_index dt + n) mod 12 + 1)
             (Z.min (days_in_month ((month_index dt + n) / 12)
                                   ((month_index dt + n) mod 12 + 1))
                    (day dt))) = true.
Proof.
  intros Hv Hrange. unfold valid in Hv.
  repeat (apply andb_true_iff in Hv as [Hv ?]).
  repeat match goal with H : (_ <=? _) = true |- _ => apply Z.leb_le in H end.
  unfold add_months. fold (month_index dt).
  set (y := (month_index dt + n) / 12). set (m := (month_index dt + n) mod 12 + 1).
  assert (MINYEAR ≤ y ≤ MAXYEAR) as Hy.
  { unfold MINYEAR, MAXYEAR in *. subst y. split.
    - apply Z.div_le_lower_bound; lia.
    - apply Z.lt_succ_r, Z.div_lt_upper_bound; lia. }
  assert (1 ≤ m ≤ 12) as Hm.
  { subst m. pose proof (Z.mod_pos_bound (month_index dt + n) 12). lia. }
  assert (make y m (Z.min (days_in_month y m) (day dt))
          = Some (Datetime y m (Z.min (days_in_month y m) (day dt)))) as Hmake.
  { apply make_valid; [done..|].
    destruct (days_in_month_cases y m Hm) as [?|[?|[?|?]]]; lia. }
  split; [done|]. unfold make in Hmake.
  by destruct (valid (Datetime y m (Z.min (days_in_month y m) (day dt)))).
Qed.

(** Adding no month changes nothing. *)
Lemma add_months_0 dt : valid dt = true → add_months dt 0 = Some dt.
Proof.
  intros Hv. pose proof Hv as Hv'. unfold valid in Hv.
  repeat (apply andb_true_iff in Hv as [Hv ?]).
  repeat match goal with H : (_ <=? _) = true |- _ => apply Z.leb_le in H end.
  unfold add_months.
  replace ((year dt * 12 + (month dt - 1) + 0) / 12) with (year dt)
    by (apply Z.div_unique with (month dt - 1); lia).
  replace ((year dt * 12 + (month dt - 1) + 0) mod 12 + 1) with (month dt)
    by (rewrite <-(Z.mod_unique (year dt * 12 + (month dt - 1) + 0) 12
                     (year dt) (month dt - 1)) by lia; lia).
  rewrite Z.min_r by lia. unfold make. destruct dt. cbn [year month day] in *.
  by rewrite Hv'.
Qed.

Lemma valid_inv dt :
  valid dt = true →
  MINYEAR ≤ year dt ≤ MAXYEAR ∧ 1 ≤ month dt ≤ 12
  ∧ 1 ≤ day dt ≤ days_in_month (year dt) (month dt).
Proof.
  intros Hv. unfold valid in Hv.
  repeat (apply andb_true_iff in Hv as [Hv ?]).
  repeat match goal with H : (_ <=? _) = true |- _ => apply Z.leb_le in H end.
  lia.
Qed.

Lemma last_day_of_month_valid y m :
  MINYEAR ≤ y ≤ MAXYEAR → 1 ≤ m ≤ 12 → valid (last_day_of_month y m) = true.
Proof.
  intros Hy Hm.
  assert (make y m (days_in_month y m) = Some (last_day_of_month y m)) as Hmake.
  { apply make_valid; [done..|].
    destruct (days_in_month_cases y m Hm) as [?|[?|[?|?]]]; lia. }
  unfold make in Hmake. fold (last_day_of_month y m) in Hmake.
  by destruct (valid (last_day_of_month y m)).
Qed.

End CalendarFacts.

(** ** Forecast *)

Lemma elem_of_range (i n : Z) : i ∈ Py.range n ↔ 0 ≤ i < n.
Proof.
  unfold Py.range. rewrite list_elem_of_fmap. split.
  - intros (k & -> & Hk). apply elem_of_seq in Hk. lia.
  - intros Hi. exists (Z.to_nat i). split; [lia|]. apply elem_of_seq. lia.
Qed.

Lemma length_range (n : Z) : length (Py.range n) = Z.to_nat n.
Proof. unfold Py.range. by rewrite length_fmap, length_seq. Qed.

Lemma lookup_range (i n : Z) :
  0 ≤ i < n → Py.range n !! Z.to_nat i = Some i.
Proof.
  intros Hi. unfold Py.range. rewrite list_lookup_fmap, lookup_seq_lt by lia.
  cbn. f_equal. lia.
Qed.

Lemma mapM_expected {A B} (f : A → option B) (g : A → B) (l : list A) :
  (∀ x, x ∈ l → f x = Some (g x)) → mapM f l = Some (g <$> l).
Proof.
  intros H. apply mapM_Some_2. induction l as [|x l IH]; [constructor|].
  cbn. constructor; [apply H; by left|]. apply IH. intros y Hy. apply H. by right.
Qed.

(** The texts of [strftime]: ASCII, of seven characters for a month from
    year 1000 on. *)
Lemma digit_ascii n : Py.isascii (String (Calendar.digit n) "") = true.
Proof.
  unfold Calendar.digit. pose proof (Z.mod_pos_bound n 10 eq_refl) as Hn.
  assert (Z.to_nat (n mod 10) ∈ seq 0 10) as Hin by (apply elem_of_seq; lia).
  generalize dependent (Z.to_nat (n mod 10)). intros k Hk. cbn [seq] in Hk.
  repeat (apply elem_of_cons in Hk as [->|Hk]; [reflexivity|]). by inv Hk.
Qed.

Lemma isascii_app a b :
  Py.isascii a = true → Py.isascii b = true → Py.isascii (a +:+ b) = true.
Proof.
  intros Ha Hb. induction a as [|c a IH]; [done|].
  change (String c a +:+ b) with (String c (a +:+ b)).
  destruct c as [b0 b1 b2 b3 b4 b5 b6 b7]. cbn [Py.isascii] in *.
  apply andb_true_iff in Ha as [-> Ha]. by rewrite IH.
Qed.

Lemma fmt2_ascii n : Py.isascii (Calendar.fmt2 n) = true.
Proof.
  unfold Calendar.fmt2.
  apply (isascii_app (String _ "") (String _ "")); apply digit_ascii.
Qed.

Lemma fmt_year_ascii n : Py.isascii (Calendar.fmt_year n) = true.
Proof.
  unfold Calendar.fmt_year.
  destruct (n <? 10); [apply digit_ascii|].
  destruct (n <? 100); [apply fmt2_ascii|].
  destruct (n <? 1000).
  - apply (isascii_app (String _ "")); [apply digit_ascii|apply fmt2_ascii].
  - apply (isascii_app (String _ "")); [apply digit_ascii|].
    apply (isascii_app (String _ "")); [apply digit_ascii|apply fmt2_ascii].
Qed.

Lemma strftime_Ym_ascii dt : Py.isascii (Calendar.strftime_Ym dt) = true.
Proof.
  unfold Calendar.strftime_Ym. apply isascii_app; [apply fmt_year_ascii|].
  apply (isascii_app "-"); [done|apply fmt2_ascii].
Qed.

Lemma fmt_year_four n :
  1000 ≤ n →
  Calendar.fmt_year n
  = String (Calendar.digit (n / 1000))
      (String (Calendar.digit (n / 100)) (Calendar.fmt2 n)).
Proof.
  intros Hn. unfold Calendar.fmt_year.
  by rewrite !(proj2 (Z.ltb_ge _ _)) by lia.
Qed.

Lemma strftime_Ym_length dt :
  1000 ≤ Calendar.year dt → String.length (Calendar.strftime_Ym dt) = 7%nat.
Proof. intros Hy. unfold Calendar.strftime_Ym. by rewrite fmt_year_four. Qed.

(** A prefix test against a month of seven ASCII characters is a test of
    the month part [date[:7]]. *)
Lemma startswith_month s p :
  Py.isascii p = true → String.length p = 7%nat →
  Py.startswith s p = (Py.slice_to 7 s =? p)%string.
Proof. intros Hp Hlen. rewrite <-Hlen. by apply startswith_slice. Qed.

Lemma forecast_entry_at_expected today data i :
  Calendar.valid today = true → 0 ≤ i →
  i = 0 ∨ month_index today + i < Calendar.MAXYEAR * 12 + 11 →
  forecast_entry_at today data i = Some (expected_entry today data i).
Proof.
  intros Hv Hi Hrange.
  assert (Calendar.MINYEAR * 12 ≤ month_index today
          ≤ Calendar.MAXYEAR * 12 + 11) as Htoday.
  { unfold Calendar.valid in Hv.
    repeat (apply andb_true_iff in Hv as [Hv ?]).
    repeat match goal with H : (_ <=? _) = true |- _ => apply Z.leb_le in H end.
    unfold month_index. lia. }
  destruct (add_months_valid today i Hv) as [Hadd Hvalid]; [lia|].
  unfold forecast_entry_at, expected_entry. rewrite Hadd. cbn [mbind option_bind].
  set (y := (month_index today + i) / 12) in *.
  set (m := (month_index today + i) mod 12 + 1) in *.
  assert (Calendar.strftime_Ym
            (Calendar.Datetime y m
               (Z.min (Calendar.days_in_month y m) (Calendar.day today)))
          = Calendar.strftime_Ym (Calendar.Datetime y m 1)) as -> by done.
  set (month_str := Calendar.strftime_Ym (Calendar.Datetime y m 1)).
  assert (∀ target_date,
    Some {| fc_month := month_str;
            fc_date := target_date;
            fc_balance := get_balance_at_date data target_date;
            fc_big_items :=
              List.filter
                (λ t, Py.startswith (tx_date t) month_str && (100000 <=? tx_amount t))
                (transactions data) |}
    = Some {| fc_month := month_str;
              fc_date := target_date;
              fc_balance := get_balance_at_date data target_date;
              fc_big_items :=
                List.filter
                  (λ t, (Py.slice_to (Py.len month_str) (tx_date t) =? month_str)%string
                        && (100000 <=? tx_amount t))
                  (transactions data) |}) as Hitems.
  { intros target_date. do 2 f_equal. apply filter_ext_bool. intros t.
    rewrite len_ascii by apply strftime_Ym_ascii.
    by rewrite startswith_slice by apply strftime_Ym_ascii. }
  destruct (i =? 0) eqn:Hi0; [apply Hitems|].
  apply Z.eqb_neq in Hi0.
  rewrite month_end_last_day; [apply Hitems|done|].
  subst y m. pose proof (Z.div_mod (month_index today + i) 12). lia.
Qed.

(** Past November 9999 there is no end of month to compute: the forecast
    stops with an error. *)
Lemma forecast_entry_at_december_9999 today data i :
  Calendar.valid today = true → i ≠ 0 →
  month_index today + i = Calendar.MAXYEAR * 12 + 11 →
  forecast_entry_at today data i = None.
Proof.
  intros Hv Hi Hlast.
  destruct (add_months_valid today i Hv) as [Hadd _].
  { rewrite Hlast. unfold Calendar.MINYEAR, Calendar.MAXYEAR. lia. }
  unfold forecast_entry_at. rewrite Hadd, Hlast. cbn [mbind option_bind].
  rewrite (proj2 (Z.eqb_neq i 0) Hi).
  change ((Calendar.MAXYEAR * 12 + 11) / 12) with 9999.
  change ((Calendar.MAXYEAR * 12 + 11) mod 12 + 1) with 12.
  done.
Qed.

Lemma forecast_balance_beyond today data months_ahead :
  Calendar.valid today = true →
  month_index today < Calendar.MAXYEAR * 12 + 11 →
  Calendar.MAXYEAR * 12 + 11 ≤ month_index today + months_ahead →
  forecast_balance today data months_ahead = None.
Proof.
  intros Hv Hlt Hbeyond. unfold forecast_balance. apply mapM_None_2.
  apply Exists_exists.
  exists (Calendar.MAXYEAR * 12 + 11 - month_index today). split.
  - apply elem_of_range. lia.
  - apply forecast_entry_at_december_9999; [done|lia..].
Qed.

(** C8, as the code has it.  For [months_ahead >= 0] with the last target
    month not later than November 9999 (the last month whose end
    [datetime] can compute; no bound when [months_ahead = 0]),
    [forecast_balance] returns [months_ahead + 1] entries, in the order
    [i = 0 .. months_ahead]: entry 0 is dated today with the balance at
    today; entry [i > 0] is dated the last day of the month [i] months from
    today with the balance at that date; the large items of an entry are
    exactly the transactions with amount at least 100000 whose date starts
    with the text of the entry's month, and these are the transactions of
    the entry's month (the first seven characters of the date) when today
    is in the year 1000 or later, where the month is written [YYYY-MM].
    So [forecast_balance data 0] is one entry with the balance at today. *)
Theorem forecast_balance_spec (today : Calendar.datetime) (data : ledger)
    (months_ahead : Z) :
  Calendar.valid today = true →
  0 ≤ months_ahead →
  months_ahead = 0 ∨ month_index today + months_ahead < Calendar.MAXYEAR * 12 + 11 →
  ∃ entries,
    forecast_balance today data months_ahead = Some entries
    ∧ length entries = Z.to_nat (months_ahead + 1)
    ∧ (∀ i, 0 ≤ i ≤ months_ahead →
         ∃ e, entries !! Z.to_nat i = Some e
           ∧ let y := (month_index today + i) / 12 in
             let m := (month_index today + i) mod 12 + 1 in
             fc_month e = Calendar.strftime_Ym (Calendar.Datetime y m 1)
             ∧ (i = 0 → fc_date e = Calendar.strftime_Ymd today)
             ∧ (0 < i → fc_date e = Calendar.strftime_Ymd (last_day_of_month y m)
                        ∧ Calendar.valid (last_day_of_month y m) = true)
             ∧ fc_balance e = get_balance_at_date data (fc_date e)
             ∧ fc_big_items e
               = List.filter
                   (λ t, (Py.slice_to (Py.len (fc_month e)) (tx_date t)
                          =? fc_month e)%string
                         && (100000 <=? tx_amount t))
                   (transactions data)
             ∧ (1000 ≤ Calendar.year today →
                fc_big_items e
                = List.filter
                    (λ t, (month_of t =? fc_month e)%string && (100000 <=? tx_amount t))
                    (transactions data)))
    ∧ (months_ahead = 0 →
       ∃ e, entries = [e]
         ∧ fc_balance e = get_balance_at_date data (Calendar.strftime_Ymd today)).
Proof.
  intros Hv Hn Hrange.
  assert (forecast_balance today data months_ahead
          = Some (expected_entry today data <$> Py.range (months_ahead + 1))) as Heq.
  { apply mapM_expected. intros i Hi. apply elem_of_range in Hi.
    apply forecast_entry_at_expected; [done|lia..]. }
  eexists. split; [exact Heq|].
  split; [by rewrite length_fmap, length_range|]. split.
  - intros i Hi. exists (expected_entry today data i). split.
    { rewrite list_lookup_fmap, lookup_range by lia. done. }
    cbn zeta. unfold expected_entry at 1 2 3.
    cbn [fc_month fc_date fc_balance fc_big_items].
    split; [done|]. split; [by intros ->|].
    destruct (add_months_valid today i Hv) as [_ Hvalid].
    { apply valid_inv in Hv.
      unfold month_index, Calendar.MINYEAR, Calendar.MAXYEAR in *. lia. }
    pose proof Hvalid as Hym. apply valid_inv in Hym as (Hy & Hm & _).
    cbn [Calendar.year Calendar.month] in Hy, Hm.
    split; [|split; [done|split; [done|]]].
    { intros Hi0. rewrite (proj2 (Z.eqb_neq i 0)) by lia. split; [done|].
      by apply last_day_of_month_valid. }
    intros Hyear. unfold expected_entry. cbn [fc_month fc_big_items].
    apply filter_ext_bool. intros t. unfold month_of.
    rewrite len_ascii by apply strftime_Ym_ascii.
    rewrite strftime_Ym_length; [done|]. cbn [Calendar.year].
    apply valid_inv in Hv as (_ & Hmonth & _).
    unfold month_index. Z.div_mod_to_equations. lia.
  - intros ->. exists (expected_entry today data 0). split; [done|].
    done.
Qed.

Lemma forecast_balance_spec_witness :
  Calendar.valid sample_today = true
  ∧ 0 ≤ 3
  ∧ (3 = 0 ∨ month_index sample_today + 3 < Calendar.MAXYEAR * 12 + 11)
  ∧ ∃ entries,
      forecast_balance sample_today scenario_ledger 3 = Some entries
      ∧ length entries = 4%nat.
Proof.
  split; [reflexivity|]. split; [lia|]. split; [right; by vm_compute|].
  destruct (forecast_balance_spec sample_today scenario_ledger 3)
    as (entries & Heq & Hlen & _).
  - reflexivity.
  - lia.
  - right. by vm_compute.
  - exists entries. by split.
Defined.

(** Where C8 fails as stated: 100000 months from November 2026 pass the
    last year of [datetime], and the forecast returns no list. *)
Lemma forecast_balance_out_of_range :
  Calendar.valid sample_today = true
  ∧ 0 ≤ 100000
  ∧ forecast_balance sample_today scenario_ledger 100000 = None
  ∧ ¬ ∃ entries,
        forecast_balance sample_today scenario_ledger 100000 = Some entries
        ∧ length entries = Z.to_nat (100000 + 1).
Proof.
  assert (forecast_balance sample_today scenario_ledger 100000 = None) as Hnone.
  { apply forecast_balance_beyond; [reflexivity|by vm_compute|by vm_compute]. }
  split; [reflexivity|]. split; [lia|]. split; [exact Hnone|].
  intros (entries & Heq & _). by rewrite Hnone in Heq.
Qed.

(** ** Compression *)

Lemma sum_amounts_app l1 l2 :
  Py.sum_amounts (l1 ++ l2) = Py.sum_amounts l1 + Py.sum_amounts l2.
Proof. unfold Py.sum_amounts. induction l1 as [|t l1 IH]; simpl; lia. Qed.

Lemma sum_amounts_nonneg l :
  Forall (λ t, 0 ≤ tx_amount t) l → 0 ≤ Py.sum_amounts l.
Proof. unfold Py.sum_amounts. induction 1; simpl; lia. Qed.

Lemma income_total_app l1 l2 :
  income_total (l1 ++ l2) = income_total l1 + income_total l2.
Proof. unfold income_total. by rewrite List.filter_app, sum_amounts_app. Qed.

Lemma expense_total_app l1 l2 :
  expense_total (l1 ++ l2) = expense_total l1 + expense_total l2.
Proof. unfold expense_total. by rewrite List.filter_app, sum_amounts_app. Qed.

(** Old and kept transactions split every total. *)
Lemma sum_amounts_split (p q : transaction → bool) l :
  Py.sum_amounts (List.filter p l)
  = Py.sum_amounts (List.filter p (List.filter q l))
    + Py.sum_amounts (List.filter p (List.filter (λ t, negb (q t)) l)).
Proof.
  unfold Py.sum_amounts. induction l as [|t l IH]; simpl; [done|].
  destruct (q t), (p t) eqn:Hp; simpl; rewrite ?Hp; simpl; lia.
Qed.

Lemma month_summary_of_absent old k :
  k ∉ month_of <$> old → month_summary_of old k = MonthSummary 0 0.
Proof.
  intros Hk. unfold month_summary_of.
  rewrite !list_filter_none; [done|..]; intros t Ht;
    apply andb_false_iff; left; apply String.eqb_neq; intros Heq;
    apply Hk, list_elem_of_fmap; by exists t.
Qed.

Lemma summarises_get summary old k :
  summarises summary old → summary_get summary k = month_summary_of old k.
Proof.
  intros Hs. unfold summary_get. rewrite (Hs k).
  destruct (decide _); [done|]. by rewrite month_summary_of_absent.
Qed.

Lemma summarises_empty : summarises ∅ [].
Proof. intros k. rewrite lookup_empty. destruct (decide _) as [H|]; [|done]. by inv H. Qed.

Lemma month_summary_of_snoc old t k :
  month_summary_of (old ++ [t]) k
  = if (month_of t =? k)%string
    then if is_income t
         then MonthSummary (ms_income (month_summary_of old k) + tx_amount t)
                           (ms_expense (month_summary_of old k))
         else MonthSummary (ms_income (month_summary_of old k))
                           (ms_expense (month_summary_of old k) + tx_amount t)
    else month_summary_of old k.
Proof.
  unfold month_summary_of. rewrite !List.filter_app, !sum_amounts_app.
  cbn [List.filter ms_income ms_expense].
  destruct (month_of t =? k)%string, (is_income t); cbn; f_equal; lia.
Qed.

Lemma summary_add_summarises summary old t :
  summarises summary old →
  summarises (summary_add summary (month_of t) t) (old ++ [t]).
Proof.
  intros Hs k. rewrite month_summary_of_snoc.
  assert (summary_add summary (month_of t) t
          = <[month_of t :=
                if is_income t
                then MonthSummary
                       (ms_income (month_summary_of old (month_of t)) + tx_amount t)
                       (ms_expense (month_summary_of old (month_of t)))
                else MonthSummary
                       (ms_income (month_summary_of old (month_of t)))
                       (ms_expense (month_summary_of old (month_of t)) + tx_amount t)]>
              summary) as ->.
  { unfold summary_add. rewrite (summarises_get _ old) by done.
    by destruct (is_income t). }
  destruct (decide (month_of t = k)) as [<-|Hne].
  - rewrite lookup_insert_eq, String.eqb_refl.
    rewrite decide_True; [done|]. rewrite fmap_app. apply elem_of_app. right. by left.
  - rewrite lookup_insert_ne, (proj2 (String.eqb_neq _ _) Hne), (Hs k) by done.
    apply decide_ext. rewrite fmap_app, elem_of_app.
    cbn. rewrite list_elem_of_singleton. split; [by left|].
    by intros [?|?].
Qed.

(** The first loop of [compress_logs]. *)
Lemma compress_fold cutoff l : ∀ p summary kept,
  summarises summary (List.filter (is_old cutoff) p) →
  kept = List.filter (λ t, negb (is_old cutoff t)) p →
  summarises (fold_left (compress_step cutoff) l (summary, kept)).1
             (List.filter (is_old cutoff) (p ++ l))
  ∧ (fold_left (compress_step cutoff) l (summary, kept)).2
    = List.filter (λ t, negb (is_old cutoff t)) (p ++ l).
Proof.
  induction l as [|t l IH]; intros p summary kept Hs Hk.
  - by rewrite app_nil_r.
  - cbn [fold_left]. replace (p ++ t :: l) with ((p ++ [t]) ++ l)
      by by rewrite <-app_assoc.
    unfold compress_step at 2 4. cbn [fst snd]. fold (is_old cutoff t).
    destruct (is_old cutoff t) eqn:Hold; apply IH.
    + rewrite List.filter_app. cbn [List.filter]. rewrite Hold.
      by apply summary_add_summarises.
    + rewrite List.filter_app. cbn [List.filter]. rewrite Hold. cbn.
      by rewrite app_nil_r.
    + rewrite List.filter_app. cbn [List.filter]. rewrite Hold.
      by rewrite app_nil_r.
    + rewrite List.filter_app. cbn [List.filter]. rewrite Hold. cbn. by rewrite Hk.
Qed.

(** The sorted keys of the summary: the months of the old transactions,
    once each, ascending. *)
Lemma sorted_keys_elem summary old k :
  summarises summary old → k ∈ sorted_keys summary ↔ k ∈ month_of <$> old.
Proof.
  intros Hs. unfold sorted_keys.
  rewrite (sorted_Permutation String.leb), list_elem_of_fmap. split.
  - intros ([k' s] & -> & Hin). apply elem_of_map_to_list in Hin.
    cbn in *. rewrite (Hs k') in Hin. by destruct (decide _).
  - intros Hin. exists (k, month_summary_of old k). split; [done|].
    apply elem_of_map_to_list. rewrite (Hs k). by rewrite decide_True.
Qed.

Lemma sorted_keys_NoDup (summary : gmap string month_summary) :
  NoDup (sorted_keys summary).
Proof.
  unfold sorted_keys. rewrite (sorted_Permutation String.leb).
  apply NoDup_fst_map_to_list.
Qed.

Lemma ascending_NoDup_strict l :
  StronglySorted (λ a b, (a <=? b)%string = true) l → NoDup l →
  StronglySorted (λ a b, (a <? b)%string = true) l.
Proof.
  induction 1 as [|a l _ IH Ha]; intros Hnd; [constructor|].
  apply NoDup_cons in Hnd as [Hnotin Hnd]. constructor; [by apply IH|].
  apply Forall_forall. intros b Hb.
  rewrite ltb_not_leb. apply negb_true_iff, not_true_iff_false. intros Hba.
  eapply Forall_forall in Ha; [|done].
  by rewrite (String.leb_antisym _ _ Ha Hba) in Hnotin.
Qed.

Lemma sorted_keys_sorted (summary : gmap string month_summary) :
  StronglySorted (λ a b, (a <? b)%string = true) (sorted_keys summary).
Proof.
  apply ascending_NoDup_strict; [|apply sorted_keys_NoDup].
  apply sorted_StronglySorted; [apply String.leb_total|apply leb_trans].
Qed.

(** Sums over months. *)
Lemma sum_over_zero ks : sum_over (λ _, 0) ks = 0.
Proof. unfold sum_over. induction ks; simpl; lia. Qed.

Lemma sum_over_add f g ks :
  sum_over (λ k, f k + g k) ks = sum_over f ks + sum_over g ks.
Proof. unfold sum_over. induction ks; simpl; lia. Qed.

Lemma sum_over_ext f g ks :
  (∀ k, k ∈ ks → f k = g k) → sum_over f ks = sum_over g ks.
Proof.
  unfold sum_over. induction ks as [|k ks IH]; intros H; simpl; [done|].
  rewrite H by by left. rewrite IH; [done|]. intros k' Hk'. apply H. by right.
Qed.

Lemma sum_over_single x a ks :
  NoDup ks → x ∈ ks →
  sum_over (λ k, if (x =? k)%string then a else 0) ks = a.
Proof.
  unfold sum_over. induction 1 as [|k ks Hk Hnd IH]; intros Hx; [by inv Hx|].
  simpl. destruct (x =? k)%string eqn:Hxk.
  - apply String.eqb_eq in Hxk as ->.
    fold (sum_over (λ k', if (k =? k')%string then a else 0) ks).
    rewrite (sum_over_ext _ (λ _, 0)), sum_over_zero; [lia|].
    intros k' Hk'. destruct (k =? k')%string eqn:Heq; [|done].
    by apply String.eqb_eq in Heq as ->.
  - apply elem_of_cons in Hx as [->|Hx]; [by rewrite String.eqb_refl in Hxk|].
    rewrite IH by done. lia.
Qed.

Lemma sum_by_month (p : transaction → bool) ks l :
  NoDup ks → (∀ t, t ∈ l → month_of t ∈ ks) →
  sum_over (λ k, Py.sum_amounts
                   (List.filter (λ t, (month_of t =? k)%string && p t) l)) ks
  = Py.sum_amounts (List.filter p l).
Proof.
  intros Hnd. induction l as [|t l IH]; intros Hks.
  - apply sum_over_zero.
  - rewrite (sum_over_ext _
      (λ k, (if (month_of t =? k)%string then (if p t then tx_amount t else 0) else 0)
            + Py.sum_amounts
                (List.filter (λ t, (month_of t =? k)%string && p t) l))).
    2:{ intros k _. cbn [List.filter]. unfold Py.sum_amounts.
        destruct (month_of t =? k)%string, (p t); cbn; lia. }
    rewrite sum_over_add, sum_over_single, IH.
    + cbn [List.filter]. unfold Py.sum_amounts. destruct (p t); cbn; lia.
    + intros u Hu. apply Hks. by right.
    + done.
    + apply Hks. by left.
Qed.

Lemma income_total_join (f : string → list transaction) ks :
  income_total (mjoin (f <$> ks)) = sum_over (λ k, income_total (f k)) ks.
Proof.
  induction ks as [|k ks IH]; [done|].
  change (mjoin (f <$> k :: ks)) with (f k ++ mjoin (f <$> ks)).
  by rewrite income_total_app, IH.
Qed.

Lemma expense_total_join (f : string → list transaction) ks :
  expense_total (mjoin (f <$> ks)) = sum_over (λ k, expense_total (f k)) ks.
Proof.
  induction ks as [|k ks IH]; [done|].
  change (mjoin (f <$> k :: ks)) with (f k ++ mjoin (f <$> ks)).
  by rewrite expense_total_app, IH.
Qed.

Lemma synthetic_of_totals s k :
  0 ≤ ms_income s → 0 ≤ ms_expense s →
  income_total (synthetic_of s k) = ms_income s
  ∧ expense_total (synthetic_of s k) = ms_expense s.
Proof.
  intros Hi He. unfold synthetic_of, income_total, expense_total.
  destruct (0 <? ms_income s) eqn:H1, (0 <? ms_expense s) eqn:H2; cbn;
    rewrite ?Z.ltb_ge in *; lia.
Qed.

(** The result of the compression, for any cutoff: the synthetic
    transactions of the old months, ascending, then the kept ones. *)
Lemma compress_with_eq cutoff now_iso data :
  ∃ months,
    compress_with cutoff now_iso data
    = {| initialBalance := initialBalance data;
         transactions :=
           mjoin ((λ k, synthetic_of
                          (month_summary_of
                             (List.filter (is_old cutoff) (transactions data)) k) k)
                  <$> months)
           ++ List.filter (λ t, negb (is_old cutoff t)) (transactions data);
         compressed := Some true;
         compressedAt := Some now_iso |}
    ∧ StronglySorted (λ a b, (a <? b)%string = true) months
    ∧ ∀ k, k ∈ months
           ↔ k ∈ month_of <$> List.filter (is_old cutoff) (transactions data).
Proof.
  unfold compress_with.
  destruct (compress_fold cutoff (transactions data) [] ∅ [] summarises_empty eq_refl)
    as [Hs Hkept].
  destruct (fold_left (compress_step cutoff) (transactions data) (∅, []))
    as [summary kept]. cbn [fst snd app] in *. subst kept.
  exists (sorted_keys summary). split; [|split].
  - do 3 f_equal. apply list_fmap_ext. intros _ k _.
    unfold synthetic. by rewrite (summarises_get _ _ _ Hs).
  - apply sorted_keys_sorted.
  - intros k. by apply sorted_keys_elem.
Qed.

Lemma compress_totals cutoff months txs :
  Forall (λ t, 0 ≤ tx_amount t) txs → Forall well_typed txs →
  StronglySorted (λ a b, (a <? b)%string = true) months →
  (∀ k, k ∈ months ↔ k ∈ month_of <$> List.filter (is_old cutoff) txs) →
  let synth :=
    mjoin ((λ k, synthetic_of (month_summary_of (List.filter (is_old cutoff) txs) k) k)
           <$> months) in
  income_total synth = income_total (List.filter (is_old cutoff) txs)
  ∧ expense_total synth = expense_total (List.filter (is_old cutoff) txs).
Proof.
  intros Hpos Hwt Hsorted Hmonths. cbn zeta.
  set (old := List.filter (is_old cutoff) txs).
  assert (Forall (λ t, 0 ≤ tx_amount t) old) as Hpos_old
    by by apply Forall_list_filter.
  assert (Forall well_typed old) as Hwt_old by by apply Forall_list_filter.
  assert (NoDup months) as Hnd by by apply strictly_ascending_NoDup.
  assert (∀ t, t ∈ old → month_of t ∈ months) as Hcover.
  { intros t Ht. apply Hmonths, list_elem_of_fmap. by exists t. }
  assert (∀ k, 0 ≤ ms_income (month_summary_of old k)
               ∧ 0 ≤ ms_expense (month_summary_of old k)) as Hnonneg.
  { intros k. split; apply sum_amounts_nonneg; by apply Forall_list_filter. }
  rewrite income_total_join, expense_total_join. split.
  - rewrite (sum_over_ext _ (λ k, ms_income (month_summary_of old k))).
    2:{ intros k _. apply synthetic_of_totals; apply Hnonneg. }
    by apply (sum_by_month is_income).
  - rewrite (sum_over_ext _ (λ k, ms_expense (month_summary_of old k))).
    2:{ intros k _. apply synthetic_of_totals; apply Hnonneg. }
    cbn [month_summary_of ms_expense].
    rewrite (sum_by_month (λ t, negb (is_income t))) by done.
    unfold expense_total. f_equal. apply List.filter_ext_in. intros t Ht.
    symmetry. apply well_typed_expense.
    eapply Forall_forall in Hwt_old; [done|]. by apply list_elem_of_In.
Qed.

(** C5, as the code has it.  When the cutoff month, [keep_months] months
    before today, is a month of the years 1000 to 9999 ([datetime] holds the
    years 1 to 9999, and [strftime] writes a year below 1000 without leading
    zeros, so that the cutoff is no longer a month in the form of the
    dates), and the amounts of the ledger are not negative, [compress_logs]
    keeps the total of the incomes and the total of the expenses of the
    whole list; the result is the synthetic transactions of the months
    before the cutoff, by month ascending, followed by the transactions at
    or after the cutoff month, unchanged and in their order. *)
Theorem compress_logs_spec (today : Calendar.datetime) (now_iso : string)
    (data : ledger) (keep_months : Z) :
  Calendar.valid today = true →
  1000 * 12 ≤ month_index today - keep_months ≤ Calendar.MAXYEAR * 12 + 11 →
  Forall (λ t, 0 ≤ tx_amount t) (transactions data) →
  Forall well_typed (transactions data) →
  let cutoff := cutoff_month today keep_months in
  let old := List.filter (is_old cutoff) (transactions data) in
  let kept := List.filter (λ t, negb (is_old cutoff t)) (transactions data) in
  ∃ result months,
    compress_logs today now_iso data keep_months = Some result
    ∧ String.length cutoff = 7%nat
    ∧ transactions result
      = mjoin ((λ k, synthetic_of (month_summary_of old k) k) <$> months) ++ kept
    ∧ StronglySorted (λ a b, (a <? b)%string = true) months
    ∧ (∀ k, k ∈ months ↔ k ∈ month_of <$> old)
    ∧ income_total (transactions result) = income_total (transactions data)
    ∧ expense_total (transactions result) = expense_total (transactions data)
    ∧ (∀ t, t ∈ transactions data → (month_of t <? cutoff)%string = false →
            t ∈ transactions result)
    ∧ initialBalance result = initialBalance data
    ∧ compressed result = Some true
    ∧ compressedAt result = Some now_iso.
Proof.
  intros Hv Hrange Hpos Hwt cutoff old kept.
  destruct (add_months_valid today (- keep_months) Hv) as [Hadd _].
  { rewrite Z.add_opp_r. unfold Calendar.MINYEAR. lia. }
  destruct (compress_with_eq cutoff now_iso data) as (months & Heq & Hsorted & Hmonths).
  exists (compress_with cutoff now_iso data), months.
  split.
  { unfold compress_logs. rewrite Hadd. cbn [fmap option_fmap option_map mbind option_bind].
    rewrite Z.add_opp_r. done. }
  split.
  { apply strftime_Ym_length. cbn [Calendar.year].
    pose proof (Z.div_mod (month_index today - keep_months) 12).
    pose proof (Z.mod_pos_bound (month_index today - keep_months) 12). lia. }
  rewrite Heq. cbn [transactions initialBalance compressed compressedAt].
  fold old kept.
  destruct (compress_totals cutoff months (transactions data) Hpos Hwt Hsorted Hmonths)
    as [Hinc Hexp]. cbn zeta in Hinc, Hexp. fold old in Hinc, Hexp.
  split; [done|]. split; [done|]. split; [done|].
  split; [|split; [|split]].
  - rewrite income_total_app, Hinc. unfold income_total, old, kept.
    by rewrite (sum_amounts_split is_income (is_old cutoff) (transactions data)).
  - rewrite expense_total_app, Hexp. unfold expense_total, old, kept.
    by rewrite (sum_amounts_split is_expense (is_old cutoff) (transactions data)).
  - intros t Ht Hnew. apply elem_of_app. right. apply list_filter_elem.
    split; [done|]. unfold is_old. by rewrite Hnew.
  - done.
Qed.

Lemma compress_logs_spec_witness :
  Calendar.valid sample_today = true
  ∧ 1000 * 12 ≤ month_index sample_today - 3 ≤ Calendar.MAXYEAR * 12 + 11
  ∧ Forall (λ t, 0 ≤ tx_amount t) (transactions scenario_ledger)
  ∧ Forall well_typed (transactions scenario_ledger)
  ∧ ∃ result,
      compress_logs sample_today "2026-11-04T09:00:00" scenario_ledger 3 = Some result
      ∧ income_total (transactions result) = 5000
      ∧ expense_total (transactions result) = 3000.
Proof.
  assert (1000 * 12 ≤ month_index sample_today - 3
          ≤ Calendar.MAXYEAR * 12 + 11) as Hrange by by vm_compute.
  assert (Forall (λ t, 0 ≤ tx_amount t) (transactions scenario_ledger)) as Hpos.
  { by repeat constructor. }
  split; [reflexivity|]. split; [exact Hrange|]. split; [exact Hpos|].
  split; [exact scenario_well_typed|].
  destruct (compress_logs_spec sample_today "2026-11-04T09:00:00" scenario_ledger 3
              eq_refl Hrange Hpos scenario_well_typed)
    as (result & months & Heq & _ & _ & _ & _ & Hinc & Hexp & _).
  exists result. split; [exact Heq|]. by split.
Defined.

(** Where C5 fails as stated.  30000 months before November 2026 there is
    no year for [datetime], and nothing is returned.  12323 months before,
    the cutoff month is December 999, which [strftime] writes [999-12]:
    the records of January 2026, a month after the cutoff month, come
    before it as texts, and instead of being kept they are folded into the
    synthetic records of their month. *)
Lemma compress_logs_outside_four_digit_years :
  Calendar.valid sample_today = true
  ∧ Forall (λ t, 0 ≤ tx_amount t) (transactions scenario_ledger)
  ∧ compress_logs sample_today "2026-11-04T09:00:00" scenario_ledger 30000 = None
  ∧ Calendar.add_months sample_today (- 12323) = Some (Calendar.Datetime 999 12 4)
  ∧ cutoff_month sample_today 12323 = "999-12"
  ∧ ∃ result,
      compress_logs sample_today "2026-11-04T09:00:00" scenario_ledger 12323
      = Some result
      ∧ tx_id <$> transactions result
        = ["compressed-2026-01-income"; "compressed-2026-01-expense"]
      ∧ ¬ (∀ t, t ∈ transactions scenario_ledger → t ∈ transactions result).
Proof.
  split; [reflexivity|]. split; [by repeat constructor|]. split; [reflexivity|].
  split; [reflexivity|]. split; [reflexivity|].
  eexists. split; [reflexivity|]. split; [reflexivity|].
  intros Hall.
  specialize (Hall (Transaction "tx-1" "2026-01-01" "income" 5000 "pay")
                   ltac:(by left)).
  vm_compute in Hall. apply list_elem_of_In in Hall.
  destruct Hall as [Heq|[Heq|[]]]; discriminate Heq.
Qed.

(** ** The scripts on the sample ledger *)

Example danger_points_of_scenario :
  find_danger_points scenario_ledger 3000
  = [ {| dp_date := "2026-01-10"; dp_balance := 3000; dp_shortfall := 0 |} ].
Proof. reflexivity. Qed.

(** Two transactions on one day give one sample, after the second. *)
Example danger_points_same_day :
  find_danger_points
    (Ledger (Some 100)
       [ Transaction "a" "2026-03-02" "expense" 500 "";
         Transaction "b" "2026-03-01" "income" 50 "";
         Transaction "c" "2026-03-02" "income" 700 "" ] None None) 200
  = [ {| dp_date := "2026-03-01"; dp_balance := 150; dp_shortfall := 50 |} ].
Proof. reflexivity. Qed.

Example search_is_case_insensitive :
  search_transactions ascii_lower scenario_ledger (Some "PAY") None None None None None
  = [ Transaction "tx-1" "2026-01-01" "income" 5000 "pay" ].
Proof. reflexivity. Qed.

Example search_lists_newest_first :
  tx_id <$> search_transactions ascii_lower scenario_ledger None None None None None None
  = [ "tx-2"; "tx-1" ].
Proof. reflexivity. Qed.

Example edit_honours_amount_zero :
  (edit_transaction scenario_ledger "tx-2" (Some "") None (Some 0) None).1
  = Some (Transaction "tx-2" "2026-01-10" "expense" 0 "rent").
Proof. reflexivity. Qed.

Example forecast_dates :
  option_map (map fc_date)
             (forecast_balance (Calendar.Datetime 2027 11 30) scenario_ledger 3)
  = Some [ "2027-11-30"; "2027-12-31"; "2028-01-31"; "2028-02-29" ].
Proof. reflexivity. Qed.

(** In the year 999 the month of an entry is the text [999-12], with which
    a date [0999-12-05] does not start. *)
Example forecast_in_year_999 :
  forecast_balance (Calendar.Datetime 999 12 4)
    (Ledger None [Transaction "a" "0999-12-05" "income" 200000 "prize"] None None) 0
  = Some [ {| fc_month := "999-12"; fc_date := "999-12-04"; fc_balance := 200000;
              fc_big_items := [] |} ].
Proof. reflexivity. Qed.

Example compress_scenario :
  option_map (λ result, map tx_id (transactions result))
             (compress_logs sample_today "2026-11-04T09:00:00" scenario_ledger 3)
  = Some [ "compressed-2026-01-income"; "compressed-2026-01-expense" ].
Proof. reflexivity. Qed.

(** ** Outside the schema

    What the scripts do with records the data model excludes: a type that
    is neither income nor expense is subtracted like an expense, and a
    record with an empty date never closes a day. *)

Example other_type_is_subtracted :
  get_balance_at_date
    (Ledger (Some 0) [ Transaction "x" "2026-01-01" "transfer" 10 "" ] None None)
    "2026-12-31"
  = -10.
Proof. reflexivity. Qed.

Example empty_date_is_not_recorded :
  find_danger_points
    (Ledger (Some 0) [ Transaction "x" "" "expense" 10 "" ] None None) 0
  = [].
Proof. reflexivity. Qed.

(** * Further properties of the scripts *)

(** ** Balances and danger points do not depend on the order of the file *)

Lemma sorted_dates_Permutation l1 l2 :
  l1 ≡ₚ l2 → tx_date <$> sorted_by_date l1 = tx_date <$> sorted_by_date l2.
Proof.
  intros Hperm.
  apply (StronglySorted_unique String.le).
  - eapply StronglySorted_fmap; [|apply sorted_by_date_sorted].
    intros x y Hxy. by apply leb_le.
  - eapply StronglySorted_fmap; [|apply sorted_by_date_sorted].
    intros x y Hxy. by apply leb_le.
  - by rewrite !sorted_by_date_Permutation, Hperm.
Qed.

Lemma get_balance_at_date_Permutation data1 data2 d :
  initialBalance data1 = initialBalance data2 →
  transactions data1 ≡ₚ transactions data2 →
  get_balance_at_date data1 d = get_balance_at_date data2 d.
Proof.
  intros Hinit Hperm. rewrite !get_balance_at_date_signed, Hinit. f_equal.
  by apply sum_signed_Permutation, list_filter_Permutation.
Qed.

Lemma map_filter_ext_elem {A B} (f g : A → B) (p q : A → bool) l :
  (∀ x, x ∈ l → p x = q x) → (∀ x, x ∈ l → f x = g x) →
  f <$> List.filter p l = g <$> List.filter q l.
Proof.
  induction l as [|a l IH]; intros Hp Hf; [done|].
  cbn [List.filter]. rewrite <-(Hp a) by by left.
  destruct (p a); [cbn; rewrite (Hf a) by (by left); f_equal|];
    apply IH; intros x Hx; [apply Hp|apply Hf|apply Hp|apply Hf]; by right.
Qed.

(** Two ledgers with the same opening balance and the same records, in any
    order, have the same balance at every date and the same danger
    points. *)
Theorem order_of_records_is_immaterial (data1 data2 : ledger) :
  initialBalance data1 = initialBalance data2 →
  transactions data1 ≡ₚ transactions data2 →
  (∀ d, get_balance_at_date data1 d = get_balance_at_date data2 d)
  ∧ (Forall dated (transactions data1) →
     ∀ threshold, find_danger_points data1 threshold
                  = find_danger_points data2 threshold).
Proof.
  intros Hinit Hperm. split.
  - intros d. by apply get_balance_at_date_Permutation.
  - intros Hdated threshold.
    rewrite !find_danger_points_eq by by rewrite <-?Hperm.
    assert (distinct_dates data1 = distinct_dates data2) as Hdates.
    { unfold distinct_dates. by rewrite (sorted_dates_Permutation _ _ Hperm). }
    rewrite <-Hdates.
    assert (∀ d, d ∈ distinct_dates data1 →
                 end_of_day_balance data1 d = end_of_day_balance data2 d) as Heod.
    { intros d Hd. apply distinct_dates_elem in Hd.
      rewrite !end_of_day_balance_at; [|by rewrite <-Hperm|done].
      by apply get_balance_at_date_Permutation. }
    apply map_filter_ext_elem.
    + intros d Hd. by rewrite Heod.
    + intros d Hd. unfold point_of. by rewrite Heod.
Qed.

Lemma order_of_records_is_immaterial_witness :
  initialBalance scenario_ledger
  = initialBalance (set_transactions scenario_ledger
                      (reverse (transactions scenario_ledger)))
  ∧ transactions scenario_ledger
    ≡ₚ transactions (set_transactions scenario_ledger
                       (reverse (transactions scenario_ledger)))
  ∧ get_balance_at_date scenario_ledger "2026-01-05"
    = get_balance_at_date
        (set_transactions scenario_ledger (reverse (transactions scenario_ledger)))
        "2026-01-05".
Proof.
  assert (transactions scenario_ledger
          ≡ₚ transactions (set_transactions scenario_ledger
                             (reverse (transactions scenario_ledger)))) as Hperm.
  { cbn [transactions set_transactions]. by rewrite reverse_Permutation. }
  split; [reflexivity|]. split; [exact Hperm|].
  exact (proj1 (order_of_records_is_immaterial scenario_ledger
                  (set_transactions scenario_ledger
                     (reverse (transactions scenario_ledger)))
                  eq_refl Hperm) "2026-01-05").
Defined.

(** ** Danger points and the balance at a date *)

(** The danger points are the transaction dates at which
    [get_balance_at_date] is at or below the threshold, each reported with
    that balance. *)
Theorem danger_points_are_low_balance_dates (data : ledger) (threshold : Z) :
  Forall dated (transactions data) →
  (∀ p, p ∈ find_danger_points data threshold →
        dp_date p ∈ tx_date <$> transactions data
        ∧ dp_balance p = get_balance_at_date data (dp_date p)
        ∧ dp_balance p ≤ threshold)
  ∧ (∀ d, d ∈ tx_date <$> transactions data →
          get_balance_at_date data d ≤ threshold →
          {| dp_date := d;
             dp_balance := get_balance_at_date data d;
             dp_shortfall := threshold - get_balance_at_date data d |}
          ∈ find_danger_points data threshold).
Proof.
  intros Hdated. rewrite find_danger_points_eq by done. split.
  - intros p Hp. apply list_elem_of_fmap in Hp as (d & -> & Hd).
    apply list_filter_elem in Hd as [Hd Hle]. apply distinct_dates_elem in Hd.
    cbn [point_of dp_date dp_balance].
    rewrite end_of_day_balance_at in * by done.
    split; [done|]. split; [done|]. by apply Z.leb_le.
  - intros d Hd Hle. apply list_elem_of_fmap. exists d. split.
    + unfold point_of. by rewrite end_of_day_balance_at.
    + apply list_filter_elem. split; [by apply distinct_dates_elem|].
      rewrite end_of_day_balance_at by done. by apply Z.leb_le.
Qed.

Lemma danger_points_are_low_balance_dates_witness :
  Forall dated (transactions scenario_ledger)
  ∧ {| dp_date := "2026-01-10"; dp_balance := 3000; dp_shortfall := 500 |}
    ∈ find_danger_points scenario_ledger 3500.
Proof.
  assert (Forall dated (transactions scenario_ledger)) as Hd by by repeat constructor.
  split; [exact Hd|].
  apply (proj2 (danger_points_are_low_balance_dates scenario_ledger 3500 Hd)
           "2026-01-10").
  - right. by left.
  - by vm_compute.
Defined.

Lemma list_filter_sublist {A} (p q : A → bool) l :
  (∀ x, p x = true → q x = true) → List.filter p l `sublist_of` List.filter q l.
Proof.
  intros Hpq. induction l as [|a l IH]; [done|].
  cbn [List.filter]. destruct (p a) eqn:Hp.
  - rewrite (Hpq a Hp). by constructor.
  - destruct (q a); [by constructor|done].
Qed.

(** Raising the threshold only adds danger points: the dates flagged at a
    threshold are flagged, in the same order, at every higher one. *)
Theorem danger_points_grow_with_threshold (data : ledger) (t1 t2 : Z) :
  Forall dated (transactions data) → t1 ≤ t2 →
  (dp_date <$> find_danger_points data t1)
    `sublist_of` (dp_date <$> find_danger_points data t2).
Proof.
  intros Hdated Hle. rewrite !find_danger_points_eq by done.
  assert (∀ th (l : list string), dp_date <$> (point_of data th <$> l) = l) as Hd.
  { intros th l. rewrite <-list_fmap_compose. apply list_fmap_id. }
  rewrite !Hd. apply list_filter_sublist. intros d Hd1.
  apply Z.leb_le in Hd1. apply Z.leb_le. lia.
Qed.

Lemma danger_points_grow_with_threshold_witness :
  Forall dated (transactions scenario_ledger) ∧ 3000 ≤ 6000
  ∧ (dp_date <$> find_danger_points scenario_ledger 3000)
      `sublist_of` (dp_date <$> find_danger_points scenario_ledger 6000).
Proof.
  assert (Forall dated (transactions scenario_ledger)) as Hd by by repeat constructor.
  split; [exact Hd|]. split; [lia|].
  apply (danger_points_grow_with_threshold scenario_ledger 3000 6000 Hd). lia.
Defined.

(** ** The editor keeps the ledger sorted *)

Lemma list_filter_split_sorted d l :
  StronglySorted (λ a b, date_le a b = true) l →
  l = List.filter (λ t, (tx_date t <=? d)%string) l
      ++ List.filter (λ t, (d <? tx_date t)%string) l.
Proof.
  induction 1 as [|t l Hl IH Ht]; [done|].
  cbn [List.filter]. rewrite (ltb_not_leb d (tx_date t)).
  destruct (tx_date t <=? d)%string eqn:Hle; cbn [negb app].
  - by rewrite <-IH.
  - rewrite (list_filter_none (λ t, (tx_date t <=? d)%string) l); cycle 1.
    { intros u Hu. apply not_true_iff_false. intros Hud.
      eapply Forall_forall in Ht; [|done].
      by rewrite (leb_trans _ _ _ Ht Hud) in Hle. }
    cbn [app]. f_equal. symmetry. apply list_filter_all. intros u Hu.
    eapply Forall_forall in Ht; [|done]. unfold date_le in Ht.
    rewrite ltb_not_leb. apply negb_true_iff, not_true_iff_false. intros Hud.
    by rewrite (leb_trans _ _ _ Ht Hud) in Hle.
Qed.

(** [add_transaction] always leaves the list sorted by date, holding the
    records it had and the new one, which carries the arguments; the rest
    of the ledger is as it was. *)
Theorem add_transaction_result (new_id : string) (data : ledger)
    (date type_ : string) (amount : Z) (description : string) :
  let added := add_transaction new_id data date type_ amount description in
  added.1 = Transaction new_id date type_ amount description
  ∧ StronglySorted (λ a b, (tx_date a <=? tx_date b)%string = true)
                   (transactions added.2)
  ∧ transactions added.2 ≡ₚ added.1 :: transactions data
  ∧ length (transactions added.2) = S (length (transactions data))
  ∧ initialBalance added.2 = initialBalance data
  ∧ compressed added.2 = compressed data
  ∧ compressedAt added.2 = compressedAt data.
Proof.
  cbn zeta. unfold add_transaction. cbn [fst snd transactions set_transactions
    initialBalance compressed compressedAt].
  split; [done|]. split; [apply sorted_by_date_sorted|].
  assert (sorted_by_date
            (transactions data ++ [Transaction new_id date type_ amount description])
          ≡ₚ Transaction new_id date type_ amount description :: transactions data)
    as Hperm.
  { by rewrite sorted_by_date_Permutation, Permutation_app_comm. }
  split; [done|]. split; [by rewrite Hperm|done].
Qed.

(** Into a ledger that is sorted by date, [add_transaction] puts the new
    record after every record dated at or before it and before every later
    one; the records that were there keep their order. *)
Theorem add_transaction_into_sorted (new_id : string) (data : ledger)
    (date type_ : string) (amount : Z) (description : string) :
  StronglySorted (λ a b, (tx_date a <=? tx_date b)%string = true)
                 (transactions data) →
  let added := add_transaction new_id data date type_ amount description in
  transactions added.2
  = List.filter (λ t, (tx_date t <=? date)%string) (transactions data)
    ++ added.1 :: List.filter (λ t, (date <? tx_date t)%string) (transactions data).
Proof.
  intros Hsorted. cbn zeta. unfold add_transaction.
  cbn [fst snd transactions set_transactions].
  set (new_tx := Transaction new_id date type_ amount description).
  set (before := List.filter (λ t, (tx_date t <=? date)%string) (transactions data)).
  set (after := List.filter (λ t, (date <? tx_date t)%string) (transactions data)).
  assert (transactions data = before ++ after) as Hsplit
    by by apply list_filter_split_sorted.
  symmetry. apply (stable_sort_is_sorted date_le date_le_total date_le_trans).
  - rewrite Hsplit in Hsorted.
    apply StronglySorted_app in Hsorted as (Hcross & Hb & Ha).
    apply StronglySorted_app. split; [|split; [done|]].
    + intros x1 x2 Hx1 Hx2. apply elem_of_cons in Hx2 as [->|Hx2].
      * by apply list_filter_elem in Hx1 as [_ Hx1].
      * by apply Hcross.
    + constructor; [done|]. apply Forall_forall. intros u Hu.
      apply list_filter_elem in Hu as [_ Hu]. by apply ltb_leb.
  - intros z. rewrite Hsplit, !List.filter_app. cbn [List.filter app].
    destruct (Py.same_rank date_le z new_tx) eqn:Hz; [|by rewrite app_nil_r].
    rewrite (list_filter_none (Py.same_rank date_le z) after);
      [by rewrite app_nil_r|].
    intros u Hu. apply list_filter_elem in Hu as [_ Hu].
    apply not_true_iff_false. intros Hzu.
    apply same_rank_date in Hz, Hzu. rewrite <-Hzu, Hz in Hu.
    by rewrite ltb_irrefl in Hu.
Qed.

Lemma add_transaction_into_sorted_witness :
  StronglySorted (λ a b, (tx_date a <=? tx_date b)%string = true)
                 (transactions scenario_ledger)
  ∧ tx_id <$> transactions
       (add_transaction "tx-3" scenario_ledger "2026-01-01" "expense" 700 "book").2
    = ["tx-1"; "tx-3"; "tx-2"].
Proof.
  assert (StronglySorted (λ a b, (tx_date a <=? tx_date b)%string = true)
                         (transactions scenario_ledger)) as Hs.
  { by repeat constructor. }
  split; [exact Hs|].
  by rewrite (add_transaction_into_sorted "tx-3" scenario_ledger
                "2026-01-01" "expense" 700 "book" Hs).
Defined.

(** When some record has the id, [delete_transaction] takes out the first
    such record and returns it; the other records stay, in their order (the
    list is not sorted again), so a sorted list stays sorted; the rest of
    the ledger is as it was. *)
Theorem delete_transaction_found (data : ledger) (id : string) :
  Exists (λ u, tx_id u = id) (transactions data) →
  ∃ pre tx post result,
    transactions data = pre ++ tx :: post
    ∧ Forall (λ u, tx_id u ≠ id) pre ∧ tx_id tx = id
    ∧ delete_transaction data id = (Some tx, result)
    ∧ transactions result = pre ++ post
    ∧ initialBalance result = initialBalance data
    ∧ compressed result = compressed data
    ∧ compressedAt result = compressedAt data
    ∧ S (length (transactions result)) = length (transactions data)
    ∧ (StronglySorted (λ a b, (tx_date a <=? tx_date b)%string = true)
                      (transactions data) →
       StronglySorted (λ a b, (tx_date a <=? tx_date b)%string = true)
                      (transactions result)).
Proof.
  intros Hex. destruct (first_with_id id _ Hex) as (pre & tx & post & Heq & Hpre & Htx).
  exists pre, tx, post, (delete_transaction data id).2.
  assert (delete_transaction data id = (Some tx, set_transactions data (pre ++ post)))
    as Hrun.
  { unfold delete_transaction. by rewrite Heq, delete_loop_found. }
  rewrite Hrun. cbn [snd set_transactions transactions initialBalance
                     compressed compressedAt].
  split; [done|]. split; [done|]. split; [done|]. split; [done|].
  split; [done|]. split; [done|]. split; [done|]. split; [done|].
  split.
  - rewrite Heq, !length_app. cbn. lia.
  - rewrite Heq. intros Hs.
    apply StronglySorted_app in Hs as (Hcross & H1 & H2).
    apply StronglySorted_app. split; [|split; [done|]].
    + intros x1 x2 Hx1 Hx2. apply Hcross; [done|]. by right.
    + by apply StronglySorted_cons in H2 as [_ H2].
Qed.

Lemma delete_transaction_found_witness :
  Exists (λ u, tx_id u = "tx-1") (transactions scenario_ledger)
  ∧ ∃ tx result, delete_transaction scenario_ledger "tx-1" = (Some tx, result)
                 ∧ length (transactions result) = 1%nat
                 ∧ initialBalance result = Some 1000.
Proof.
  assert (Exists (λ u, tx_id u = "tx-1") (transactions scenario_ledger)) as Hex.
  { by left. }
  split; [exact Hex|].
  destruct (delete_transaction_found scenario_ledger "tx-1" Hex)
    as (pre & tx & post & result & _ & _ & _ & Hdel & _ & Hinit & _ & _ & Hlen & _).
  exists tx, result. split; [exact Hdel|]. split; [|exact Hinit].
  cbn in Hlen. by injection Hlen.
Defined.

(** [edit_transaction] never adds or removes a record and never changes an
    id, whatever its arguments; when it finds the id, the list it leaves
    is sorted by date. *)
Theorem edit_transaction_keeps_records (data : ledger) (id : string)
    (date type_ : option string) (amount : option Z) (description : option string) :
  let edited := edit_transaction data id date type_ amount description in
  length (transactions edited.2) = length (transactions data)
  ∧ tx_id <$> transactions edited.2 ≡ₚ tx_id <$> transactions data
  ∧ (∀ tx, edited.1 = Some tx →
           tx_id tx = id ∧ tx ∈ transactions edited.2
           ∧ StronglySorted (λ a b, (tx_date a <=? tx_date b)%string = true)
                            (transactions edited.2))
  ∧ (edited.1 = None → edited.2 = data).
Proof.
  cbn zeta.
  destruct (decide (Exists (λ u, tx_id u = id) (transactions data))) as [Hex|Hno].
  - destruct (first_with_id id _ Hex) as (pre & tx & post & Heq & Hpre & Htx).
    unfold edit_transaction. rewrite Heq, edit_loop_found by done.
    cbn [fst snd transactions set_transactions].
    set (tx' := apply_edit date type_ amount description tx).
    assert (sorted_by_date (pre ++ tx' :: post) ≡ₚ pre ++ tx' :: post) as Hperm
      by apply sorted_by_date_Permutation.
    split; [|split; [|split]].
    + rewrite Hperm, !length_app. done.
    + rewrite Hperm, !fmap_app. done.
    + intros ? [= <-]. split; [done|]. split; [|apply sorted_by_date_sorted].
      rewrite Hperm. apply elem_of_app. right. by left.
    + done.
  - apply not_Exists_Forall in Hno; [|intros u; apply _].
    unfold edit_transaction. rewrite edit_loop_not_found; [done|].
    eapply Forall_impl; [exact Hno|]. done.
Qed.

(** ** Search with bounds that exclude each other *)

(** A start date after the end date, or a minimum above the maximum, finds
    nothing. *)
Theorem search_with_crossed_bounds (lower : string → string) (data : ledger)
    (keyword type_ start_date end_date : option string)
    (min_amount max_amount : option Z) :
  (∃ s e, supplied start_date = Some s ∧ supplied end_date = Some e
          ∧ (e <? s)%string = true)
  ∨ (∃ a b, min_amount = Some a ∧ max_amount = Some b ∧ b < a) →
  search_transactions lower data keyword type_ start_date end_date
                      min_amount max_amount = [].
Proof.
  intros Hcrossed. rewrite search_transactions_eq.
  rewrite list_filter_none; [done|]. intros t _.
  apply not_true_iff_false. intros Hm. apply matches_iff in Hm
    as (_ & Hstart & Hend & Hmin & Hmax & _).
  destruct Hcrossed as [(s & e & Hs & He & Hlt)|(a & b & Ha & Hb & Hlt)].
  - specialize (Hstart s Hs). specialize (Hend e He).
    rewrite ltb_not_leb in Hlt. by rewrite (leb_trans _ _ _ Hstart Hend) in Hlt.
  - specialize (Hmin a Ha). specialize (Hmax b Hb). lia.
Qed.

Lemma search_with_crossed_bounds_witness :
  (∃ a b, Some 5000 = Some a ∧ Some 3000 = Some b ∧ b < a)
  ∧ search_transactions ascii_lower scenario_ledger None None None None
                        (Some 5000) (Some 3000) = [].
Proof.
  assert (∃ a b, Some 5000 = Some a ∧ Some 3000 = Some b ∧ b < a) as H.
  { exists 5000, 3000. repeat split; lia. }
  split; [exact H|].
  exact (search_with_crossed_bounds ascii_lower scenario_ledger None None None None
           (Some 5000) (Some 3000) (or_intror H)).
Defined.

(** ** The summary and the balance *)

(** The balance [print_summary] prints leaves the opening balance out:
    at a date no transaction is later than, [get_balance_at_date] is the
    opening balance plus the summary's balance. *)
Theorem summary_balance_is_final_balance (data : ledger) (d : string) :
  Forall well_typed (transactions data) →
  Forall (λ t, (tx_date t <=? d)%string = true) (transactions data) →
  get_balance_at_date data d
  = default 0 (initialBalance data) + sm_balance (print_summary data)
  ∧ sm_balance (print_summary data)
    = sm_income_total (print_summary data) - sm_expense_total (print_summary data)
  ∧ sm_count (print_summary data) = length (transactions data).
Proof.
  intros Hwt Hall. split; [|done].
  rewrite get_balance_at_date_signed.
  rewrite list_filter_all by (intros t Ht; by eapply Forall_forall in Hall).
  by rewrite sum_signed_totals.
Qed.

Lemma summary_balance_is_final_balance_witness :
  Forall well_typed (transactions scenario_ledger)
  ∧ Forall (λ t, (tx_date t <=? "2026-12-31")%string = true)
           (transactions scenario_ledger)
  ∧ get_balance_at_date scenario_ledger "2026-12-31" = 1000 + 2000.
Proof.
  assert (Forall (λ t, (tx_date t <=? "2026-12-31")%string = true)
                 (transactions scenario_ledger)) as Hall by by repeat constructor.
  split; [exact scenario_well_typed|]. split; [exact Hall|].
  exact (proj1 (summary_balance_is_final_balance scenario_ledger "2026-12-31"
                  scenario_well_typed Hall)).
Defined.

(** ** The verdict on an expense *)

(** The verdict [print_affordability] prints for the report of
    [check_affordability] has three cases, by the balance after the
    expense: short below 0, tight from 0 to 99999, fine from 100000. *)
Theorem affordability_verdict (data : ledger) (amount : Z) (d : string) :
  let result := check_affordability data amount d in
  let after := get_balance_at_date data d - amount in
  (after < 0 → affordability_status result = "❌ 不足")
  ∧ (0 ≤ after < 100000 → affordability_status result = "⚠️ ギリギリ")
  ∧ (100000 ≤ after → affordability_status result = "✅ 可能").
Proof.
  cbn zeta. unfold affordability_status, check_affordability.
  cbn [af_can_afford af_warning].
  set (after := get_balance_at_date data d - amount).
  split; [|split]; intros Hafter.
  - rewrite (proj2 (Z.leb_gt 0 after)) by lia. by rewrite andb_false_r.
  - by rewrite (proj2 (Z.leb_le 0 after)), (proj2 (Z.ltb_lt after 100000)) by lia.
  - by rewrite (proj2 (Z.leb_le 0 after)), (proj2 (Z.ltb_ge after 100000)) by lia.
Qed.

(** ** Upcoming expenses *)

Lemma take_sorted_prefix {A} (R : relation A) n (l : list A) :
  StronglySorted R l →
  ∀ x y, x ∈ take n l → y ∈ drop n l → R x y.
Proof.
  intros Hs x y Hx Hy. rewrite <-(take_drop n l) in Hs.
  by eapply StronglySorted_app_1_elem_of.
Qed.

(** The upcoming expenses of the report are at most five expenses dated
    after the target date, the first ones in the order of the file; on a
    ledger sorted by date they are the earliest ones: every expense after
    the target date that is left out is dated no earlier than each one
    listed. *)
Theorem upcoming_expenses_are_the_next_ones (data : ledger) (amount : Z) (d : string) :
  StronglySorted (λ a b, (tx_date a <=? tx_date b)%string = true)
                 (transactions data) →
  let listed := af_upcoming_expenses (check_affordability data amount d) in
  let upcoming :=
    List.filter (λ t, (d <? tx_date t)%string && is_expense t) (transactions data) in
  (length listed ≤ 5)%nat
  ∧ listed = take 5 upcoming
  ∧ (∀ t, t ∈ listed →
          t ∈ transactions data ∧ (d <? tx_date t)%string = true
          ∧ tx_type t = "expense")
  ∧ StronglySorted (λ a b, (tx_date a <=? tx_date b)%string = true) listed
  ∧ (∀ t u, t ∈ listed → u ∈ drop 5 upcoming →
            (tx_date t <=? tx_date u)%string = true).
Proof.
  intros Hsorted. cbn zeta. unfold check_affordability.
  cbn [af_upcoming_expenses].
  set (upcoming := List.filter _ (transactions data)).
  assert (StronglySorted (λ a b, date_le a b = true) upcoming) as Hup
    by by apply list_filter_StronglySorted.
  split; [rewrite length_take; lia|]. split; [done|]. split; [|split].
  - intros t Ht. apply elem_of_take in Ht as (i & Ht & _).
    apply list_elem_of_lookup_2, list_filter_elem in Ht as [Hin Hcond].
    apply andb_true_iff in Hcond as [Hlt Hexp].
    split; [done|]. split; [done|]. by apply String.eqb_eq.
  - rewrite <-(take_drop 5 upcoming) in Hup. by apply StronglySorted_app_1_l in Hup.
  - intros t u Ht Hu. by apply (take_sorted_prefix _ 5 upcoming Hup).
Qed.

Lemma upcoming_expenses_are_the_next_ones_witness :
  StronglySorted (λ a b, (tx_date a <=? tx_date b)%string = true)
                 (transactions scenario_ledger)
  ∧ af_upcoming_expenses (check_affordability scenario_ledger 3500 "2026-01-05")
    = take 5 [Transaction "tx-2" "2026-01-10" "expense" 3000 "rent"].
Proof.
  assert (StronglySorted (λ a b, (tx_date a <=? tx_date b)%string = true)
                         (transactions scenario_ledger)) as Hs.
  { by repeat constructor. }
  split; [exact Hs|].
  exact (proj1 (proj2 (upcoming_expenses_are_the_next_ones scenario_ledger 3500
                         "2026-01-05" Hs))).
Defined.

(** ** Compression never makes the ledger longer *)

Lemma sum_over_le f g ks :
  (∀ k, k ∈ ks → f k ≤ g k) → sum_over f ks ≤ sum_over g ks.
Proof.
  unfold sum_over. induction ks as [|k ks IH]; intros H; simpl; [done|].
  assert (f k ≤ g k) by (apply H; by left).
  assert (∀ k', k' ∈ ks → f k' ≤ g k') as H' by (intros k' Hk'; apply H; by right).
  specialize (IH H'). lia.
Qed.

Lemma count_by_month ks l :
  NoDup ks → (∀ t, t ∈ l → month_of t ∈ ks) →
  sum_over (λ k, Z.of_nat (length (List.filter (λ t, (month_of t =? k)%string) l))) ks
  = Z.of_nat (length l).
Proof.
  intros Hnd. induction l as [|t l IH]; intros Hks.
  - apply sum_over_zero.
  - rewrite (sum_over_ext _
      (λ k, (if (month_of t =? k)%string then 1 else 0)
            + Z.of_nat (length (List.filter (λ t, (month_of t =? k)%string) l)))).
    2:{ intros k _. cbn [List.filter].
        destruct (month_of t =? k)%string; cbn [length]; lia. }
    rewrite sum_over_add, sum_over_single, IH.
    + cbn [length]. lia.
    + intros u Hu. apply Hks. by right.
    + done.
    + apply Hks. by left.
Qed.

Lemma length_join_months (f : string → list transaction) ks :
  Z.of_nat (length (mjoin (f <$> ks))) = sum_over (λ k, Z.of_nat (length (f k))) ks.
Proof.
  induction ks as [|k ks IH]; [done|].
  change (mjoin (f <$> k :: ks)) with (f k ++ mjoin (f <$> ks)).
  rewrite length_app, Nat2Z.inj_add, IH. done.
Qed.

Lemma sum_amounts_positive l : 0 < Py.sum_amounts l → (1 ≤ length l)%nat.
Proof. destruct l; cbn; [lia|lia]. Qed.

Lemma length_filter_split {A} (p q : A → bool) (l : list A) :
  (length (List.filter (λ x, p x && q x) l)
   + length (List.filter (λ x, p x && negb (q x)) l)
   = length (List.filter p l))%nat.
Proof.
  induction l as [|a l IH]; [done|].
  cbn [List.filter]. destruct (p a), (q a); cbn; lia.
Qed.

(** A month gives at most as many synthetic transactions as it had
    transactions. *)
Lemma length_synthetic_of old k :
  (length (synthetic_of (month_summary_of old k) k)
   ≤ length (List.filter (λ t, (month_of t =? k)%string) old))%nat.
Proof.
  rewrite <-(length_filter_split (λ t, (month_of t =? k)%string) is_income old).
  unfold synthetic_of, month_summary_of. cbn [ms_income ms_expense].
  rewrite length_app.
  apply Nat.add_le_mono.
  - destruct (0 <? _) eqn:H; [|cbn; lia].
    apply Z.ltb_lt in H. by apply sum_amounts_positive.
  - destruct (0 <? _) eqn:H; [|cbn; lia].
    apply Z.ltb_lt in H. by apply sum_amounts_positive.
Qed.

Lemma length_filter_partition {A} (p : A → bool) (l : list A) :
  (length (List.filter p l) + length (List.filter (λ x, negb (p x)) l)
   = length l)%nat.
Proof.
  induction l as [|a l IH]; [done|].
  cbn [List.filter]. destruct (p a); cbn; lia.
Qed.

Lemma compress_with_length cutoff now_iso data :
  (length (transactions (compress_with cutoff now_iso data))
   ≤ length (transactions data))%nat.
Proof.
  destruct (compress_with_eq cutoff now_iso data) as (months & -> & Hsorted & Hmonths).
  cbn [transactions]. rewrite length_app.
  rewrite <-(length_filter_partition (is_old cutoff) (transactions data)).
  apply Nat.add_le_mono_r.
  set (old := List.filter (is_old cutoff) (transactions data)) in *.
  apply Nat2Z.inj_le. rewrite length_join_months.
  rewrite <-(count_by_month months old).
  - apply sum_over_le. intros k _. apply Nat2Z.inj_le, length_synthetic_of.
  - by apply strictly_ascending_NoDup.
  - intros t Ht. apply Hmonths, list_elem_of_fmap. by exists t.
Qed.

(** Whatever the ledger holds, the compressed ledger has no more
    transactions than the original, and the same opening balance. *)
Theorem compress_logs_never_grows (today : Calendar.datetime) (now_iso : string)
    (data result : ledger) (keep_months : Z) :
  compress_logs today now_iso data keep_months = Some result →
  (length (transactions result) ≤ length (transactions data))%nat
  ∧ initialBalance result = initialBalance data.
Proof.
  unfold compress_logs. intros Hres.
  destruct (Calendar.add_months today (- keep_months)) as [c|]; [|done].
  cbn in Hres. injection Hres as <-. split; [apply compress_with_length|].
  destruct (compress_with_eq (Calendar.strftime_Ym c) now_iso data) as (m & -> & _).
  done.
Qed.

Lemma compress_logs_never_grows_witness :
  ∃ result,
    compress_logs sample_today "2026-11-04T09:00:00" scenario_ledger 3 = Some result
    ∧ (length (transactions result) ≤ 2)%nat.
Proof.
  eexists. split; [reflexivity|].
  eapply (proj1 (compress_logs_never_grows sample_today "2026-11-04T09:00:00"
                   scenario_ledger _ 3 eq_refl)).
Defined.

(** ** Compression and the month part of a date *)

Lemma compare_app_l a c x :
  (String.length c ≤ String.length a)%nat →
  String.compare a c = Lt → String.compare (a +:+ x) c = Lt.
Proof.
  revert c. induction a as [|ca a IH]; intros [|cc c] Hlen Hcmp; try done.
  { cbn [String.length] in Hlen. lia. }
  change (String ca a +:+ x) with (String ca (a +:+ x)).
  cbn [String.compare String.length] in *. destruct (Ascii.compare ca cc); [|done..].
  apply IH; [lia|done].
Qed.

Lemma ltb_app_l a c x :
  (String.length c ≤ String.length a)%nat →
  (a <? c)%string = true → (a +:+ x <? c)%string = true.
Proof.
  unfold String.ltb. intros Hlen Hlt.
  destruct (String.compare a c) eqn:Hcmp; try done.
  by rewrite compare_app_l.
Qed.

(** A date of at least seven characters with a month part before a
    seven-byte cutoff is before the cutoff, and so is the first day of that
    month, whose month part is the same. *)
Lemma old_date_before_cutoff cutoff t :
  String.length cutoff = 7%nat → (7 ≤ Py.len (tx_date t))%nat →
  is_old cutoff t = true →
  (tx_date t <? cutoff)%string = true
  ∧ (month_of t +:+ "-01" <? cutoff)%string = true
  ∧ Py.slice_to 7 (month_of t +:+ "-01") = month_of t.
Proof.
  intros Hc Ht Hold. unfold is_old, month_of in *.
  pose proof (slice_to_len 7 (tx_date t) Ht) as Hlen.
  pose proof (len_length (Py.slice_to 7 (tx_date t))) as Hbytes.
  split; [|split].
  - destruct (slice_to_app 7 (tx_date t)) as [r Hr]. rewrite Hr at 1.
    apply ltb_app_l; [lia|done].
  - apply ltb_app_l; [lia|done].
  - by apply slice_to_again.
Qed.

(** The signed sum of a list, by its incomes and its other amounts. *)
Lemma sum_signed_split l :
  sum_signed l
  = Py.sum_amounts (List.filter is_income l)
    - Py.sum_amounts (List.filter (λ t, negb (is_income t)) l).
Proof.
  unfold sum_signed, Py.sum_amounts, signed_amount.
  induction l as [|t l IH]; [done|].
  cbn [List.filter foldr]. destruct (is_income t); cbn [negb foldr]; lia.
Qed.

Lemma sum_signed_app l1 l2 : sum_signed (l1 ++ l2) = sum_signed l1 + sum_signed l2.
Proof. unfold sum_signed. induction l1 as [|t l1 IH]; simpl; lia. Qed.

Lemma sum_signed_partition (q : transaction → bool) l :
  sum_signed l
  = sum_signed (List.filter q l) + sum_signed (List.filter (λ t, negb (q t)) l).
Proof.
  unfold sum_signed. induction l as [|t l IH]; [done|].
  cbn [List.filter foldr]. destruct (q t); cbn [negb foldr]; lia.
Qed.

Lemma filter_comm_bool {A} (p q : A → bool) l :
  List.filter p (List.filter q l) = List.filter q (List.filter p l).
Proof.
  rewrite !filter_filter_bool. apply filter_ext_bool. intros x. apply andb_comm.
Qed.

Lemma sum_signed_join (f : string → list transaction) ks :
  sum_signed (mjoin (f <$> ks)) = sum_over (λ k, sum_signed (f k)) ks.
Proof.
  induction ks as [|k ks IH]; [done|].
  change (mjoin (f <$> k :: ks)) with (f k ++ mjoin (f <$> ks)).
  by rewrite sum_signed_app, IH.
Qed.

Lemma synthetic_of_signed s k :
  0 ≤ ms_income s → 0 ≤ ms_expense s →
  sum_signed (synthetic_of s k) = ms_income s - ms_expense s.
Proof.
  intros Hi He. unfold synthetic_of, sum_signed, signed_amount.
  destruct (0 <? ms_income s) eqn:H1, (0 <? ms_expense s) eqn:H2; cbn;
    rewrite ?Z.ltb_ge in *; lia.
Qed.

Lemma sum_over_sub f g ks :
  sum_over (λ k, f k - g k) ks = sum_over f ks - sum_over g ks.
Proof. unfold sum_over. induction ks; simpl; lia. Qed.

(** The synthetic transactions carry the signed sum of the old ones. *)
Lemma synthetic_signed_sum old months :
  Forall (λ t, 0 ≤ tx_amount t) old →
  NoDup months → (∀ t, t ∈ old → month_of t ∈ months) →
  sum_signed (mjoin ((λ k, synthetic_of (month_summary_of old k) k) <$> months))
  = sum_signed old.
Proof.
  intros Hpos Hnd Hcover.
  rewrite sum_signed_join.
  rewrite (sum_over_ext _
    (λ k, ms_income (month_summary_of old k) - ms_expense (month_summary_of old k))).
  2:{ intros k _. apply synthetic_of_signed;
        apply sum_amounts_nonneg; by apply Forall_list_filter. }
  rewrite sum_over_sub. cbn [month_summary_of ms_income ms_expense].
  rewrite (sum_by_month is_income), (sum_by_month (λ t, negb (is_income t))) by done.
  by rewrite sum_signed_split.
Qed.

Lemma synthetic_of_elem s k t :
  t ∈ synthetic_of s k → tx_date t = k +:+ "-01".
Proof.
  unfold synthetic_of. intros Ht. apply elem_of_app in Ht as [Ht|Ht].
  - destruct (0 <? ms_income s); [|by inv Ht].
    by apply list_elem_of_singleton in Ht as ->.
  - destruct (0 <? ms_expense s); [|by inv Ht].
    by apply list_elem_of_singleton in Ht as ->.
Qed.

Lemma elem_of_join_months (f : string → list transaction) ks t :
  t ∈ mjoin (f <$> ks) ↔ ∃ k, k ∈ ks ∧ t ∈ f k.
Proof.
  induction ks as [|k ks IH].
  - split; [by inversion 1|by intros (k & Hk & _); inv Hk].
  - change (mjoin (f <$> k :: ks)) with (f k ++ mjoin (f <$> ks)).
    rewrite elem_of_app, IH. split.
    + intros [Ht|(k' & Hk' & Ht)]; [exists k|exists k']; split; try done;
        [by left|by right].
    + intros (k' & Hk' & Ht). apply elem_of_cons in Hk' as [->|Hk'];
        [by left|right; by exists k'].
Qed.

Lemma compress_with_balance cutoff now_iso data d :
  String.length cutoff = 7%nat →
  Forall (λ t, 0 ≤ tx_amount t) (transactions data) →
  Forall (λ t, (7 ≤ Py.len (tx_date t))%nat) (transactions data) →
  (cutoff <=? d)%string = true →
  get_balance_at_date (compress_with cutoff now_iso data) d
  = get_balance_at_date data d.
Proof.
  intros Hc Hpos Hlen Hd.
  destruct (compress_with_eq cutoff now_iso data) as (months & -> & Hsorted & Hmonths).
  rewrite !get_balance_at_date_signed. cbn [initialBalance transactions]. f_equal.
  set (old := List.filter (is_old cutoff) (transactions data)) in *.
  set (kept := List.filter (λ t, negb (is_old cutoff t)) (transactions data)).
  set (before := λ t : transaction, (tx_date t <=? d)%string).
  assert (∀ t, t ∈ old → 7 ≤ Py.len (tx_date t) ∧ is_old cutoff t = true)%nat
    as Hold.
  { intros t Ht. apply list_filter_elem in Ht as [Ht Ho]. split; [|done].
    by eapply Forall_forall in Hlen. }
  rewrite List.filter_app, sum_signed_app.
  rewrite (sum_signed_partition (is_old cutoff) (List.filter before (transactions data))).
  rewrite !(filter_comm_bool _ before). fold old kept. f_equal.
  rewrite (list_filter_all before old); cycle 1.
  { intros t Ht. destruct (Hold t Ht) as [H7 Ho].
    destruct (old_date_before_cutoff cutoff t Hc H7 Ho) as (Hlt & _).
    apply ltb_leb. by eapply ltb_leb_trans. }
  rewrite list_filter_all; cycle 1.
  { intros t Ht. apply elem_of_join_months in Ht as (k & Hk & Ht).
    apply synthetic_of_elem in Ht. unfold before. rewrite Ht.
    apply Hmonths, list_elem_of_fmap in Hk as (u & -> & Hu).
    destruct (Hold u Hu) as [H7 Ho].
    destruct (old_date_before_cutoff cutoff u Hc H7 Ho) as (_ & Hlt & _).
    apply ltb_leb. by eapply ltb_leb_trans. }
  apply synthetic_signed_sum.
  - by apply Forall_list_filter.
  - by apply strictly_ascending_NoDup.
  - intros t Ht. apply Hmonths, list_elem_of_fmap. by exists t.
Qed.

(** With amounts that are not negative, dates of at least seven characters
    (a year and a month) and a cutoff month in a year from 1000 on (written
    with four digits, as the dates are), compression changes no balance from
    the cutoff month on: at every date at or after the cutoff month
    [get_balance_at_date] gives on the compressed ledger what it gave on the
    original. *)
Theorem compress_logs_keeps_balances (today cutoff_date : Calendar.datetime)
    (now_iso : string) (data : ledger) (keep_months : Z) (d : string) :
  Calendar.add_months today (- keep_months) = Some cutoff_date →
  1000 ≤ Calendar.year cutoff_date →
  Forall (λ t, 0 ≤ tx_amount t) (transactions data) →
  Forall (λ t, (7 ≤ Py.len (tx_date t))%nat) (transactions data) →
  (Calendar.strftime_Ym cutoff_date <=? d)%string = true →
  ∃ result,
    compress_logs today now_iso data keep_months = Some result
    ∧ get_balance_at_date result d = get_balance_at_date data d.
Proof.
  intros Hadd Hyear Hpos Hlen Hd. eexists. split.
  - unfold compress_logs. rewrite Hadd. reflexivity.
  - apply compress_with_balance; [by apply strftime_Ym_length|done..].
Qed.

Lemma compress_logs_keeps_balances_witness :
  Calendar.add_months sample_today (- 3) = Some (Calendar.Datetime 2026 8 4)
  ∧ Forall (λ t, 0 ≤ tx_amount t) (transactions scenario_ledger)
  ∧ Forall (λ t, (7 ≤ Py.len (tx_date t))%nat) (transactions scenario_ledger)
  ∧ ("2026-08" <=? "2026-09-15")%string = true
  ∧ ∃ result,
      compress_logs sample_today "2026-11-04T09:00:00" scenario_ledger 3 = Some result
      ∧ get_balance_at_date result "2026-09-15"
        = get_balance_at_date scenario_ledger "2026-09-15".
Proof.
  assert (Forall (λ t, 0 ≤ tx_amount t) (transactions scenario_ledger)) as Hpos.
  { by repeat constructor. }
  assert (Forall (λ t, (7 ≤ Py.len (tx_date t))%nat)
                 (transactions scenario_ledger)) as Hlen.
  { repeat constructor; vm_compute; lia. }
  split; [reflexivity|]. split; [exact Hpos|]. split; [exact Hlen|].
  split; [reflexivity|].
  apply (compress_logs_keeps_balances sample_today (Calendar.Datetime 2026 8 4)
           "2026-11-04T09:00:00" scenario_ledger 3 "2026-09-15");
    [reflexivity|cbn; lia|exact Hpos|exact Hlen|reflexivity].
Defined.

(** ** Compressing twice *)

Lemma strictly_sorted_ext l1 l2 :
  StronglySorted (λ a b, (a <? b)%string = true) l1 →
  StronglySorted (λ a b, (a <? b)%string = true) l2 →
  (∀ k, k ∈ l1 ↔ k ∈ l2) → l1 = l2.
Proof.
  intros H1 H2 Hext.
  apply (StronglySorted_unique_strong (λ a b, (a <? b)%string = true)); try done.
  - intros x1 x2 _ _ H12 H21. pose proof (ltb_trans _ _ _ H12 H21) as Hxx.
    by rewrite ltb_irrefl in Hxx.
  - apply NoDup_Permutation; [by apply strictly_ascending_NoDup..|done].
Qed.

Lemma join_skip_empty (f : string → list transaction) ks :
  mjoin (f <$> List.filter (λ k, negb (bool_decide (f k = []))) ks)
  = mjoin (f <$> ks).
Proof.
  induction ks as [|k ks IH]; [done|].
  cbn [List.filter]. change (mjoin (f <$> k :: ks)) with (f k ++ mjoin (f <$> ks)).
  destruct (bool_decide (f k = [])) eqn:Hk; cbn [negb].
  - apply bool_decide_eq_true in Hk. by rewrite Hk, IH.
  - change (mjoin (f <$> k :: ?l)) with (f k ++ mjoin (f <$> l)). by rewrite IH.
Qed.

(** The transactions of one month among the synthetic ones. *)
Lemma filter_month_join (f : string → list transaction) ks k :
  NoDup ks → (∀ k' t, k' ∈ ks → t ∈ f k' → month_of t = k') → k ∈ ks →
  List.filter (λ t, (month_of t =? k)%string) (mjoin (f <$> ks)) = f k.
Proof.
  intros Hnd. induction Hnd as [|k' ks Hk' Hnd IH]; intros Hmonth Hk; [by inv Hk|].
  change (mjoin (f <$> k' :: ks)) with (f k' ++ mjoin (f <$> ks)).
  rewrite List.filter_app.
  assert (∀ j, j ∈ ks → j ≠ k →
            List.filter (λ t, (month_of t =? k)%string) (f j) = []) as Hother.
  { intros j Hj Hne. apply list_filter_none. intros t Ht.
    apply String.eqb_neq. rewrite (Hmonth j t); [done|by right|done]. }
  apply elem_of_cons in Hk as [->|Hk].
  - rewrite list_filter_all; cycle 1.
    { intros t Ht. apply String.eqb_eq, Hmonth; [by left|done]. }
    rewrite (list_filter_none _ (mjoin _)); [by rewrite app_nil_r|].
    intros t Ht. apply elem_of_join_months in Ht as (j & Hj & Ht).
    apply String.eqb_neq. rewrite (Hmonth j t); [|by right|done].
    intros ->. done.
  - rewrite list_filter_none, IH; [done| |done|].
    + intros j t Hj Ht. apply Hmonth; [by right|done].
    + intros t Ht. apply String.eqb_neq. rewrite (Hmonth k' t); [|by left|done].
      intros ->. done.
Qed.

Lemma synthetic_of_sums s k :
  Py.sum_amounts (List.filter is_income (synthetic_of s k))
  = (if 0 <? ms_income s then ms_income s else 0)
  ∧ Py.sum_amounts (List.filter (λ t, negb (is_income t)) (synthetic_of s k))
    = (if 0 <? ms_expense s then ms_expense s else 0).
Proof.
  unfold synthetic_of, Py.sum_amounts.
  destruct (0 <? ms_income s), (0 <? ms_expense s); cbn; split; lia.
Qed.

(** Summing the synthetic transactions of a month up again gives the same
    synthetic transactions. *)
Lemma synthetic_of_again s k :
  synthetic_of
    {| ms_income := Py.sum_amounts (List.filter is_income (synthetic_of s k));
       ms_expense :=
         Py.sum_amounts (List.filter (λ t, negb (is_income t)) (synthetic_of s k)) |}
    k
  = synthetic_of s k.
Proof.
  destruct (synthetic_of_sums s k) as [-> ->].
  unfold synthetic_of. cbn [ms_income ms_expense].
  by destruct (0 <? ms_income s) eqn:Hi, (0 <? ms_expense s) eqn:He;
    rewrite ?Hi, ?He.
Qed.

Lemma compress_with_twice cutoff now1 now2 data :
  Forall (λ t, (7 ≤ Py.len (tx_date t))%nat) (transactions data) →
  transactions (compress_with cutoff now2 (compress_with cutoff now1 data))
  = transactions (compress_with cutoff now1 data).
Proof.
  intros Hlen.
  destruct (compress_with_eq cutoff now1 data) as (months & Heq1 & Hsorted & Hmonths).
  destruct (compress_with_eq cutoff now2 (compress_with cutoff now1 data))
    as (months' & -> & Hsorted' & Hmonths').
  rewrite Heq1 in *. cbn [transactions] in *.
  set (old := List.filter (is_old cutoff) (transactions data)) in *.
  set (kept := List.filter (λ t, negb (is_old cutoff t)) (transactions data)) in *.
  set (F := λ k, synthetic_of (month_summary_of old k) k) in *.
  assert (NoDup months) as Hnd by by apply strictly_ascending_NoDup.
  assert (∀ k, k ∈ months →
               Py.slice_to 7 (k +:+ "-01") = k ∧ (k <? cutoff)%string = true) as Hkeys.
  { intros k Hk. apply Hmonths, list_elem_of_fmap in Hk as (u & -> & Hu).
    apply list_filter_elem in Hu as [Hu Hold].
    split; [|done]. unfold month_of. apply slice_to_again; [|done].
    by eapply Forall_forall in Hlen. }
  assert (∀ k t, k ∈ months → t ∈ F k → month_of t = k) as Hmonth.
  { intros k t Hk Ht. apply synthetic_of_elem in Ht. unfold month_of.
    rewrite Ht. by apply Hkeys. }
  assert (List.filter (is_old cutoff) (mjoin (F <$> months) ++ kept)
          = mjoin (F <$> months)) as Hold'.
  { rewrite List.filter_app, list_filter_all.
    - unfold kept. rewrite filter_filter_bool, list_filter_none; [by rewrite app_nil_r|].
      intros t _. by destruct (is_old cutoff t).
    - intros t Ht. apply elem_of_join_months in Ht as (k & Hk & Ht).
      unfold is_old. rewrite (Hmonth k t Hk Ht). by apply Hkeys. }
  assert (List.filter (λ t, negb (is_old cutoff t)) (mjoin (F <$> months) ++ kept)
          = kept) as Hkept'.
  { rewrite List.filter_app, list_filter_none.
    - unfold kept. rewrite filter_filter_bool. apply filter_ext_bool.
      intros t. by destruct (is_old cutoff t).
    - intros t Ht. apply elem_of_join_months in Ht as (k & Hk & Ht).
      unfold is_old. rewrite (Hmonth k t Hk Ht). apply negb_false_iff. by apply Hkeys. }
  rewrite Hold', Hkept' in *. f_equal.
  assert (∀ k, k ∈ months →
            synthetic_of (month_summary_of (mjoin (F <$> months)) k) k = F k) as HF.
  { intros k Hk. unfold month_summary_of at 1.
    rewrite <-!filter_filter_bool.
    rewrite (filter_month_join F months k Hnd) by done.
    apply synthetic_of_again. }
  assert (months' = List.filter (λ k, negb (bool_decide (F k = []))) months) as ->.
  { apply strictly_sorted_ext; [done|by apply list_filter_StronglySorted|].
    intros k. rewrite Hmonths', list_filter_elem, list_elem_of_fmap. split.
    - intros (t & -> & Ht). apply elem_of_join_months in Ht as (j & Hj & Ht).
      rewrite (Hmonth j t Hj Ht). split; [done|].
      apply negb_true_iff, bool_decide_eq_false. intros Hnil.
      rewrite Hnil in Ht. by inv Ht.
    - intros [Hk Hne]. apply negb_true_iff, bool_decide_eq_false in Hne.
      destruct (F k) as [|t l] eqn:HFk; [done|]. exists t. split.
      + symmetry. apply Hmonth; [done|]. rewrite HFk. by left.
      + apply elem_of_join_months. exists k. split; [done|]. rewrite HFk. by left. }
  etrans; [|apply (join_skip_empty F months)]. f_equal.
  apply list_fmap_ext. intros i k Hk.
  apply list_elem_of_lookup_2, list_filter_elem in Hk as [Hk _]. by apply HF.
Qed.

(** With dates of at least seven characters, compressing a compressed
    ledger again at the same moment changes nothing but the time stamp:
    the synthetic transactions are folded into themselves. *)
Theorem compress_logs_twice (today : Calendar.datetime) (now1 now2 : string)
    (data once : ledger) (keep_months : Z) :
  compress_logs today now1 data keep_months = Some once →
  Forall (λ t, (7 ≤ Py.len (tx_date t))%nat) (transactions data) →
  ∃ twice,
    compress_logs today now2 once keep_months = Some twice
    ∧ transactions twice = transactions once
    ∧ initialBalance twice = initialBalance once
    ∧ compressed twice = Some true
    ∧ compressedAt twice = Some now2.
Proof.
  unfold compress_logs. intros Honce Hlen.
  destruct (Calendar.add_months today (- keep_months)) as [c|]; [|done].
  cbn in Honce. injection Honce as <-. eexists. split; [reflexivity|].
  split; [by apply compress_with_twice|].
  destruct (compress_with_eq (Calendar.strftime_Ym c) now2
              (compress_with (Calendar.strftime_Ym c) now1 data)) as (m & -> & _).
  done.
Qed.

Lemma compress_logs_twice_witness :
  Forall (λ t, (7 ≤ Py.len (tx_date t))%nat) (transactions scenario_ledger)
  ∧ ∃ once twice,
      compress_logs sample_today "2026-11-04T09:00:00" scenario_ledger 3 = Some once
      ∧ compress_logs sample_today "2026-11-04T09:05:00" once 3 = Some twice
      ∧ transactions twice = transactions once.
Proof.
  assert (Forall (λ t, (7 ≤ Py.len (tx_date t))%nat)
                 (transactions scenario_ledger)) as Hlen.
  { repeat constructor; vm_compute; lia. }
  split; [exact Hlen|].
  destruct (compress_logs_twice sample_today "2026-11-04T09:00:00"
              "2026-11-04T09:05:00" scenario_ledger _ 3 eq_refl Hlen)
    as (twice & Htwice & Htx & _).
  eexists _, twice. split; [reflexivity|]. split; [exact Htwice|exact Htx].
Defined.

(** ** The editor's [main] *)

Lemma truthy_inv (a : option string) :
  Py.truthy a = true → ∃ s, a = Some s ∧ s ≠ "".
Proof.
  destruct a as [s|]; [|done]. cbn. intros H. exists s. split; [done|].
  apply negb_true_iff in H. by apply String.eqb_neq.
Qed.

Lemma truthy_int_inv (n : option Z) :
  truthy_int n = true → ∃ k, n = Some k ∧ k ≠ 0.
Proof.
  destruct n as [k|]; [|done]. cbn. intros H. exists k. split; [done|].
  apply negb_true_iff in H. by apply Z.eqb_neq.
Qed.

(** [main] writes a file only after an addition, an edit or a deletion that
    succeeded, never while listing or searching; it writes to [--output]
    when that is given and not empty and over the input file otherwise, and
    what it writes is the ledger the operation left. *)
Theorem editor_main_saves_only_mutations (lower : string → string) (new_id : string)
    (args : editor_args) (data : ledger) (path : string) (written : ledger) :
  ed_saved (editor_main lower new_id args data) = Some (path, written) →
  ed_list args = false
  ∧ Py.truthy (ed_search args) = false
  ∧ path = or_else (ed_output args) (ed_file args)
  ∧ ((ed_add args = true
      ∧ ∃ date type_ amount desc,
          ed_date args = Some date ∧ date ≠ ""
          ∧ ed_type args = Some type_ ∧ type_ ≠ ""
          ∧ ed_amount args = Some amount ∧ amount ≠ 0
          ∧ ed_desc args = Some desc ∧ desc ≠ ""
          ∧ written = (add_transaction new_id data date type_ amount desc).2)
     ∨ (ed_add args = false
        ∧ ∃ id tx,
            ed_edit args = Some id ∧ id ≠ ""
            ∧ edit_transaction data id (ed_date args) (ed_type args)
                               (ed_amount args) (ed_desc args) = (Some tx, written))
     ∨ (ed_add args = false ∧ Py.truthy (ed_edit args) = false
        ∧ ∃ id tx,
            ed_delete args = Some id ∧ id ≠ ""
            ∧ delete_transaction data id = (Some tx, written))).
Proof.
  unfold editor_main.
  destruct (ed_list args); [done|].
  destruct (Py.truthy (ed_search args)); [done|].
  destruct (ed_add args).
  - destruct (ed_date args) as [date|] eqn:Hdate; [|done].
    destruct (ed_type args) as [type_|] eqn:Htype; [|done].
    destruct (ed_amount args) as [amount|] eqn:Hamount; [|done].
    destruct (ed_desc args) as [desc|] eqn:Hdesc; [|done].
    destruct (Py.truthy (Some date)) eqn:H1; [|done].
    destruct (Py.truthy (Some type_)) eqn:H2; [|done].
    destruct (truthy_int (Some amount)) eqn:H3; [|done].
    destruct (Py.truthy (Some desc)) eqn:H4; [|done].
    cbn [andb ed_saved]. intros [= <- <-].
    apply truthy_inv in H1 as (? & [= <-] & ?), H2 as (? & [= <-] & ?),
                        H4 as (? & [= <-] & ?).
    apply truthy_int_inv in H3 as (? & [= <-] & ?).
    split; [done|]. split; [done|]. split; [done|]. left. split; [done|].
    by exists date, type_, amount, desc.
  - destruct (Py.truthy (ed_edit args)) eqn:Hedit.
    + destruct (negb _); [done|].
      apply truthy_inv in Hedit as (id & Hid & Hne). rewrite Hid. cbv [default from_option Datatypes.id].
      destruct (edit_transaction data id (ed_date args) (ed_type args)
                  (ed_amount args) (ed_desc args)) as [[tx|] ledger_after] eqn:Hed; [|done].
      cbn [fst snd ed_saved]. intros [= <- <-].
      split; [done|]. split; [done|]. split; [done|]. right. left.
      split; [done|]. by exists id, tx.
    + destruct (Py.truthy (ed_delete args)) eqn:Hdelete; [|done].
      apply truthy_inv in Hdelete as (id & Hid & Hne). rewrite Hid. cbv [default from_option Datatypes.id].
      destruct (delete_transaction data id) as [[tx|] ledger_after] eqn:Hdel; [|done].
      cbn [fst snd ed_saved]. intros [= <- <-].
      split; [done|]. split; [done|]. split; [done|]. right. right.
      split; [done|]. split; [done|]. by exists id, tx.
Qed.

Lemma editor_main_saves_only_mutations_witness :
  ∃ written,
    ed_saved
      (editor_main ascii_lower "tx-3"
         (EditorArgs "okane.json" false false None (Some "tx-1") None None None None
                     None None None None None 50 None false)
         scenario_ledger)
    = Some ("okane.json", written)
    ∧ delete_transaction scenario_ledger "tx-1"
      = (Some (Transaction "tx-1" "2026-01-01" "income" 5000 "pay"), written).
Proof.
  eexists. split; [reflexivity|].
  destruct (editor_main_saves_only_mutations ascii_lower "tx-3"
              (EditorArgs "okane.json" false false None (Some "tx-1") None None None
                          None None None None None None 50 None false)
              scenario_ledger "okane.json" _ eq_refl)
    as (_ & _ & _ & [(Hadd & _)|[(_ & id & tx & Hedit & _)|(_ & _ & id & tx & Hid & _ & Hdel)]]).
  - done.
  - done.
  - reflexivity.
Defined.

(** [main] takes an amount of 0 for no amount: [--add] with [--amount 0] is
    turned down with the usage text, and so is [--edit] when [--amount 0] is
    the only change asked for; nothing is written. *)
Theorem editor_main_refuses_zero_amount (lower : string → string) (new_id : string)
    (args : editor_args) (data : ledger) :
  ed_list args = false → Py.truthy (ed_search args) = false →
  ed_amount args = Some 0 →
  (ed_add args = true →
   editor_main lower new_id args data = {| ed_printed := AddUsage; ed_saved := None |})
  ∧ (ed_add args = false → Py.truthy (ed_edit args) = true →
     Py.truthy (ed_date args) = false → Py.truthy (ed_type args) = false →
     Py.truthy (ed_desc args) = false →
     editor_main lower new_id args data
     = {| ed_printed := EditUsage; ed_saved := None |}).
Proof.
  intros Hlist Hsearch Hamount. unfold editor_main.
  rewrite Hlist, Hsearch, Hamount. split.
  - intros ->. destruct (ed_date args), (ed_type args), (ed_desc args); try done.
    by rewrite andb_false_r.
  - intros -> -> -> -> ->. done.
Qed.

Lemma editor_main_refuses_zero_amount_witness :
  editor_main ascii_lower "tx-3"
    (EditorArgs "okane.json" false true None None None (Some "2026-02-01")
                (Some "income") (Some 0) (Some "gift") None None None None 50 None false)
    scenario_ledger
  = {| ed_printed := AddUsage; ed_saved := None |}
  ∧ editor_main ascii_lower "tx-3"
      (EditorArgs "okane.json" false false (Some "tx-1") None None None None (Some 0)
                  None None None None None 50 None false)
      scenario_ledger
    = {| ed_printed := EditUsage; ed_saved := None |}.
Proof.
  split.
  - exact (proj1 (editor_main_refuses_zero_amount ascii_lower "tx-3"
                    (EditorArgs "okane.json" false true None None None
                       (Some "2026-02-01") (Some "income") (Some 0) (Some "gift")
                       None None None None 50 None false)
                    scenario_ledger eq_refl eq_refl eq_refl) eq_refl).
  - exact (proj2 (editor_main_refuses_zero_amount ascii_lower "tx-3"
                    (EditorArgs "okane.json" false false (Some "tx-1") None None None
                       None (Some 0) None None None None None 50 None false)
                    scenario_ledger eq_refl eq_refl eq_refl)
             eq_refl eq_refl eq_refl eq_refl eq_refl).
Defined.

(** In list mode with a limit that is not negative, [main] shows at most
    [limit] of the records that pass the filters, the newest ones (a record
    that passes and is not shown is dated no later than each one shown),
    never filters by keyword, and prints the summary of the whole ledger,
    not of the records shown. *)
Theorem editor_main_list_shows_newest (lower : string → string) (new_id : string)
    (args : editor_args) (data : ledger) :
  ed_list args = true → 0 ≤ ed_limit args →
  let found :=
    search_transactions lower data None (ed_type args) (ed_start_date args)
      (ed_end_date args) (ed_min_amount args) (ed_max_amount args) in
  ∃ shown,
    editor_main lower new_id args data
    = {| ed_printed :=
           ShowTransactions shown (ed_full_id args) (Some (print_summary data));
         ed_saved := None |}
    ∧ shown = take (Z.to_nat (ed_limit args)) found
    ∧ (length shown ≤ Z.to_nat (ed_limit args))%nat
    ∧ (∀ t u, t ∈ shown → u ∈ drop (Z.to_nat (ed_limit args)) found →
              (tx_date u <=? tx_date t)%string = true).
Proof.
  intros Hlist Hlimit found. unfold editor_main. rewrite Hlist.
  unfold slice_list. rewrite (proj2 (Z.leb_le 0 _) Hlimit). fold found.
  eexists. split; [reflexivity|]. split; [done|].
  split; [rewrite length_take; lia|].
  intros t u Ht Hu.
  apply (take_sorted_prefix (λ a b, date_ge a b = true)
           (Z.to_nat (ed_limit args)) found); [|done..].
  unfold found. rewrite search_transactions_eq. apply sorted_by_date_reverse_sorted.
Qed.

Lemma editor_main_list_shows_newest_witness :
  ∃ shown,
    editor_main ascii_lower "tx-3"
      (EditorArgs "okane.json" true false None None None None None None None
                  None None None None 1 None false)
      scenario_ledger
    = {| ed_printed := ShowTransactions shown false (Some (print_summary scenario_ledger));
         ed_saved := None |}
    ∧ (length shown ≤ 1)%nat.
Proof.
  destruct (editor_main_list_shows_newest ascii_lower "tx-3"
              (EditorArgs "okane.json" true false None None None None None None None
                          None None None None 1 None false)
              scenario_ledger eq_refl)
    as (shown & Heq & _ & Hlen & _); [done|].
  exists shown. split; [exact Heq|exact Hlen].
Defined.

(** ** The analyzer's [main] *)

(** [--forecast 0] and [--check 0] count as not given: without another
    mode, [main] then runs the default, a forecast over six months and the
    danger points at threshold 0, whatever [--threshold] and [--date]
    say. *)
Theorem analyzer_main_zero_is_default (today : Calendar.datetime) (now_iso : string)
    (args : analyzer_args) (data : ledger) :
  an_compress args = false →
  an_forecast args = None ∨ an_forecast args = Some 0 →
  an_check args = None ∨ an_check args = Some 0 →
  an_danger args = false → an_chart args = false → an_interactive args = false →
  analyzer_main today now_iso args data
  = (results ← forecast_balance today data 6;
     Some {| an_printed := ForecastAndDanger results (find_danger_points data 0);
             an_saved := None |}).
Proof.
  unfold analyzer_main. intros -> Hf Hc -> -> ->.
  assert (truthy_int (an_forecast args) = false) as -> by by destruct Hf as [-> | ->].
  assert (truthy_int (an_check args) = false) as -> by by destruct Hc as [-> | ->].
  done.
Qed.

Lemma analyzer_main_zero_is_default_witness :
  option_map
    (λ run, match an_printed run with
            | ForecastAndDanger results points => Some (length results, points)
            | _ => None
            end)
    (analyzer_main sample_today "2026-11-04T09:00:00"
       (AnalyzerArgs "okane.json" (Some 0) None None false 5000 false 3 None
                     false false 6 false)
       scenario_ledger)
  = Some (Some (7%nat, [])).
Proof.
  rewrite (analyzer_main_zero_is_default sample_today "2026-11-04T09:00:00"
             (AnalyzerArgs "okane.json" (Some 0) None None false 5000 false 3 None
                           false false 6 false)
             scenario_ledger eq_refl (or_intror eq_refl) (or_introl eq_refl)
             eq_refl eq_refl eq_refl).
  reflexivity.
Defined.

Lemma replace_absent old new s :
  Py.contains old s = false → replace old new s = s.
Proof.
  unfold replace. induction s as [|c s IH]; [done|].
  cbn [Py.contains replace_from]. intros H.
  apply orb_false_iff in H as [-> H]. by rewrite IH.
Qed.

(** Compressing without [--output] writes to the input file's name with
    every [.json] replaced by [-compressed.json]; when the name holds no
    [.json] that is the input file itself, which is then overwritten with
    the compressed ledger. *)
Theorem analyzer_main_compress_overwrites (today : Calendar.datetime)
    (now_iso : string) (args : analyzer_args) (data compressed : ledger) :
  an_compress args = true →
  supplied (an_output args) = None →
  Py.contains ".json" (an_file args) = false →
  compress_logs today now_iso data (an_keep_months args) = Some compressed →
  analyzer_main today now_iso args data
  = Some {| an_printed :=
              CompressedCounts (length (transactions data))
                               (length (transactions compressed)) (an_file args);
            an_saved := Some (an_file args, compressed) |}.
Proof.
  intros Hc Hout Hfile Hcompress. unfold analyzer_main.
  rewrite Hc, Hcompress. cbn [mbind option_bind].
  assert (or_else (an_output args)
            (replace ".json" "-compressed.json" (an_file args)) = an_file args) as ->.
  { rewrite replace_absent by done. unfold supplied, or_else in *.
    destruct (an_output args) as [o|]; [|done]. by destruct (Py.truthy (Some o)). }
  done.
Qed.

Lemma analyzer_main_compress_overwrites_witness :
  ∃ compressed,
    compress_logs sample_today "2026-11-04T09:00:00" scenario_ledger 3 = Some compressed
    ∧ option_map an_saved
        (analyzer_main sample_today "2026-11-04T09:00:00"
           (AnalyzerArgs "okane-backup" None None None false 0 true 3 None
                         false false 6 false)
           scenario_ledger)
      = Some (Some ("okane-backup", compressed)).
Proof.
  eexists. split; [reflexivity|].
  by rewrite (analyzer_main_compress_overwrites sample_today "2026-11-04T09:00:00"
                (AnalyzerArgs "okane-backup" None None None false 0 true 3 None
                              false false 6 false)
                scenario_ledger _ eq_refl eq_refl eq_refl eq_refl).
Defined.

Example compress_output_path :
  replace ".json" "-compressed.json" "okane-backup.json" = "okane-backup-compressed.json"
  ∧ replace ".json" "-compressed.json" "a.json.json"
    = "a-compressed.json-compressed.json".
Proof. split; reflexivity. Qed.

(** ** The curve of the interactive chart *)

Section ChartFacts.
Import Calendar.

Lemma digit_compare a b :
  Ascii.compare (digit a) (digit b) = (a mod 10 ?= b mod 10).
Proof.
  unfold digit, Ascii.compare, ascii_of_nat.
  pose proof (Z.mod_pos_bound a 10 eq_refl). pose proof (Z.mod_pos_bound b 10 eq_refl).
  rewrite !N_ascii_embedding by lia.
  rewrite <-N2Z.inj_compare, !nat_N_Z, !Nat2Z.inj_add, !Z2Nat.id by lia.
  apply Z.add_compare_mono_l.
Qed.

(** Zero-padded numbers compare as strings the way they compare as
    numbers. *)
Lemma fmt2_compare a b x y :
  0 ≤ a < 100 → 0 ≤ b < 100 →
  String.compare (fmt2 a +:+ x) (fmt2 b +:+ y)
  = match a ?= b with Eq => String.compare x y | c => c end.
Proof.
  intros Ha Hb. unfold fmt2.
  change (String.compare (String (digit (a / 10)) (String (digit a) x))
                         (String (digit (b / 10)) (String (digit b) y))
          = match a ?= b with Eq => String.compare x y | c => c end).
  cbn [String.compare]. rewrite !digit_compare.
  destruct (Z.compare_spec ((a / 10) mod 10) ((b / 10) mod 10));
    [destruct (Z.compare_spec (a mod 10) (b mod 10))|..];
    destruct (Z.compare_spec a b); try done; exfalso;
    Z.div_mod_to_equations; lia.
Qed.

Lemma four_digits_compare a b x y :
  0 ≤ a < 10000 → 0 ≤ b < 10000 →
  String.compare
    (String (digit (a / 1000)) (String (digit (a / 100)) (fmt2 a +:+ x)))
    (String (digit (b / 1000)) (String (digit (b / 100)) (fmt2 b +:+ y)))
  = match a ?= b with Eq => String.compare x y | c => c end.
Proof.
  intros Ha Hb. unfold fmt2.
  change (String.compare
            (String (digit (a / 1000)) (String (digit (a / 100))
               (String (digit (a / 10)) (String (digit a) x))))
            (String (digit (b / 1000)) (String (digit (b / 100))
               (String (digit (b / 10)) (String (digit b) y))))
          = match a ?= b with Eq => String.compare x y | c => c end).
  cbn [String.compare]. rewrite !digit_compare.
  destruct (Z.compare_spec ((a / 1000) mod 10) ((b / 1000) mod 10));
    [destruct (Z.compare_spec ((a / 100) mod 10) ((b / 100) mod 10));
     [destruct (Z.compare_spec ((a / 10) mod 10) ((b / 10) mod 10));
      [destruct (Z.compare_spec (a mod 10) (b mod 10))|..]|..]|..];
    destruct (Z.compare_spec a b); try done; exfalso;
    Z.div_mod_to_equations; lia.
Qed.

(** The texts of a month and of a day of a year from 1000 on, digit by
    digit. *)
Lemma strftime_Ym_four dt x :
  1000 ≤ year dt →
  strftime_Ym dt +:+ x
  = String (digit (year dt / 1000))
      (String (digit (year dt / 100))
         (fmt2 (year dt) +:+ String "-" (fmt2 (month dt) +:+ x))).
Proof. intros Hy. unfold strftime_Ym. by rewrite fmt_year_four. Qed.

Lemma strftime_Ymd_four dt :
  1000 ≤ year dt →
  strftime_Ymd dt
  = String (digit (year dt / 1000))
      (String (digit (year dt / 100))
         (fmt2 (year dt)
          +:+ String "-" (fmt2 (month dt) +:+ String "-" (fmt2 (day dt) +:+ "")))).
Proof. intros Hy. unfold strftime_Ymd. by rewrite strftime_Ym_four. Qed.

Lemma valid_bounds dt :
  valid dt = true →
  1 ≤ year dt ≤ 9999 ∧ 1 ≤ month dt ≤ 12 ∧ 1 ≤ day dt ≤ 31
  ∧ day dt ≤ days_in_month (year dt) (month dt).
Proof.
  intros Hv. destruct (valid_inv dt Hv) as (Hy & Hm & Hd).
  unfold MINYEAR, MAXYEAR in Hy.
  destruct (days_in_month_cases (year dt) (month dt) Hm) as [?|[?|[?|?]]]; lia.
Qed.

Lemma datetime_le_iff a b :
  datetime_le a b = true
  ↔ year a < year b
    ∨ (year a = year b
       ∧ (month a < month b ∨ (month a = month b ∧ day a ≤ day b))).
Proof.
  unfold datetime_le.
  rewrite orb_true_iff, andb_true_iff, orb_true_iff, andb_true_iff.
  rewrite !Z.ltb_lt, !Z.eqb_eq, Z.leb_le. done.
Qed.

Lemma datetime_le_refl a : datetime_le a a = true.
Proof. apply datetime_le_iff. lia. Qed.

Lemma datetime_le_trans a b c :
  datetime_le a b = true → datetime_le b c = true → datetime_le a c = true.
Proof. rewrite !datetime_le_iff. lia. Qed.

Lemma datetime_le_antisym a b :
  datetime_le a b = true → datetime_le b a = true → a = b.
Proof.
  rewrite !datetime_le_iff. destruct a, b. cbn [year month day].
  intros H1 H2. f_equal; lia.
Qed.

(** From year 1000 on, formatted dates compare as strings the way the
    dates compare. *)
Lemma strftime_Ymd_le a b :
  valid a = true → valid b = true → 1000 ≤ year a → 1000 ≤ year b →
  (strftime_Ymd a <=? strftime_Ymd b)%string = datetime_le a b.
Proof.
  intros Ha Hb Ha1000 Hb1000.
  destruct (valid_bounds a Ha) as (Hya & Hma & Hda & _).
  destruct (valid_bounds b Hb) as (Hyb & Hmb & Hdb & _).
  assert (String.compare (strftime_Ymd a) (strftime_Ymd b)
          = match year a ?= year b with
            | Eq => match month a ?= month b with
                    | Eq => match day a ?= day b with Eq => Eq | c => c end
                    | c => c
                    end
            | c => c
            end) as Hcmp.
  { rewrite !strftime_Ymd_four by done.
    rewrite four_digits_compare by lia. cbn [String.compare].
    change (Ascii.compare "-" "-") with Eq. cbv iota.
    rewrite fmt2_compare by lia. cbn [String.compare].
    change (Ascii.compare "-" "-") with Eq. cbv iota.
    rewrite fmt2_compare by lia. done. }
  apply eq_true_iff_eq. rewrite datetime_le_iff.
  unfold String.leb. rewrite Hcmp.
  destruct (Z.compare_spec (year a) (year b));
    [destruct (Z.compare_spec (month a) (month b));
     [destruct (Z.compare_spec (day a) (day b))|..]|..];
    split; try done; try lia.
Qed.

Lemma datetime_le_rank a b :
  valid a = true → valid b = true → datetime_le a b = true →
  day_rank a ≤ day_rank b.
Proof.
  intros Ha Hb. rewrite datetime_le_iff. unfold day_rank.
  destruct (valid_bounds a Ha) as (? & ? & ? & _).
  destruct (valid_bounds b Hb) as (? & ? & ? & _). lia.
Qed.

Lemma make_Some y m d dt : make y m d = Some dt → dt = Datetime y m d ∧ valid dt = true.
Proof.
  unfold make. destruct (valid (Datetime y m d)) eqn:Hv; [|done].
  by intros [= <-].
Qed.

(** The day after: the next date, with no date in between. *)
Lemma tomorrow_next c c' :
  valid c = true → tomorrow c = Some c' →
  valid c' = true
  ∧ day_rank c < day_rank c'
  ∧ datetime_le c c' = true
  ∧ ∀ d, valid d = true → datetime_le c d = true → d = c ∨ datetime_le c' d = true.
Proof.
  intros Hc Ht. destruct (valid_bounds c Hc) as (Hy & Hm & Hd & Hdim).
  assert (∀ d, valid d = true → datetime_le c d = true → datetime_le d c = true → d = c)
    as Hanti by (intros; by apply datetime_le_antisym).
  unfold tomorrow in Ht.
  destruct (day c <? days_in_month (year c) (month c)) eqn:Hlt.
  - apply Z.ltb_lt in Hlt. apply make_Some in Ht as [-> Hv].
    split; [done|]. split; [unfold day_rank; cbn [year month day]; lia|].
    split; [apply datetime_le_iff; cbn [year month day]; lia|].
    intros d Hd' Hcd.
    destruct (datetime_le d c) eqn:Hdc; [left; by apply Hanti|right].
    apply datetime_le_iff in Hcd. apply datetime_le_iff. cbn [year month day].
    assert (¬ (year d < year c
               ∨ (year d = year c
                  ∧ (month d < month c ∨ (month d = month c ∧ day d ≤ day c)))))
      as Hn by (rewrite <-datetime_le_iff, Hdc; done).
    lia.
  - apply Z.ltb_ge in Hlt.
    destruct (month c <? 12) eqn:Hm12;
      [apply Z.ltb_lt in Hm12|apply Z.ltb_ge in Hm12];
      apply make_Some in Ht as [-> Hv].
    + split; [done|]. split; [unfold day_rank; cbn [year month day]; lia|].
      split; [apply datetime_le_iff; cbn [year month day]; lia|].
      intros d Hd' Hcd.
      destruct (valid_bounds d Hd') as (? & ? & ? & Hddim).
      destruct (datetime_le d c) eqn:Hdc; [left; by apply Hanti|right].
      apply datetime_le_iff in Hcd. apply datetime_le_iff. cbn [year month day].
      assert (¬ (year d < year c
                 ∨ (year d = year c
                    ∧ (month d < month c ∨ (month d = month c ∧ day d ≤ day c)))))
        as Hn by (rewrite <-datetime_le_iff, Hdc; done).
      destruct (decide (year d = year c ∧ month d = month c)) as [[Hy' Hm']|?]; [|lia].
      rewrite Hy', Hm' in Hddim. lia.
    + split; [done|]. split; [unfold day_rank; cbn [year month day]; lia|].
      split; [apply datetime_le_iff; cbn [year month day]; lia|].
      intros d Hd' Hcd.
      destruct (valid_bounds d Hd') as (? & ? & ? & Hddim).
      destruct (datetime_le d c) eqn:Hdc; [left; by apply Hanti|right].
      apply datetime_le_iff in Hcd. apply datetime_le_iff. cbn [year month day].
      assert (¬ (year d < year c
                 ∨ (year d = year c
                    ∧ (month d < month c ∨ (month d = month c ∧ day d ≤ day c)))))
        as Hn by (rewrite <-datetime_le_iff, Hdc; done).
      destruct (decide (year d = year c ∧ month d = month c)) as [[Hy' Hm']|?]; [|lia].
      rewrite Hy', Hm' in Hddim. lia.
Qed.

(** Only the last day of year 9999 has no day after it. *)
Lemma tomorrow_None c :
  valid c = true → tomorrow c = None → c = Datetime 9999 12 31.
Proof.
  intros Hc Ht. destruct (valid_bounds c Hc) as (Hy & Hm & Hd & Hdim).
  unfold tomorrow in Ht.
  destruct (day c <? days_in_month (year c) (month c)) eqn:Hlt.
  { apply Z.ltb_lt in Hlt. rewrite make_valid in Ht; [done|unfold MINYEAR, MAXYEAR; lia..]. }
  apply Z.ltb_ge in Hlt.
  destruct (month c <? 12) eqn:Hm12;
    [apply Z.ltb_lt in Hm12|apply Z.ltb_ge in Hm12].
  { rewrite make_valid in Ht; [done|unfold MINYEAR, MAXYEAR; lia..|].
    destruct (days_in_month_cases (year c) (month c + 1)) as [?|[?|[?|?]]]; lia. }
  destruct (decide (year c = 9999)) as [Hy9|Hy9].
  - destruct c as [y m d]. cbn [year month day] in *.
    assert (m = 12) as -> by lia. subst y.
    change (days_in_month 9999 12) with 31 in *. f_equal. lia.
  - rewrite make_valid in Ht; [done|unfold MINYEAR, MAXYEAR; lia..|].
    change (days_in_month (year c + 1) 1) with 31. lia.
Qed.

Lemma tomorrow_before_end c e :
  valid c = true → valid e = true → datetime_le c e = true →
  tomorrow e ≠ None → ∃ c', tomorrow c = Some c'.
Proof.
  intros Hc He Hce Hne. destruct (tomorrow c) as [c'|] eqn:Ht; [by exists c'|].
  apply tomorrow_None in Ht; [|done]. subst c.
  destruct Hne. destruct (valid_bounds e He) as (? & ? & ? & _).
  apply datetime_le_iff in Hce. cbn [year month day] in Hce.
  destruct e as [y m d]. cbn [year month day] in *.
  assert (y = 9999) as -> by lia. assert (m = 12) as -> by lia.
  assert (d = 31) as -> by lia. done.
Qed.

(** The inner loop posts the longest run of remaining records dated at or
    before the day. *)
Lemma post_until_spec date_str remaining balance :
  ∃ posted,
    remaining = posted ++ (post_until date_str remaining balance).2
    ∧ (post_until date_str remaining balance).1 = balance + sum_signed posted
    ∧ Forall (λ t, (tx_date t <=? date_str)%string = true) posted
    ∧ match (post_until date_str remaining balance).2 with
      | t :: _ => (tx_date t <=? date_str)%string = false
      | [] => True
      end.
Proof.
  revert balance. induction remaining as [|t rest IH]; intros balance.
  - exists []. cbn. split; [done|]. split; [lia|]. split; [constructor|done].
  - cbn [post_until]. destruct (tx_date t <=? date_str)%string eqn:Ht.
    + destruct (IH (apply_tx balance t)) as (posted & Hrest & Hbal & Hall & Hhead).
      exists (t :: posted). split; [cbn; by rewrite <-Hrest|].
      split; [rewrite Hbal, apply_tx_signed;
              change (sum_signed (t :: posted)) with (signed_amount t + sum_signed posted);
              lia|].
      split; [by constructor|done].
    + exists []. cbn. split; [done|]. split; [lia|]. split; [constructor|done].
Qed.

(** In a list sorted by date, the records at or before a day are a prefix:
    everything up to the first record after the day. *)
Lemma sorted_prefix_filter (date_str : string) (posted rest : list transaction) :
  StronglySorted (λ a b, date_le a b = true) (posted ++ rest) →
  Forall (λ t, (tx_date t <=? date_str)%string = true) posted →
  match rest with
  | t :: _ => (tx_date t <=? date_str)%string = false
  | [] => True
  end →
  List.filter (λ t, (tx_date t <=? date_str)%string) (posted ++ rest) = posted.
Proof.
  intros Hs Hposted Hhead. rewrite List.filter_app.
  rewrite list_filter_all by (by apply Forall_forall).
  rewrite list_filter_none; [apply app_nil_r|]. apply Forall_forall.
  apply StronglySorted_app_1_r in Hs.
  destruct rest as [|t rest]; [constructor|].
  apply StronglySorted_inv in Hs as [_ Hle].
  assert (∀ u, (tx_date t <=? tx_date u)%string = true →
               (tx_date u <=? date_str)%string = false) as Hlater.
  { intros u Htu. destruct (tx_date u <=? date_str)%string eqn:Hu; [|done].
    by rewrite (leb_trans _ _ _ Htu Hu) in Hhead. }
  constructor; [done|]. eapply Forall_impl; [exact Hle|]. intros u Hu. by apply Hlater.
Qed.

Lemma balance_of_posted data date_str posted rest :
  sorted_by_date (transactions data) = posted ++ rest →
  Forall (λ t, (tx_date t <=? date_str)%string = true) posted →
  match rest with
  | t :: _ => (tx_date t <=? date_str)%string = false
  | [] => True
  end →
  default 0 (initialBalance data) + sum_signed posted
  = get_balance_at_date data date_str.
Proof.
  intros Hsorted Hposted Hhead. rewrite get_balance_at_date_signed. f_equal.
  rewrite <-(sorted_prefix_filter date_str posted rest); [|by rewrite <-Hsorted; apply sorted_by_date_sorted|done..].
  rewrite <-Hsorted. apply sum_signed_Permutation.
  apply list_filter_Permutation. apply sorted_by_date_Permutation.
Qed.

Lemma add_days_succ c c' (i : nat) :
  tomorrow c = Some c' → add_days c (Z.of_nat (S i)) = add_days c' (Z.of_nat i).
Proof.
  intros Ht. unfold add_days.
  rewrite !(proj2 (Z.leb_le 0 _)) by lia. rewrite !Nat2Z.id.
  rewrite Nat.iter_succ_r. cbn [mbind option_bind]. by rewrite Ht.
Qed.

(** The daily loop from a day of a year from 1000 on: with fuel past the
    bound it returns, the rounds are the consecutive days up to the end
    date, each with the balance of [get_balance_at_date] at that day, and no
    day up to the end date is left out. *)
Lemma daily_balances_spec data end_date :
  valid end_date = true → tomorrow end_date ≠ None →
  ∀ fuel current_date posted remaining,
    valid current_date = true → 1000 ≤ year current_date →
    Z.max 0 (day_rank end_date - day_rank current_date + 1) < Z.of_nat fuel →
    sorted_by_date (transactions data) = posted ++ remaining →
    Forall (λ t, (tx_date t <=? strftime_Ymd current_date)%string = true) posted →
    ∃ points,
      daily_balances fuel current_date end_date remaining
                     (default 0 (initialBalance data) + sum_signed posted)
      = Some points
      ∧ (∀ (i : nat) p, points !! i = Some p →
           ∃ d, add_days current_date (Z.of_nat i) = Some d
                ∧ valid d = true ∧ datetime_le d end_date = true
                ∧ p = (strftime_Ymd d, get_balance_at_date data (strftime_Ymd d)))
      ∧ (∀ d, valid d = true → datetime_le current_date d = true →
              datetime_le d end_date = true →
              (strftime_Ymd d, get_balance_at_date data (strftime_Ymd d)) ∈ points).
Proof.
  intros He Hne fuel.
  induction fuel as [|fuel IH];
    intros c posted remaining Hc Hyear Hfuel Hsorted Hposted; [lia|].
  cbn [daily_balances]. destruct (datetime_le c end_date) eqn:Hce.
  - destruct (tomorrow_before_end c end_date Hc He Hce Hne) as [c' Hc'].
    rewrite Hc'. cbn [mbind option_bind].
    destruct (tomorrow_next c c' Hc Hc') as (Hv' & Hrank & Hcc' & Hgap).
    pose proof (datetime_le_rank c end_date Hc He Hce) as Hrce.
    destruct (post_until_spec (strftime_Ymd c) remaining
                (default 0 (initialBalance data) + sum_signed posted))
      as (more & Hrem & Hbal & Hmore & Hhead).
    set (r := post_until (strftime_Ymd c) remaining
                (default 0 (initialBalance data) + sum_signed posted)) in *.
    assert (r.1 = default 0 (initialBalance data) + sum_signed (posted ++ more)) as Hbal'.
    { rewrite Hbal, sum_signed_app. lia. }
    assert (r.1 = get_balance_at_date data (strftime_Ymd c)) as Hbalance.
    { rewrite Hbal'.
      apply (balance_of_posted data (strftime_Ymd c) (posted ++ more) r.2);
        [by rewrite <-app_assoc, <-Hrem|by apply Forall_app|done]. }
    assert (1000 ≤ year c') as Hyear'.
    { apply datetime_le_iff in Hcc'. lia. }
    destruct (IH c' (posted ++ more) r.2) as (rest & Hrest & Hdays & Hall).
    + done.
    + done.
    + lia.
    + by rewrite <-app_assoc, <-Hrem.
    + eapply Forall_impl; [apply Forall_app; split; [exact Hposted|exact Hmore]|].
      intros t Ht. eapply leb_trans; [exact Ht|].
      by rewrite strftime_Ymd_le.
    + rewrite Hbal', Hrest. cbn [mbind option_bind].
      eexists. split; [reflexivity|]. split.
      * intros [|i] p Hp.
        -- cbn in Hp. injection Hp as <-. exists c.
           split; [done|]. split; [done|]. split; [done|]. by rewrite <-Hbal', Hbalance.
        -- cbn in Hp. destruct (Hdays i p Hp) as (d & Hd & ?).
           exists d. split; [|done]. by rewrite (add_days_succ c c').
      * intros d Hd Hcd Hde. destruct (Hgap d Hd Hcd) as [->|Hc'd].
        -- rewrite <-Hbal', Hbalance. by left.
        -- right. by apply Hall.
  - exists []. split; [done|]. split; [by intros i p|].
    intros d Hd Hcd Hde. by rewrite (datetime_le_trans _ _ _ Hcd Hde) in Hce.
Qed.

End ChartFacts.

Lemma generate_interactive_chart_runs (strptime : string → option Calendar.datetime)
    (today : Calendar.datetime) (data : ledger) (months_ahead : Z)
    (first : transaction) (start_date end_date : Calendar.datetime) :
  head (sorted_by_date (transactions data)) = Some first →
  strptime (tx_date first) = Some start_date → Calendar.valid start_date = true →
  1000 ≤ Calendar.year start_date →
  Calendar.add_months today months_ahead = Some end_date →
  end_date ≠ Calendar.Datetime 9999 12 31 →
  Calendar.valid end_date = true
  ∧ ∃ points,
      generate_interactive_chart strptime today data months_ahead
      = Some (Some {| chart_points := points;
                      chart_big_transactions :=
                        big_transactions data (Calendar.strftime_Ymd start_date)
                                              (Calendar.strftime_Ymd end_date);
                      chart_today := Calendar.strftime_Ymd today |})
      ∧ (∀ (i : nat) p, points !! i = Some p →
           ∃ d, Calendar.add_days start_date (Z.of_nat i) = Some d
                ∧ Calendar.valid d = true ∧ datetime_le d end_date = true
                ∧ p = (Calendar.strftime_Ymd d,
                       get_balance_at_date data (Calendar.strftime_Ymd d)))
      ∧ (∀ d, Calendar.valid d = true → datetime_le start_date d = true →
              datetime_le d end_date = true →
              (Calendar.strftime_Ymd d, get_balance_at_date data (Calendar.strftime_Ymd d))
              ∈ points).
Proof.
  intros Hfirst Hstart Hvalid Hyear Hend Hmax.
  assert (Calendar.valid end_date = true) as Hve.
  { unfold Calendar.add_months in Hend. by apply make_Some in Hend as [_ ?]. }
  split; [done|].
  assert (Calendar.tomorrow end_date ≠ None) as Hne.
  { intros Hn. by apply tomorrow_None in Hn. }
  destruct (daily_balances_spec data end_date Hve Hne
              (days_fuel start_date end_date) start_date []
              (sorted_by_date (transactions data)))
    as (points & Hpoints & Hdays & Hall);
    [done|done|unfold days_fuel; lia|done|constructor|].
  exists points. split; [|done].
  unfold generate_interactive_chart.
  destruct (sorted_by_date (transactions data)) as [|t l] eqn:Hsorted; [done|].
  injection Hfirst as ->. rewrite Hstart, Hend. cbn [mbind option_bind].
  change (sum_signed []) with 0 in Hpoints. rewrite Z.add_0_r in Hpoints.
  by rewrite Hpoints.
Qed.

(** The curve of the interactive chart is [get_balance_at_date], day by
    day: when the first date of the ledger parses to a day of a year from
    1000 on (so that every day of the curve is written with four digits of
    year) and the end date, today moved by [months_ahead], is in range and
    not the last day of year 9999, the function returns; its points are the
    consecutive days from the first date, none after the end date, each with
    the balance [get_balance_at_date] gives for that day; and every day from
    the first date through the end date has its point. *)
Theorem interactive_chart_curve (strptime : string → option Calendar.datetime)
    (today : Calendar.datetime) (data : ledger) (months_ahead : Z)
    (first : transaction) (start_date end_date : Calendar.datetime) :
  head (sorted_by_date (transactions data)) = Some first →
  strptime (tx_date first) = Some start_date → Calendar.valid start_date = true →
  1000 ≤ Calendar.year start_date →
  Calendar.add_months today months_ahead = Some end_date →
  end_date ≠ Calendar.Datetime 9999 12 31 →
  ∃ chart,
    generate_interactive_chart strptime today data months_ahead = Some (Some chart)
    ∧ (∀ (i : nat) p, chart_points chart !! i = Some p →
         ∃ d, Calendar.add_days start_date (Z.of_nat i) = Some d
              ∧ datetime_le d end_date = true
              ∧ p = (Calendar.strftime_Ymd d,
                     get_balance_at_date data (Calendar.strftime_Ymd d)))
    ∧ (∀ d, Calendar.valid d = true → datetime_le start_date d = true →
            datetime_le d end_date = true →
            (Calendar.strftime_Ymd d, get_balance_at_date data (Calendar.strftime_Ymd d))
            ∈ chart_points chart).
Proof.
  intros Hfirst Hstart Hvalid Hyear Hend Hmax.
  destruct (generate_interactive_chart_runs strptime today data months_ahead first
              start_date end_date Hfirst Hstart Hvalid Hyear Hend Hmax)
    as (_ & points & Hrun & Hdays & Hall).
  eexists. split; [exact Hrun|]. cbn [chart_points]. split; [|done].
  intros i p Hp. destruct (Hdays i p Hp) as (d & ? & ? & ? & ?). by exists d.
Qed.

Lemma interactive_chart_curve_witness :
  ∃ chart,
    generate_interactive_chart strptime_padded sample_today salary_ledger 0
    = Some (Some chart)
    ∧ ("2026-10-26", 320000) ∈ chart_points chart
    ∧ ("2026-11-04", 240000) ∈ chart_points chart.
Proof.
  destruct (interactive_chart_curve strptime_padded sample_today salary_ledger 0
              (Transaction "s-1" "2026-10-25" "income" 300000 "salary")
              (Calendar.Datetime 2026 10 25) (Calendar.Datetime 2026 11 4)
              eq_refl eq_refl eq_refl)
    as (chart & Hrun & Hdays & Hall); [cbn; lia|reflexivity|done|].
  exists chart. split; [exact Hrun|]. split.
  - exact (Hall (Calendar.Datetime 2026 10 26) eq_refl eq_refl eq_refl).
  - exact (Hall (Calendar.Datetime 2026 11 4) eq_refl eq_refl eq_refl).
Defined.

(** Every marker of the interactive chart stands for a transaction of
    200000 or more and shows the balance of [get_balance_at_date] at its
    date; when the first date and the end date are days of a year from 1000
    on and the date of the marker is the text [YYYY-MM-DD] of a calendar
    date of such a year, the marker lies on the curve. *)
Theorem big_transactions_on_curve (strptime : string → option Calendar.datetime)
    (today : Calendar.datetime) (data : ledger) (months_ahead : Z)
    (first : transaction) (start_date end_date : Calendar.datetime) :
  head (sorted_by_date (transactions data)) = Some first →
  strptime (tx_date first) = Some start_date → Calendar.valid start_date = true →
  1000 ≤ Calendar.year start_date →
  Calendar.add_months today months_ahead = Some end_date →
  1000 ≤ Calendar.year end_date →
  end_date ≠ Calendar.Datetime 9999 12 31 →
  ∃ chart,
    generate_interactive_chart strptime today data months_ahead = Some (Some chart)
    ∧ ∀ m, m ∈ chart_big_transactions chart →
        (∃ t, t ∈ transactions data ∧ 200000 ≤ tx_amount t
              ∧ big_date m = tx_date t ∧ big_amount m = tx_amount t
              ∧ big_balance m = get_balance_at_date data (tx_date t))
        ∧ (∀ d, Calendar.valid d = true → 1000 ≤ Calendar.year d →
                big_date m = Calendar.strftime_Ymd d →
                (big_date m, big_balance m) ∈ chart_points chart).
Proof.
  intros Hfirst Hstart Hvalid Hyear Hend Hyear_end Hmax.
  destruct (generate_interactive_chart_runs strptime today data months_ahead first
              start_date end_date Hfirst Hstart Hvalid Hyear Hend Hmax)
    as (Hve & points & Hrun & _ & Hall).
  eexists. split; [exact Hrun|]. cbn [chart_points chart_big_transactions].
  intros m Hm. unfold big_transactions in Hm.
  apply list_elem_of_fmap in Hm as (t & -> & Ht).
  apply list_filter_elem in Ht as [Ht Hpass].
  apply andb_true_iff in Hpass as [Hbig Hpass].
  apply andb_true_iff in Hpass as [Hfrom Hto]. apply Z.leb_le in Hbig.
  cbn [big_date big_balance big_amount]. split; [by exists t|].
  intros d Hd Hyear_d Hdate. rewrite Hdate in *.
  apply Hall; [done|by rewrite <-strftime_Ymd_le|by rewrite <-strftime_Ymd_le].
Qed.

Lemma big_transactions_on_curve_witness :
  ∃ chart,
    generate_interactive_chart strptime_padded sample_today salary_ledger 0
    = Some (Some chart)
    ∧ chart_big_transactions chart
      = [BigTransaction "2026-10-25" 320000 "salary" 300000 "income"]
    ∧ ("2026-10-25", 320000) ∈ chart_points chart.
Proof.
  destruct (big_transactions_on_curve strptime_padded sample_today salary_ledger 0
              (Transaction "s-1" "2026-10-25" "income" 300000 "salary")
              (Calendar.Datetime 2026 10 25) (Calendar.Datetime 2026 11 4)
              eq_refl eq_refl eq_refl)
    as (chart & Hrun & Hmarkers); [cbn; lia|reflexivity|cbn; lia|done|].
  assert (chart_big_transactions chart
          = [BigTransaction "2026-10-25" 320000 "salary" 300000 "income"]) as Hbig.
  { pose proof Hrun as Hc. vm_compute in Hc. by injection Hc as <-. }
  exists chart. split; [exact Hrun|]. split; [exact Hbig|].
  refine (proj2 (Hmarkers (BigTransaction "2026-10-25" 320000 "salary" 300000 "income") _)
            (Calendar.Datetime 2026 10 25) eq_refl _ eq_refl).
  - rewrite Hbig. by left.
  - cbn. lia.
Defined.

(** A marker whose date is no calendar date has no day of the curve under
    it. *)
Example marker_off_the_curve :
  let data :=
    set_transactions salary_ledger
      (transactions salary_ledger
       ++ [Transaction "s-3" "2026-10-32" "income" 250000 "bonus"]) in
  option_map
    (option_map (λ chart,
       (big_date <$> chart_big_transactions chart,
        bool_decide ("2026-10-32" ∈ (chart_points chart).*1))))
    (generate_interactive_chart strptime_padded sample_today data 0)
  = Some (Some (["2026-10-25"; "2026-10-32"], false)).
Proof. vm_compute. reflexivity. Qed.

(** ** Amounts as text *)

Lemma group3_ind (P : list ascii → Prop) :
  P [] → (∀ a, P [a]) → (∀ a b, P [a; b]) → (∀ a b c, P [a; b; c]) →
  (∀ a b c d l, P (d :: l) → P (a :: b :: c :: d :: l)) →
  ∀ l, P l.
Proof.
  intros H0 H1 H2 H3 H4 l.
  induction (Nat.lt_wf_0_projected (@length ascii) l) as [l _ IH].
  destruct l as [|a [|b [|c [|d l]]]]; [done..|].
  apply H4, IH. cbn. lia.
Qed.

(** Erasing the commas gives the digits back. *)
Lemma group3_strip l :
  Forall (λ c, is_comma c = false) l →
  List.filter (λ c, negb (is_comma c)) (group3 l) = l.
Proof.
  induction l as [| | | |a b c d l IH] using group3_ind; intros Hl.
  - done.
  - apply list_filter_all. intros x Hx. rewrite Forall_forall in Hl. by rewrite Hl.
  - apply list_filter_all. intros x Hx. rewrite Forall_forall in Hl. by rewrite Hl.
  - apply list_filter_all. intros x Hx. rewrite Forall_forall in Hl. by rewrite Hl.
  - change (group3 (a :: b :: c :: d :: l))
      with (a :: b :: c :: ","%char :: group3 (d :: l)).
    inversion_clear Hl as [|? ? Ha Hl1]. inversion_clear Hl1 as [|? ? Hb Hl2].
    inversion_clear Hl2 as [|? ? Hc Hl3].
    cbn [List.filter]. rewrite Ha, Hb, Hc. cbn [negb].
    change (is_comma ",") with true. cbn [negb]. by rewrite IH.
Qed.

(** The commas of the grouped digits sit at every fourth place. *)
Lemma group3_commas l :
  Forall (λ c, is_comma c = false) l →
  ∀ (j : nat) c, group3 l !! j = Some c → (is_comma c = true ↔ j mod 4 = 3)%nat.
Proof.
  induction l as [|x|x y|x y z|x y z d l IH] using group3_ind; intros Hl j c Hj.
  - done.
  - destruct j as [|j]; [|done]. injection Hj as <-.
    inversion_clear Hl as [|? ? Ha _]. rewrite Ha. done.
  - inversion_clear Hl as [|? ? Ha Hl1]. inversion_clear Hl1 as [|? ? Hb _].
    destruct j as [|[|j]]; [| |done]; injection Hj as <-; [by rewrite Ha|by rewrite Hb].
  - inversion_clear Hl as [|? ? Ha Hl1]. inversion_clear Hl1 as [|? ? Hb Hl2].
    inversion_clear Hl2 as [|? ? Hc _].
    destruct j as [|[|[|j]]]; [| | |done]; injection Hj as <-;
      [by rewrite Ha|by rewrite Hb|by rewrite Hc].
  - change (group3 (x :: y :: z :: d :: l))
      with (x :: y :: z :: ","%char :: group3 (d :: l)) in Hj.
    inversion_clear Hl as [|? ? Ha Hl1]. inversion_clear Hl1 as [|? ? Hb Hl2].
    inversion_clear Hl2 as [|? ? Hc Hl3].
    destruct j as [|[|[|[|j]]]].
    + injection Hj as <-. by rewrite Ha.
    + injection Hj as <-. by rewrite Hb.
    + injection Hj as <-. by rewrite Hc.
    + injection Hj as <-. done.
    + cbn in Hj. rewrite (IH Hl3 j c Hj).
      change (S (S (S (S j)))) with (4 + j)%nat.
      replace (4 + j)%nat with (j + 1 * 4)%nat by lia. by rewrite Nat.Div0.mod_add.
Qed.

Lemma digits_no_comma d :
  Forall (λ c, is_comma c = false)
         (String.list_ascii_of_string (NilEmpty.string_of_uint d)).
Proof. induction d; cbn; constructor; done. Qed.

Lemma with_commas_digits n :
  List.filter (λ c, negb (is_comma c)) (String.list_ascii_of_string (with_commas n))
  = String.list_ascii_of_string (str_nat n).
Proof.
  unfold with_commas. rewrite String.list_ascii_of_string_of_list_ascii.
  rewrite filter_rev, group3_strip, rev_involutive; [done|].
  apply Forall_rev, digits_no_comma.
Qed.

Lemma str_nat_inj a b : 0 ≤ a → 0 ≤ b → str_nat a = str_nat b → a = b.
Proof.
  unfold str_nat. intros Ha Hb Heq.
  apply (f_equal NilEmpty.uint_of_string) in Heq. rewrite !NilEmpty.usu in Heq.
  injection Heq as Heq. apply DecimalN.Unsigned.to_uint_inj in Heq. lia.
Qed.

Lemma with_commas_inj a b : 0 ≤ a → 0 ≤ b → with_commas a = with_commas b → a = b.
Proof.
  intros Ha Hb Heq. apply str_nat_inj; [done..|].
  rewrite <-(String.string_of_list_ascii_of_string (str_nat a)).
  rewrite <-(String.string_of_list_ascii_of_string (str_nat b)).
  by rewrite <-!with_commas_digits, Heq.
Qed.

(** [format_currency] writes different amounts differently: the amount can
    be told from the text. *)
Theorem format_currency_distinct (a b : Z) :
  a ≠ b → format_currency a ≠ format_currency b.
Proof.
  intros Hne Heq. apply Hne. revert Heq. unfold format_currency.
  destruct (0 <=? a) eqn:Ha, (0 <=? b) eqn:Hb;
    [apply Z.leb_le in Ha, Hb|apply Z.leb_le in Ha; apply Z.leb_gt in Hb
    |apply Z.leb_gt in Ha; apply Z.leb_le in Hb|apply Z.leb_gt in Ha, Hb].
  - intros Heq. apply with_commas_inj; [done..|].
    by apply (String.app_inj "¥") in Heq.
  - done.
  - done.
  - intros Heq. apply (String.app_inj "-¥") in Heq.
    apply with_commas_inj in Heq; lia.
Qed.

Lemma format_currency_distinct_witness :
  format_currency 1000 ≠ format_currency (-1000).
Proof. apply format_currency_distinct. lia. Defined.

(** The text of an amount: [¥], after a minus sign for a negative amount,
    then the decimal digits of the absolute value with a comma at every
    fourth place counted from the end, and nowhere else. *)
Theorem format_currency_text (amount : Z) :
  ∃ body,
    format_currency amount
    = (if 0 <=? amount then "¥" else "-¥") +:+ String.string_of_list_ascii body
    ∧ List.filter (λ c, negb (is_comma c)) body
      = String.list_ascii_of_string (str_nat (Z.abs amount))
    ∧ ∀ (i : nat) c, body !! i = Some c →
        (c = ","%char ↔ ((length body - i) mod 4 = 0)%nat).
Proof.
  exists (String.list_ascii_of_string (with_commas (Z.abs amount))).
  split; [|split].
  - rewrite String.string_of_list_ascii_of_string. unfold format_currency.
    destruct (0 <=? amount) eqn:Ha; [|done].
    apply Z.leb_le in Ha. by rewrite Z.abs_eq.
  - apply with_commas_digits.
  - unfold with_commas. rewrite String.list_ascii_of_string_of_list_ascii.
    set (g := group3 (rev (String.list_ascii_of_string (str_nat (Z.abs amount))))).
    intros i c Hi. pose proof (lookup_lt_Some _ _ _ Hi) as Hlt.
    rewrite length_rev in Hlt |- *.
    rewrite rev_alt in Hi. change (rev_append g []) with (reverse g) in Hi.
    rewrite reverse_lookup in Hi by done.
    pose proof (group3_commas _ (Forall_rev (digits_no_comma _)) _ _ Hi) as Hc.
    fold g in Hc.
    assert (c = ","%char ↔ is_comma c = true) as ->.
    { unfold is_comma. by rewrite Ascii.eqb_eq. }
    rewrite Hc.
    replace (length g - i)%nat with (S (length g - S i)) by lia.
    generalize (length g - S i)%nat. intros k.
    pose proof (Nat.mod_upper_bound k 4). pose proof (Nat.mod_upper_bound (S k) 4).
    pose proof (Nat.div_mod_eq k 4). pose proof (Nat.div_mod_eq (S k) 4). lia.
Qed.

Example format_currency_samples :
  format_currency 1234567 = "¥1,234,567" ∧ format_currency (-1000) = "-¥1,000"
  ∧ format_currency 0 = "¥0" ∧ format_currency 999 = "¥999"
  ∧ format_currency 100000 = "¥100,000".
Proof. vm_compute. done. Qed.

(** ** Compression and the analyses of the months kept *)

Section CompressedAnalysis.
Import Calendar.

(** From year 1000 on, a month in the form [YYYY-MM] is at or before
    every date, and every month, of a month that is not earlier. *)
Lemma strftime_Ym_le_Ymd c d :
  1000 ≤ year c < 10000 → 0 ≤ month c < 100 →
  1000 ≤ year d < 10000 → 0 ≤ month d < 100 →
  year c < year d ∨ (year c = year d ∧ month c ≤ month d) →
  (strftime_Ym c <=? strftime_Ymd d)%string = true
  ∧ (strftime_Ym c <=? strftime_Ym d)%string = true.
Proof.
  intros Hyc Hmc Hyd Hmd Hle.
  assert (∀ x, x = "" ∨ (∃ s, x = String "-" s) →
               String.compare (strftime_Ym c +:+ "") (strftime_Ym d +:+ x) ≠ Gt) as Hcmp.
  { intros x Hx. rewrite !strftime_Ym_four by lia.
    rewrite four_digits_compare by lia. cbn [String.compare].
    change (Ascii.compare "-" "-") with Eq. cbv iota.
    rewrite fmt2_compare by lia.
    destruct (Z.compare_spec (year c) (year d)); [|done|lia].
    destruct (Z.compare_spec (month c) (month d)); [|done|lia].
    by destruct Hx as [->|[s ->]]. }
  assert (∀ s, s +:+ "" = s) as Hnil.
  { intros s. induction s as [|a s IH]; [done|].
    change (String a s +:+ "") with (String a (s +:+ "")). by rewrite IH. }
  rewrite Hnil in Hcmp. unfold String.leb. split.
  - specialize (Hcmp (String "-" (fmt2 (day d)))). unfold strftime_Ymd.
    destruct (String.compare _ _); [done..|]. destruct Hcmp; [right; by eexists|done].
  - specialize (Hcmp ""). rewrite Hnil in Hcmp.
    destruct (String.compare _ _); [done..|]. destruct Hcmp; [by left|done].
Qed.

End CompressedAnalysis.

Lemma ltb_leb_false (a b : string) :
  (a <? b)%string = true → (b <=? a)%string = false.
Proof. rewrite ltb_not_leb. apply negb_true_iff. Qed.

(** What compression changes lies before the cutoff: a record of the
    compressed ledger dated at or after the cutoff month is a record of the
    original, and the records of a month from the cutoff on are the same, in
    the same order. *)
Lemma compress_with_recent cutoff now_iso data :
  String.length cutoff = 7%nat →
  Forall (λ t, (7 ≤ Py.len (tx_date t))%nat) (transactions data) →
  (∀ t, t ∈ transactions (compress_with cutoff now_iso data) →
        (cutoff <=? tx_date t)%string = true →
        t ∈ transactions data)
  ∧ (∀ t, t ∈ transactions data → (cutoff <=? tx_date t)%string = true →
          t ∈ transactions (compress_with cutoff now_iso data))
  ∧ (∀ (q : transaction → bool) k,
       (cutoff <=? k)%string = true →
       List.filter (λ t, (month_of t =? k)%string && q t)
                   (transactions (compress_with cutoff now_iso data))
       = List.filter (λ t, (month_of t =? k)%string && q t) (transactions data)).
Proof.
  intros Hc Hlen.
  destruct (compress_with_eq cutoff now_iso data) as (months & -> & Hsorted & Hmonths).
  cbn [transactions].
  set (synth := mjoin ((λ k, synthetic_of
                               (month_summary_of
                                  (List.filter (is_old cutoff) (transactions data)) k) k)
                       <$> months)).
  assert (∀ t, t ∈ synth →
               (tx_date t <? cutoff)%string = true ∧ (month_of t <? cutoff)%string = true)
    as Hsynth.
  { intros t Ht. apply elem_of_join_months in Ht as (k & Hk & Ht).
    apply synthetic_of_elem in Ht. apply Hmonths in Hk.
    apply list_elem_of_fmap in Hk as (u & -> & Hu).
    apply list_filter_elem in Hu as [Hu Hold].
    rewrite Forall_forall in Hlen.
    destruct (old_date_before_cutoff cutoff u Hc (Hlen u Hu) Hold) as (_ & Hlt & Hslice).
    split; [by rewrite Ht|]. unfold month_of at 1. by rewrite Ht, Hslice. }
  assert (∀ t, t ∈ transactions data → is_old cutoff t = true →
               (tx_date t <? cutoff)%string = true) as Hold.
  { intros t Ht Ho. rewrite Forall_forall in Hlen.
    by destruct (old_date_before_cutoff cutoff t Hc (Hlen t Ht) Ho) as (? & _). }
  split; [|split].
  - intros t Ht Hle. apply elem_of_app in Ht as [Ht|Ht].
    + destruct (Hsynth t Ht) as [Hlt _]. by rewrite (ltb_leb_false _ _ Hlt) in Hle.
    + by apply list_filter_elem in Ht as [Ht _].
  - intros t Ht Hle. apply elem_of_app. right. apply list_filter_elem.
    split; [done|]. destruct (is_old cutoff t) eqn:Ho; [|done].
    by rewrite (ltb_leb_false _ _ (Hold t Ht Ho)) in Hle.
  - intros q k Hk. rewrite List.filter_app.
    rewrite (list_filter_none _ synth).
    + cbn [app]. rewrite filter_filter_bool. apply filter_ext_bool. intros t.
      unfold is_old. destruct (month_of t =? k)%string eqn:Heq; [|by rewrite andb_false_r].
      apply String.eqb_eq in Heq. rewrite Heq.
      destruct (k <? cutoff)%string eqn:Hlt; [|done].
      by rewrite (ltb_leb_false _ _ Hlt) in Hk.
    + intros t Ht. destruct (Hsynth t Ht) as [_ Hlt].
      destruct (month_of t =? k)%string eqn:Heq; [|done].
      apply String.eqb_eq in Heq. rewrite Heq in Hlt.
      by rewrite (ltb_leb_false _ _ Hlt) in Hk.
Qed.

Lemma mapM_ext_elem {A B} (f g : A → option B) (l : list A) :
  (∀ x, x ∈ l → f x = g x) → mapM f l = mapM g l.
Proof.
  induction l as [|x l IH]; intros H; [done|].
  cbn. rewrite (H x) by by left. rewrite IH; [done|]. intros y Hy. apply H. by right.
Qed.

Lemma add_months_beyond today i :
  Calendar.MAXYEAR * 12 + 11 < month_index today + i →
  Calendar.add_months today i = None.
Proof.
  intros Hi. unfold Calendar.add_months, Calendar.make.
  destruct (Calendar.valid _) eqn:Hv; [|done].
  apply valid_inv in Hv as (Hy & _). cbn [Calendar.year] in Hy.
  unfold month_index, Calendar.MAXYEAR in *. exfalso.
  Z.div_mod_to_equations. lia.
Qed.

Lemma add_months_Some today n dt :
  Calendar.add_months today n = Some dt →
  Calendar.valid dt = true
  ∧ Calendar.year dt = (month_index today + n) / 12
  ∧ Calendar.month dt = (month_index today + n) mod 12 + 1.
Proof.
  unfold Calendar.add_months. intros H. apply make_Some in H as [-> Hv]. done.
Qed.

(** From a cutoff month of a year from 1000 on, the forecast entry of a
    month is the same on the compressed ledger. *)
Lemma expected_entry_compressed today now_iso data keep_months cutoff_date i :
  Calendar.valid today = true → 0 ≤ keep_months → 0 ≤ i →
  month_index today + i ≤ Calendar.MAXYEAR * 12 + 11 →
  Calendar.add_months today (- keep_months) = Some cutoff_date →
  1000 ≤ Calendar.year cutoff_date →
  Forall (λ t, 0 ≤ tx_amount t) (transactions data) →
  Forall (λ t, (7 ≤ Py.len (tx_date t))%nat) (transactions data) →
  expected_entry today (compress_with (Calendar.strftime_Ym cutoff_date) now_iso data) i
  = expected_entry today data i.
Proof.
  intros Hv Hkeep Hi Hmax Hcut Hyear Hpos Hlen.
  apply add_months_Some in Hcut as (Hvc & Hyc & Hmc).
  destruct (valid_bounds today Hv) as (Hy & Hm & _).
  destruct (valid_bounds cutoff_date Hvc) as (Hcy & Hcm & _).
  pose proof (strftime_Ym_length cutoff_date Hyear) as Hc.
  set (y := (month_index today + i) / 12).
  set (m := (month_index today + i) mod 12 + 1).
  assert (0 ≤ y < 10000 ∧ 1 ≤ m ≤ 12
          ∧ (Calendar.year cutoff_date < y
             ∨ (Calendar.year cutoff_date = y ∧ Calendar.month cutoff_date ≤ m))
          ∧ (Calendar.year cutoff_date < Calendar.year today
             ∨ (Calendar.year cutoff_date = Calendar.year today
                ∧ Calendar.month cutoff_date ≤ Calendar.month today)))
    as (Hyr & Hmr & Hle & Hle0).
  { subst y m. rewrite Hyc, Hmc. unfold month_index, Calendar.MAXYEAR in *.
    Z.div_mod_to_equations. lia. }
  assert (∀ d, (Calendar.strftime_Ym cutoff_date
                <=? Calendar.strftime_Ymd (Calendar.Datetime y m d))%string = true)
    as Hdate.
  { intros d. apply strftime_Ym_le_Ymd; cbn [Calendar.year Calendar.month]; lia. }
  assert ((Calendar.strftime_Ym cutoff_date
           <=? Calendar.strftime_Ym (Calendar.Datetime y m 1))%string = true) as Hmonth.
  { apply strftime_Ym_le_Ymd; cbn [Calendar.year Calendar.month]; lia. }
  assert ((Calendar.strftime_Ym cutoff_date <=? Calendar.strftime_Ymd today)%string = true)
    as Htoday.
  { apply strftime_Ym_le_Ymd; lia. }
  unfold expected_entry. fold y m. cbn zeta. f_equal.
  - apply compress_with_balance; [done..|].
    destruct (i =? 0); [done|apply Hdate].
  - rewrite len_ascii by apply strftime_Ym_ascii.
    rewrite strftime_Ym_length by (cbn [Calendar.year]; lia).
    by apply (compress_with_recent (Calendar.strftime_Ym cutoff_date) now_iso data).
Qed.

(** Compressing does not change the forecast: with amounts that are not
    negative, dates of at least seven characters, [keep_months] not negative
    and a cutoff month in a year from 1000 on, [forecast_balance] gives on
    the compressed ledger what it gives on the original, months, dates,
    balances and large items, and stops with an error on the one exactly
    when it does on the other. *)
Theorem forecast_after_compress (today cutoff_date : Calendar.datetime)
    (now_iso : string) (data result : ledger) (keep_months months_ahead : Z) :
  Calendar.valid today = true → 0 ≤ keep_months →
  Calendar.add_months today (- keep_months) = Some cutoff_date →
  1000 ≤ Calendar.year cutoff_date →
  Forall (λ t, 0 ≤ tx_amount t) (transactions data) →
  Forall (λ t, (7 ≤ Py.len (tx_date t))%nat) (transactions data) →
  compress_logs today now_iso data keep_months = Some result →
  forecast_balance today result months_ahead = forecast_balance today data months_ahead.
Proof.
  intros Hv Hkeep Hcut Hyear Hpos Hlen Hres. unfold compress_logs in Hres.
  rewrite Hcut in Hres. cbn in Hres. injection Hres as <-.
  unfold forecast_balance. apply mapM_ext_elem. intros i Hi.
  apply elem_of_range in Hi.
  destruct (valid_bounds today Hv) as (Hy & Hm & _).
  destruct (decide (i = 0 ∨ month_index today + i < Calendar.MAXYEAR * 12 + 11))
    as [Hin|Hout].
  - rewrite !forecast_entry_at_expected by (done || lia). f_equal.
    apply (expected_entry_compressed today now_iso data keep_months cutoff_date i);
      try done; [lia|].
    unfold month_index, Calendar.MAXYEAR in *. lia.
  - destruct (decide (month_index today + i = Calendar.MAXYEAR * 12 + 11)) as [Heq|Hne].
    + rewrite !forecast_entry_at_december_9999 by (done || lia). done.
    + unfold forecast_entry_at. rewrite add_months_beyond by lia. done.
Qed.

Lemma forecast_after_compress_witness :
  ∃ result,
    compress_logs sample_today "2026-11-04T09:00:00" long_ledger 1 = Some result
    ∧ transactions result ≠ transactions long_ledger
    ∧ forecast_balance sample_today result 2
      = forecast_balance sample_today long_ledger 2.
Proof.
  eexists. split; [reflexivity|].
  split; [intros Hsame; vm_compute in Hsame; discriminate Hsame|].
  apply (forecast_after_compress sample_today (Calendar.Datetime 2026 10 4)
           "2026-11-04T09:00:00" long_ledger _ 1 2);
    [reflexivity|lia|reflexivity|cbn; lia| | |reflexivity].
  - by repeat constructor.
  - repeat constructor; vm_compute; lia.
Defined.

Lemma list_filter_fmap {A B} (f : A → B) (p : B → bool) (l : list A) :
  List.filter p (f <$> l) = f <$> List.filter (λ x, p (f x)) l.
Proof.
  induction l as [|x l IH]; [done|]. cbn. destruct (p (f x)); cbn; by rewrite IH.
Qed.

Lemma compress_with_dated cutoff now_iso data :
  Forall dated (transactions data) →
  Forall dated (transactions (compress_with cutoff now_iso data)).
Proof.
  intros Hd. destruct (compress_with_eq cutoff now_iso data) as (months & -> & _).
  cbn [transactions]. apply Forall_app. split; [|by apply Forall_list_filter].
  apply Forall_forall. intros t Ht.
  apply elem_of_join_months in Ht as (k & _ & Ht). apply synthetic_of_elem in Ht.
  unfold dated. rewrite Ht. by destruct k.
Qed.

(** Compressing keeps the warnings of the months kept: with a cutoff month
    in a year from 1000 on, the danger points dated at or after the cutoff
    month are the same on the compressed ledger as on the original, with
    the same balances and shortfalls. *)
Theorem danger_points_after_compress (today cutoff_date : Calendar.datetime)
    (now_iso : string) (data result : ledger) (keep_months threshold : Z) :
  Calendar.add_months today (- keep_months) = Some cutoff_date →
  1000 ≤ Calendar.year cutoff_date →
  Forall (λ t, 0 ≤ tx_amount t) (transactions data) →
  Forall (λ t, (7 ≤ Py.len (tx_date t))%nat) (transactions data) →
  compress_logs today now_iso data keep_months = Some result →
  List.filter (λ p, (Calendar.strftime_Ym cutoff_date <=? dp_date p)%string)
              (find_danger_points result threshold)
  = List.filter (λ p, (Calendar.strftime_Ym cutoff_date <=? dp_date p)%string)
                (find_danger_points data threshold).
Proof.
  intros Hcut Hyear Hpos Hlen Hres. unfold compress_logs in Hres.
  rewrite Hcut in Hres. cbn in Hres. injection Hres as <-.
  set (cutoff := Calendar.strftime_Ym cutoff_date).
  set (result := compress_with cutoff now_iso data).
  assert (String.length cutoff = 7%nat) as Hc by by apply strftime_Ym_length.
  assert (Forall dated (transactions data)) as Hdated.
  { eapply Forall_impl; [exact Hlen|]. intros t Ht Hempty.
    cbn beta in Ht. rewrite Hempty in Ht. change (7 ≤ 0)%nat in Ht. lia. }
  pose proof (compress_with_dated cutoff now_iso data Hdated) as Hdated'.
  destruct (compress_with_recent cutoff now_iso data Hc Hlen) as (Hback & Hforth & _).
  fold result in Hdated', Hback, Hforth.
  assert (∀ d, (cutoff <=? d)%string = true →
               (d ∈ tx_date <$> transactions result ↔ d ∈ tx_date <$> transactions data))
    as Hdates.
  { intros d Hd. rewrite !list_elem_of_fmap. split; intros (t & -> & Ht); exists t;
      (split; [done|]); [by apply Hback|by apply Hforth]. }
  assert (∀ d, (cutoff <=? d)%string = true → d ∈ tx_date <$> transactions data →
               end_of_day_balance result d = end_of_day_balance data d) as Hbal.
  { intros d Hd Hin. rewrite !end_of_day_balance_at by (done || by apply Hdates).
    by apply compress_with_balance. }
  rewrite !find_danger_points_eq by done. rewrite !list_filter_fmap.
  cbn [point_of dp_date].
  assert (List.filter (λ d, (cutoff <=? d)%string)
            (List.filter (λ d, end_of_day_balance result d <=? threshold)
                         (distinct_dates result))
          = List.filter (λ d, (cutoff <=? d)%string)
              (List.filter (λ d, end_of_day_balance data d <=? threshold)
                           (distinct_dates data))) as ->.
  { apply strictly_sorted_ext.
    - do 2 apply list_filter_StronglySorted. apply distinct_dates_sorted.
    - do 2 apply list_filter_StronglySorted. apply distinct_dates_sorted.
    - intros d. rewrite !list_filter_elem, !distinct_dates_elem. split.
      + intros [[Hin Hle] Hd]. pose proof (proj1 (Hdates d Hd) Hin) as Hin'.
        rewrite <-Hbal by done. done.
      + intros [[Hin Hle] Hd]. pose proof (proj2 (Hdates d Hd) Hin) as Hin'.
        rewrite Hbal by done. done. }
  apply list_fmap_ext. intros j d Hd.
  apply list_elem_of_lookup_2 in Hd. apply list_filter_elem in Hd as [Hd Hle].
  apply list_filter_elem in Hd as [Hd _]. apply distinct_dates_elem in Hd.
  unfold point_of. by rewrite Hbal.
Qed.

Lemma danger_points_after_compress_witness :
  ∃ result,
    compress_logs sample_today "2026-11-04T09:00:00" long_ledger 1 = Some result
    ∧ dp_date <$> find_danger_points long_ledger 250000 = ["2026-03-05"; "2026-10-27"]
    ∧ dp_date <$> find_danger_points result 250000 = ["2026-03-01"; "2026-10-27"]
    ∧ List.filter (λ p, ("2026-10" <=? dp_date p)%string)
                  (find_danger_points result 250000)
      = List.filter (λ p, ("2026-10" <=? dp_date p)%string)
                    (find_danger_points long_ledger 250000).
Proof.
  eexists. split; [reflexivity|]. split; [reflexivity|]. split; [reflexivity|].
  apply (danger_points_after_compress sample_today (Calendar.Datetime 2026 10 4)
           "2026-11-04T09:00:00" long_ledger _ 1 250000);
    [reflexivity|cbn; lia| | |reflexivity].
  - by repeat constructor.
  - repeat constructor; vm_compute; lia.
Defined.

(** The compressed list: records dated before the cutoff month, then the
    records of the original that are not old, in their order. *)
Lemma compress_with_parts cutoff now_iso data :
  String.length cutoff = 7%nat →
  Forall (λ t, (7 ≤ Py.len (tx_date t))%nat) (transactions data) →
  ∃ synth,
    transactions (compress_with cutoff now_iso data)
    = synth ++ List.filter (λ t, negb (is_old cutoff t)) (transactions data)
    ∧ (∀ t, t ∈ synth →
            (tx_date t <? cutoff)%string = true ∧ (month_of t <? cutoff)%string = true)
    ∧ (∀ t, t ∈ transactions data → is_old cutoff t = true →
            (tx_date t <? cutoff)%string = true).
Proof.
  intros Hc Hlen.
  destruct (compress_with_eq cutoff now_iso data) as (months & -> & Hsorted & Hmonths).
  cbn [transactions]. eexists. split; [reflexivity|]. split.
  - intros t Ht. apply elem_of_join_months in Ht as (k & Hk & Ht).
    apply synthetic_of_elem in Ht. apply Hmonths in Hk.
    apply list_elem_of_fmap in Hk as (u & -> & Hu).
    apply list_filter_elem in Hu as [Hu Hold].
    rewrite Forall_forall in Hlen.
    destruct (old_date_before_cutoff cutoff u Hc (Hlen u Hu) Hold) as (_ & Hlt & Hslice).
    split; [by rewrite Ht|]. unfold month_of at 1. by rewrite Ht, Hslice.
  - intros t Ht Ho. rewrite Forall_forall in Hlen.
    by destruct (old_date_before_cutoff cutoff t Hc (Hlen t Ht) Ho) as (? & _).
Qed.

(** A selection that takes only records dated at or after the cutoff month
    selects the same records, in the same order, from the compressed ledger
    as from the original. *)
Lemma compress_with_filter_recent cutoff now_iso data (p : transaction → bool) :
  String.length cutoff = 7%nat →
  Forall (λ t, (7 ≤ Py.len (tx_date t))%nat) (transactions data) →
  (∀ t, p t = true → (cutoff <=? tx_date t)%string = true) →
  List.filter p (transactions (compress_with cutoff now_iso data))
  = List.filter p (transactions data).
Proof.
  intros Hc Hlen Hp.
  destruct (compress_with_parts cutoff now_iso data Hc Hlen) as (synth & -> & Hsynth & Hold).
  rewrite List.filter_app, filter_filter_bool.
  rewrite list_filter_none.
  - cbn [app]. apply List.filter_ext_in. intros t Ht. apply list_elem_of_In in Ht.
    destruct (p t) eqn:Hpt; [|by rewrite andb_false_r].
    destruct (is_old cutoff t) eqn:Ho; [|done].
    pose proof (Hp t Hpt) as Hle. by rewrite (ltb_leb_false _ _ (Hold t Ht Ho)) in Hle.
  - intros t Ht. destruct (p t) eqn:Hpt; [|done].
    destruct (Hsynth t Ht) as [Hlt _]. pose proof (Hp t Hpt) as Hle.
    by rewrite (ltb_leb_false _ _ Hlt) in Hle.
Qed.

Lemma leb_ltb_trans (a b c : string) :
  (a <=? b)%string = true → (b <? c)%string = true → (a <? c)%string = true.
Proof.
  rewrite !ltb_not_leb, !negb_true_iff. intros Hab Hbc.
  destruct (c <=? a)%string eqn:Hca; [|done].
  by rewrite (leb_trans _ _ _ Hca Hab) in Hbc.
Qed.

(** Compressing does not change the verdict on an expense at a date from
    the cutoff month on, when that month is in a year from 1000 on:
    [check_affordability] gives the same balances, the same verdict and the
    same upcoming expenses on the compressed ledger. *)
Theorem affordability_after_compress (today cutoff_date : Calendar.datetime)
    (now_iso : string) (data result : ledger) (keep_months amount : Z)
    (target_date : string) :
  Calendar.add_months today (- keep_months) = Some cutoff_date →
  1000 ≤ Calendar.year cutoff_date →
  Forall (λ t, 0 ≤ tx_amount t) (transactions data) →
  Forall (λ t, (7 ≤ Py.len (tx_date t))%nat) (transactions data) →
  compress_logs today now_iso data keep_months = Some result →
  (Calendar.strftime_Ym cutoff_date <=? target_date)%string = true →
  check_affordability result amount target_date
  = check_affordability data amount target_date.
Proof.
  intros Hcut Hyear Hpos Hlen Hres Hdate. unfold compress_logs in Hres.
  rewrite Hcut in Hres. cbn in Hres. injection Hres as <-.
  unfold check_affordability.
  rewrite compress_with_balance by (done || by apply strftime_Ym_length).
  rewrite compress_with_filter_recent; [done|by apply strftime_Ym_length|done|].
  intros t Ht. apply andb_true_iff in Ht as [Ht _].
  apply ltb_leb. by eapply leb_ltb_trans.
Qed.

Lemma affordability_after_compress_witness :
  ∃ result,
    compress_logs sample_today "2026-11-04T09:00:00" long_ledger 1 = Some result
    ∧ check_affordability result 50000 "2026-10-26"
      = check_affordability long_ledger 50000 "2026-10-26".
Proof.
  eexists. split; [reflexivity|].
  apply (affordability_after_compress sample_today (Calendar.Datetime 2026 10 4)
           "2026-11-04T09:00:00" long_ledger _ 1 50000 "2026-10-26");
    [reflexivity|cbn; lia| | |reflexivity|reflexivity].
  - by repeat constructor.
  - repeat constructor; vm_compute; lia.
Defined.
